(** * Account scoring and tiering: the engine of [Results.tsx]

    A shallow embedding of [calculateScores] and [exportResults]
    (src/pages/Results.tsx) over the record types of src/types/index.ts,
    followed by the properties the specification states about them.

    Numbers.  A JavaScript [number] is a binary64 float.  The weights the
    engine adds up are the integer positions of a slider (min 1, max 10,
    step 1), and sums, differences and comparisons of integers are exact in
    binary64 below 2^53, so weights, [totalScore], [maxScore], [percentage]
    and [rank] are carried as [Z].  The one computation that leaves the
    integers, [(totalScore / maxScore) * 100], is done with the kernel's
    binary64 floats, and [Math.round] brings it back to an integer.  An
    answer to a number question comes from [parseFloat] and stays a float.

    The type of a weight is [number], though, and the loop that adds the
    weights rounds when they are large or fractional.  The loop is therefore
    given a second time on binary64 numbers ([Binary64]); what is said of
    the sum of the weights is said of that loop, and the two loops are proved
    to agree on non-negative integer weights whose sum is below 2^53
    ([scoreQuestions_binary64], [of_Z_add]).

    The last part, Further properties of the code, covers the rest of the
    results page (summary cards, top ten, badges), the account page that
    produces the answers (unnamed/part_001), the criteria page
    (CriteriaBuilder.tsx) and the wizard of App.tsx.  Readings of the clock
    and the host's [trim] are parameters of the handlers that use them. *)

From Stdlib Require Import ZArith List String Ascii Bool Lia.
From Stdlib Require Import Floats DecimalString.
From Stdlib Require Import Sorting.Permutation Sorting.Sorted.
From Stdlib Require DecimalZ DecimalPos.
Import ListNotations.
Local Open Scope Z_scope.

(** ** The data model (src/types/index.ts) *)

Module Question.

Inductive kind : Set := boolean | number | multiple_choice.

Record t : Set := mk {
  id : string;
  text : string;
  type : kind;
  weight : Z;
  options : option (list string);
  companyId : string;
  userId : string;
  createdAt : string
}.

End Question.

Module Account.

Record t : Set := mk {
  id : string;
  name : string;
  industry : string;
  companySize : string;
  revenue : string;
  location : string;
  website : option string;
  notes : option string;
  userId : string;
  createdAt : string
}.

End Account.

(** [answer: string | number | boolean] *)
Inductive AnswerValue : Set :=
| of_string (s : string)
| of_number (x : float)
| of_boolean (b : bool).

Module AccountAnswer.

Record t : Set := mk {
  id : string;
  accountId : string;
  questionId : string;
  answer : AnswerValue;
  userId : string;
  createdAt : string
}.

End AccountAnswer.

Module Tier.

Inductive t : Set := A | B | C | D.

(** The grades in order, [D] lowest. *)
Definition level (x : t) : Z :=
  match x with A => 3 | B => 2 | C => 1 | D => 0 end.

(** How a tier prints in a template literal or a joined row. *)
Definition to_string (x : t) : string :=
  match x with A => "A" | B => "B" | C => "C" | D => "D" end.

End Tier.

Module AccountScore.

Record t : Set := mk {
  accountId : string;
  totalScore : Z;
  maxScore : Z;
  percentage : Z;
  tier : Tier.t;
  rank : Z
}.

(** [score.rank = r], the other fields kept. *)
Definition set_rank (s : t) (r : Z) : t :=
  mk (accountId s) (totalScore s) (maxScore s) (percentage s) (tier s) r.

End AccountScore.

Module EvaluationResult.

Record t : Set := mk {
  account : Account.t;
  score : AccountScore.t;
  answers : list AccountAnswer.t
}.

(** [result.score.rank = r] *)
Definition set_rank (result : t) (r : Z) : t :=
  mk (account result) (AccountScore.set_rank (score result) r) (answers result).

(** The fields of [result.score]. *)
Definition totalScore (result : t) : Z := AccountScore.totalScore (score result).
Definition maxScore (result : t) : Z := AccountScore.maxScore (score result).
Definition percentage (result : t) : Z := AccountScore.percentage (score result).
Definition tier (result : t) : Tier.t := AccountScore.tier (score result).
Definition rank (result : t) : Z := AccountScore.rank (score result).

End EvaluationResult.

(** ** The JavaScript operations the engine uses *)

Module JS.

(** The binary64 number that an integer denotes (round to nearest even). *)
Definition of_Z (z : Z) : float :=
  SF2Prim (binary_normalize prec emax z 0 false).

(** [Math.round]: the integer closest to [x], a tie going towards +infinity,
    that is floor(x + 1/2) computed exactly.  A finite float is [n * 2^e].
    Both zeros give 0.  NaN and the infinities, which [Math.round] returns
    unchanged, have no integer value; they are sent to 0 here and arise in
    [calculateScores] only for scores beyond 2^1023. *)
Definition Math_round (x : float) : Z :=
  match Prim2SF x with
  | S754_finite s m e =>
      let n := if s then Z.neg m else Z.pos m in
      if 0 <=? e then n * 2 ^ e else (2 * n + 2 ^ (- e)) / 2 ^ (1 - e)
  | _ => 0
  end.

(** [v === true] *)
Definition strictly_true (v : AnswerValue) : bool :=
  match v with
  | of_boolean true => true
  | _ => false
  end.

(** [ToBoolean v], the test of [v ? _ : _]: a string is truthy unless empty,
    a number unless it is 0, -0 or NaN. *)
Definition ToBoolean (v : AnswerValue) : bool :=
  match v with
  | of_string s => negb (String.eqb s "")
  | of_number x => negb (PrimFloat.eqb x 0 || PrimFloat.is_nan x)
  | of_boolean b => b
  end.

Section Coercion.

(** [StringToNumber] is the host's conversion of a string to a number
    (ECMA-262, 7.1.4.1.1); the engine reaches it only when a string is stored
    as the answer of a number question. *)
Variable StringToNumber : string -> float.

(** [ToNumber v] *)
Definition ToNumber (v : AnswerValue) : float :=
  match v with
  | of_string s => StringToNumber s
  | of_number x => x
  | of_boolean b => if b then 1%float else 0%float
  end.

(** [v > 0]: the operand is converted with [ToNumber]; a NaN compares false. *)
Definition greater_than_zero (v : AnswerValue) : bool :=
  PrimFloat.ltb 0 (ToNumber v).

End Coercion.

(** [Number.prototype.toString] on an integer below 10^21 in magnitude:
    its decimal digits, with a minus sign when negative. *)
Definition Number_toString (z : Z) : string :=
  NilZero.string_of_int (Z.to_int z).

(** [Array.prototype.join] on strings. *)
Definition Array_join (sep : string) (cells : list string) : string :=
  String.concat sep cells.

Section Sort.

Context {T : Type}.

(** [comparefn a b] positive means that [b] goes before [a]. *)
Variable comparefn : T -> T -> Z.

(** [x] stood before every element of [sorted] in the array. *)
Fixpoint sort_insert (x : T) (sorted : list T) : list T :=
  match sorted with
  | [] => [x]
  | y :: rest =>
      if 0 <? comparefn x y then y :: sort_insert x rest else x :: sorted
  end.

(** [Array.prototype.sort], which ECMAScript 2019 requires to be stable:
    elements that compare equal keep their order.  With a consistent
    comparator every stable sort returns the same array; this one inserts the
    elements from the last to the first. *)
Definition Array_sort (l : list T) : list T :=
  fold_right sort_insert [] l.

End Sort.

End JS.

(** ** The scoring engine ([calculateScores], Results.tsx lines 21-87) *)

Section Engine.

Variable StringToNumber : string -> float.

(** [answers.filter(answer => answer.accountId === account.id)] *)
Definition accountAnswers (answers : list AccountAnswer.t) (account : Account.t)
  : list AccountAnswer.t :=
  filter (fun answer => String.eqb (AccountAnswer.accountId answer) (Account.id account))
         answers.

(** [accountAnswers.find(a => a.questionId === question.id)] *)
Definition findAnswer (accountAnswers : list AccountAnswer.t) (question : Question.t)
  : option AccountAnswer.t :=
  find (fun a => String.eqb (AccountAnswer.questionId a) (Question.id question))
       accountAnswers.

(** The [switch (question.type)] on an answer that was found. *)
Definition questionScore (question : Question.t) (answer : AccountAnswer.t) : Z :=
  match Question.type question with
  | Question.boolean =>
      if JS.strictly_true (AccountAnswer.answer answer)
      then Question.weight question else 0
  | Question.number =>
      if JS.greater_than_zero StringToNumber (AccountAnswer.answer answer)
      then Question.weight question else 0
  | Question.multiple_choice =>
      if JS.ToBoolean (AccountAnswer.answer answer)
      then Question.weight question else 0
  end.

(** One turn of [questions.forEach] on the pair [(totalScore, maxScore)],
    for integer weights; [+=] is exact as long as the sums stay below 2^53.
    [Binary64.scoreQuestion] is the same turn with the rounding of [+=]. *)
Definition scoreQuestion (accountAnswers : list AccountAnswer.t)
  (st : Z * Z) (question : Question.t) : Z * Z :=
  let '(totalScore, maxScore) := st in
  let answer := findAnswer accountAnswers question in
  let maxScore := maxScore + Question.weight question in
  match answer with
  | Some a => (totalScore + questionScore question a, maxScore)
  | None => (totalScore, maxScore)
  end.

(** [(totalScore, maxScore)] after the loop over the questions. *)
Definition scoreQuestions (accountAnswers : list AccountAnswer.t)
  (questions : list Question.t) : Z * Z :=
  fold_left (scoreQuestion accountAnswers) questions (0, 0).

(** [maxScore > 0 ? Math.round((totalScore / maxScore) * 100) : 0] *)
Definition percentageOf (totalScore maxScore : Z) : Z :=
  if 0 <? maxScore
  then JS.Math_round
         (PrimFloat.mul (PrimFloat.div (JS.of_Z totalScore) (JS.of_Z maxScore)) 100%float)
  else 0.

(** The chain of [if (percentage >= ...)]. *)
Definition tierOf (percentage : Z) : Tier.t :=
  if 80 <=? percentage then Tier.A
  else if 60 <=? percentage then Tier.B
  else if 40 <=? percentage then Tier.C
  else Tier.D.

(** The body of [accounts.forEach]: the result pushed for one account,
    its rank still 0. *)
Definition evaluateAccount (questions : list Question.t)
  (answers : list AccountAnswer.t) (account : Account.t) : EvaluationResult.t :=
  let accountAnswers := accountAnswers answers account in
  let '(totalScore, maxScore) := scoreQuestions accountAnswers questions in
  let percentage := percentageOf totalScore maxScore in
  let tier := tierOf percentage in
  EvaluationResult.mk account
    (AccountScore.mk (Account.id account) totalScore maxScore percentage tier 0)
    accountAnswers.

(** [(a, b) => b.score.percentage - a.score.percentage] *)
Definition byPercentage (a b : EvaluationResult.t) : Z :=
  EvaluationResult.percentage b - EvaluationResult.percentage a.

(** [result.score.rank = index + 1] for the results from position [index] on. *)
Fixpoint assignRanks (index : nat) (results : list EvaluationResult.t)
  : list EvaluationResult.t :=
  match results with
  | [] => []
  | result :: rest =>
      EvaluationResult.set_rank result (Z.of_nat index + 1)
      :: assignRanks (S index) rest
  end.

(** The array handed to [setResults]. *)
Definition calculateScores (accounts : list Account.t) (questions : list Question.t)
  (answers : list AccountAnswer.t) : list EvaluationResult.t :=
  let evaluationResults := map (evaluateAccount questions answers) accounts in
  assignRanks 0 (JS.Array_sort byPercentage evaluationResults).

End Engine.

(** ** The loop on binary64 numbers (Results.tsx lines 26-54) *)

(** [weight: number] admits every binary64 number, and [maxScore += ...] and
    [totalScore += ...] round to binary64 at each turn.  [Binary64] is the
    loop of [questions.forEach] once more, with the weights, [totalScore]
    and [maxScore] as floats and [+=] as binary64 addition.  It says what
    the code does for weights of any size, fractions included; on
    non-negative integer weights whose sum is below 2^53 it returns the
    integers of [scoreQuestions] (lemma [scoreQuestions_binary64]). *)
Module Binary64.

Module Question.

Record t : Set := mk {
  id : string;
  text : string;
  type : Question.kind;
  weight : float;
  options : option (list string);
  companyId : string;
  userId : string;
  createdAt : string
}.

End Question.

Section Loop.

Variable StringToNumber : string -> float.

(** [accountAnswers.find(a => a.questionId === question.id)] *)
Definition findAnswer (accountAnswers : list AccountAnswer.t) (question : Question.t)
  : option AccountAnswer.t :=
  find (fun a => String.eqb (AccountAnswer.questionId a) (Question.id question))
       accountAnswers.

(** The [switch (question.type)] on an answer that was found. *)
Definition questionScore (question : Question.t) (answer : AccountAnswer.t) : float :=
  match Question.type question with
  | Question.boolean =>
      if JS.strictly_true (AccountAnswer.answer answer)
      then Question.weight question else 0%float
  | Question.number =>
      if JS.greater_than_zero StringToNumber (AccountAnswer.answer answer)
      then Question.weight question else 0%float
  | Question.multiple_choice =>
      if JS.ToBoolean (AccountAnswer.answer answer)
      then Question.weight question else 0%float
  end.

(** One turn of [questions.forEach] on the pair [(totalScore, maxScore)]. *)
Definition scoreQuestion (accountAnswers : list AccountAnswer.t)
  (st : float * float) (question : Question.t) : float * float :=
  let '(totalScore, maxScore) := st in
  let answer := findAnswer accountAnswers question in
  let maxScore := PrimFloat.add maxScore (Question.weight question) in
  match answer with
  | Some a => (PrimFloat.add totalScore (questionScore question a), maxScore)
  | None => (totalScore, maxScore)
  end.

(** [(totalScore, maxScore)] after the loop, both starting from 0. *)
Definition scoreQuestions (accountAnswers : list AccountAnswer.t)
  (questions : list Question.t) : float * float :=
  fold_left (scoreQuestion accountAnswers) questions (0%float, 0%float).

End Loop.

(** The binary64 sum of the weights of all questions: starting from 0, each
    weight is added in the order of the list. *)
Definition sum_of_weights (questions : list Question.t) : float :=
  fold_left PrimFloat.add (map Question.weight questions) 0%float.

(** A question of the given weight, for the examples. *)
Definition sample_question (n : string) (k : Question.kind) (w : float) : Question.t :=
  Question.mk n "" k w None "company_1" "user_1" "".

End Binary64.

(** A question with an integer weight, as the binary64 loop receives it. *)
Definition toBinary64 (question : Question.t) : Binary64.Question.t :=
  Binary64.Question.mk (Question.id question) (Question.text question)
    (Question.type question) (JS.of_Z (Question.weight question))
    (Question.options question) (Question.companyId question)
    (Question.userId question) (Question.createdAt question).

(** [m * 2^j] *)
Definition shifted (j : nat) (m : positive) : positive := Nat.iter j xO m.

(** The binary64 number that is the positive integer [c], for [c] below 2^53:
    the mantissa has 53 digits. *)
Definition canonical (c : positive) : spec_float :=
  let d := Z.pos (digits2_pos c) in
  S754_finite false (shifted (Z.to_nat (53 - d)) c) (d - 53).

(** ** The CSV export ([exportResults], Results.tsx lines 118-129) *)

Definition newline : string := String (ascii_of_nat 10) EmptyString.

Definition csvHeader : list string :=
  ["Rank"; "Company"; "Industry"; "Score"; "Percentage"; "Tier"]%string.

(** The cells of one result, each as [join] prints it. *)
Definition csvRow (result : EvaluationResult.t) : list string :=
  let score := EvaluationResult.score result in
  [ JS.Number_toString (AccountScore.rank score);
    Account.name (EvaluationResult.account result);
    Account.industry (EvaluationResult.account result);
    (JS.Number_toString (AccountScore.totalScore score) ++ "/"
       ++ JS.Number_toString (AccountScore.maxScore score))%string;
    (JS.Number_toString (AccountScore.percentage score) ++ "%")%string;
    Tier.to_string (AccountScore.tier score) ].

(** [csvContent], the text put in the downloaded file. *)
Definition exportResults (results : list EvaluationResult.t) : string :=
  JS.Array_join newline
    (map (JS.Array_join ",") (csvHeader :: map csvRow results)).

(** One line of the export, field by field: nothing is quoted or escaped. *)
Definition csvLine (result : EvaluationResult.t) : string :=
  (JS.Number_toString (EvaluationResult.rank result) ++ ","
   ++ Account.name (EvaluationResult.account result) ++ ","
   ++ Account.industry (EvaluationResult.account result) ++ ","
   ++ (JS.Number_toString (EvaluationResult.totalScore result) ++ "/"
       ++ JS.Number_toString (EvaluationResult.maxScore result)) ++ ","
   ++ (JS.Number_toString (EvaluationResult.percentage result) ++ "%") ++ ","
   ++ Tier.to_string (EvaluationResult.tier result))%string.

Definition csvHeaderLine : string := "Rank,Company,Industry,Score,Percentage,Tier".

(** ** The specification's own formulas *)

(** The double quote character. *)
Definition dquote : string := String (ascii_of_nat 34) EmptyString.

(** A row as the specification writes it, the Score and Percentage fields
    between double quotes. *)
Definition spec_csvLine (result : EvaluationResult.t) : string :=
  (JS.Number_toString (EvaluationResult.rank result) ++ ","
   ++ Account.name (EvaluationResult.account result) ++ ","
   ++ Account.industry (EvaluationResult.account result) ++ ","
   ++ (dquote ++ JS.Number_toString (EvaluationResult.totalScore result) ++ "/"
       ++ JS.Number_toString (EvaluationResult.maxScore result) ++ dquote) ++ ","
   ++ (dquote ++ JS.Number_toString (EvaluationResult.percentage result) ++ "%"
       ++ dquote) ++ ","
   ++ Tier.to_string (EvaluationResult.tier result))%string.

Definition spec_export (results : list EvaluationResult.t) : string :=
  String.concat newline (csvHeaderLine :: map spec_csvLine results).

(** The nearest integer to [100 * totalScore / maxScore] in exact arithmetic,
    a half rounding up; 0 when [maxScore <= 0]. *)
Definition spec_percentage (totalScore maxScore : Z) : Z :=
  if 0 <? maxScore
  then (2 * (100 * totalScore) + maxScore) / (2 * maxScore)
  else 0.

(** Whether code and specification give the same percentage for every
    [0 <= totalScore <= maxScore < n]. *)
Definition percentages_agree_below (n : nat) : bool :=
  forallb (fun m =>
             forallb (fun t => percentageOf (Z.of_nat t) (Z.of_nat m)
                               =? spec_percentage (Z.of_nat t) (Z.of_nat m))
                     (seq 0 (S m)))
          (seq 0 n).

(** The sum of the weights of all questions. *)
Definition sum_of_weights (questions : list Question.t) : Z :=
  fold_right Z.add 0 (map Question.weight questions).

(** ** Sample data *)

Definition sample_question (n : string) (k : Question.kind) (w : Z) : Question.t :=
  Question.mk n "" k w None "company_1" "user_1" "".

Definition sample_account (n : string) (nm : string) : Account.t :=
  Account.mk n nm "Software" "" "" "" None None "user_1" "".

Definition sample_answer (acc q : string) (v : AnswerValue) : AccountAnswer.t :=
  AccountAnswer.mk ("answer_" ++ acc ++ "_" ++ q) acc q v "current_user" "".

(** A host in which no string denotes a number.  The sample data stores no
    string under a number question, so the choice does not matter there. *)
Definition no_numeric_string (_ : string) : float := nan.

(** Five yes/no questions of weights 10, 10, 3, 10 and 7: 40 in all. *)
Definition questions_40 : list Question.t :=
  [ sample_question "q0" Question.boolean 10;
    sample_question "q1" Question.boolean 10;
    sample_question "q2" Question.boolean 3;
    sample_question "q3" Question.boolean 10;
    sample_question "q4" Question.boolean 7 ].

Definition acme : Account.t := sample_account "a" "Acme".
Definition bolt : Account.t := sample_account "b" "Bolt".
Definition cask : Account.t := sample_account "c" "Cask".

(** Acme says yes to the first three questions (23 of 40); Bolt and Cask
    say yes to the first one only (10 of 40 each). *)
Definition answers_23 : list AccountAnswer.t :=
  [ sample_answer "a" "q0" (of_boolean true);
    sample_answer "a" "q1" (of_boolean true);
    sample_answer "a" "q2" (of_boolean true);
    sample_answer "b" "q0" (of_boolean true);
    sample_answer "c" "q0" (of_boolean true) ].

(** A yes/no, a number and a multiple-choice question. *)
Definition question_yes_no : Question.t := sample_question "q0" Question.boolean 10.
Definition question_count : Question.t := sample_question "n0" Question.number 4.
Definition question_choice : Question.t :=
  Question.mk "m0" "" Question.multiple_choice 6 (Some ["Small"; "Large"]%string)
    "company_1" "user_1" "".

(** Weights that leave the integers below 2^53: 2^53 and 1; the fractions
    0.1, 0.2 and 0.3 (the nearest binary64 numbers, in hexadecimal); and
    1, 2^53, 1 in two orders. *)
Definition two_to_53 : float := 9007199254740992%float.

Definition questions_huge : list Binary64.Question.t :=
  [ Binary64.sample_question "q0" Question.boolean two_to_53;
    Binary64.sample_question "q1" Question.boolean 1%float ].

Definition questions_fractions : list Binary64.Question.t :=
  [ Binary64.sample_question "q0" Question.boolean 0x1.999999999999ap-4%float;
    Binary64.sample_question "q1" Question.boolean 0x1.999999999999ap-3%float;
    Binary64.sample_question "q2" Question.boolean 0x1.3333333333333p-2%float ].

Definition questions_1_huge_1 : list Binary64.Question.t :=
  [ Binary64.sample_question "q0" Question.boolean 1%float;
    Binary64.sample_question "q1" Question.boolean two_to_53;
    Binary64.sample_question "q2" Question.boolean 1%float ].

Definition questions_1_1_huge : list Binary64.Question.t :=
  [ Binary64.sample_question "q0" Question.boolean 1%float;
    Binary64.sample_question "q2" Question.boolean 1%float;
    Binary64.sample_question "q1" Question.boolean two_to_53 ].

(** ** Answers given twice *)

(** [answer] is an answer of [account] to [question]. *)
Definition answers_pair (account : Account.t) (question : Question.t)
  (answer : AccountAnswer.t) : bool :=
  String.eqb (AccountAnswer.accountId answer) (Account.id account)
  && String.eqb (AccountAnswer.questionId answer) (Question.id question).

(** The input answers with [dup] somewhere after [first], and without it. *)
Definition with_duplicate (before : list AccountAnswer.t) (first : AccountAnswer.t)
  (middle : list AccountAnswer.t) (dup : AccountAnswer.t) (after : list AccountAnswer.t)
  : list AccountAnswer.t :=
  before ++ first :: middle ++ dup :: after.

Definition without_duplicate (before : list AccountAnswer.t) (first : AccountAnswer.t)
  (middle : list AccountAnswer.t) (after : list AccountAnswer.t)
  : list AccountAnswer.t :=
  before ++ first :: middle ++ after.

(** The ranking pass on the scores alone. *)
Fixpoint rankScores (index : nat) (scores : list AccountScore.t)
  : list AccountScore.t :=
  match scores with
  | [] => []
  | s :: rest =>
      AccountScore.set_rank s (Z.of_nat index + 1) :: rankScores (S index) rest
  end.

(** A reading of a result that does not look at its rank. *)
Definition rank_blind {X : Type} (g : EvaluationResult.t -> X) : Prop :=
  forall result r, g (EvaluationResult.set_rank result r) = g result.

(** ** The rest of the results page (Results.tsx lines 93-116 and the JSX) *)

(** [results.slice(0, 10)] *)
Definition topTen (results : list EvaluationResult.t) : list EvaluationResult.t :=
  firstn 10 results.

Definition Tier_eqb (x y : Tier.t) : bool :=
  match x, y with
  | Tier.A, Tier.A | Tier.B, Tier.B | Tier.C, Tier.C | Tier.D, Tier.D => true
  | _, _ => false
  end.

(** The object built by [results.reduce]: a count under the key of each tier
    met so far, no key for the others. *)
Definition TierCounts : Type := Tier.t -> option Z.

(** [v || 0] on a count or [undefined]. *)
Definition or_zero (v : option Z) : Z :=
  match v with
  | Some n => if n =? 0 then 0 else n
  | None => 0
  end.

(** [acc[result.score.tier] = (acc[result.score.tier] || 0) + 1; return acc] *)
Definition countTier (acc : TierCounts) (result : EvaluationResult.t) : TierCounts :=
  let key := EvaluationResult.tier result in
  let count := or_zero (acc key) + 1 in
  fun t => if Tier_eqb t key then Some count else acc t.

Definition tierCounts (results : list EvaluationResult.t) : TierCounts :=
  fold_left countTier results (fun _ => None).

(** [tierCounts[tier] || 0], the number on the card of a tier. *)
Definition tierCard (results : list EvaluationResult.t) (tier : Tier.t) : Z :=
  or_zero (tierCounts results tier).

(** [getTierColor], on the string of the tier. *)
Definition getTierColor (tier : string) : string :=
  if String.eqb tier "A" then "bg-green-100 text-green-800 border-green-200"
  else if String.eqb tier "B" then "bg-blue-100 text-blue-800 border-blue-200"
  else if String.eqb tier "C" then "bg-yellow-100 text-yellow-800 border-yellow-200"
  else if String.eqb tier "D" then "bg-red-100 text-red-800 border-red-200"
  else "bg-gray-100 text-gray-800 border-gray-200".

(** What [getRankIcon] returns: one of three icons, or the rank as text. *)
Inductive RankIcon : Set :=
| Trophy
| Medal
| Award
| NumberSign (rank : Z).

Definition getRankIcon (rank : Z) : RankIcon :=
  if rank =? 1 then Trophy
  else if rank =? 2 then Medal
  else if rank =? 3 then Award
  else NumberSign rank.

Definition is_icon (i : RankIcon) : bool :=
  match i with
  | NumberSign _ => false
  | _ => true
  end.

(** [index < 3], the test that gives a card of the top ten its golden
    background. *)
Definition highlighted (index : nat) : bool := (index <? 3)%nat.

(** The occurrences of a character in a string. *)
Fixpoint occurrences (c : ascii) (s : string) : nat :=
  match s with
  | EmptyString => O
  | String a rest => ((if Ascii.eqb a c then 1 else 0) + occurrences c rest)%nat
  end.

Definition comma : ascii := ascii_of_nat 44.

(** A character that [Number.prototype.toString] writes for an integer. *)
Definition is_digit_or_minus (a : ascii) : bool :=
  let n := nat_of_ascii a in
  ((48 <=? n) && (n <=? 57) || (n =? 45))%nat.

Fixpoint string_forallb (p : ascii -> bool) (s : string) : bool :=
  match s with
  | EmptyString => true
  | String a rest => p a && string_forallb p rest
  end.

(** ** The account evaluation page (component [AccountEvaluation]) *)

Module AccountEvaluation.

(** [Record<string, Record<string, any>>]: the answers by account id, then by
    question id.  The keys are ids of the form [account_<ms>] and
    [question_<ms>_<i>], none of which names a property that an object
    inherits, so an object is the finite map of its own keys. *)
Definition Row : Type := string -> option AnswerValue.
Definition Answers : Type := string -> option Row.

(** [{}] *)
Definition no_answers : Answers := fun _ => None.

(** [answers[accountId]?.[questionId]] *)
Definition lookup (answers : Answers) (accountId questionId : string)
  : option AnswerValue :=
  match answers accountId with
  | Some row => row questionId
  | None => None
  end.

(** [{ ...row, [questionId]: answer }], where [row] may be [undefined]. *)
Definition setCell (row : option Row) (questionId : string) (answer : AnswerValue)
  : Row :=
  fun q => if String.eqb q questionId then Some answer
           else match row with Some r => r q | None => None end.

(** [updateAnswer]: [{ ...prev, [accountId]: { ...prev[accountId],
    [questionId]: answer } }] *)
Definition updateAnswer (prev : Answers) (accountId questionId : string)
  (answer : AnswerValue) : Answers :=
  fun a => if String.eqb a accountId
           then Some (setCell (prev accountId) questionId answer)
           else prev a.

(** The callback of [initialAnswers.reduce]:
    [if (!acc[id]) acc[id] = {}; acc[id][questionId] = answer.answer]. *)
Definition storeInitial (acc : Answers) (answer : AccountAnswer.t) : Answers :=
  let accountId := AccountAnswer.accountId answer in
  let acc1 : Answers :=
    match acc accountId with
    | Some _ => acc
    | None => fun a => if String.eqb a accountId then Some (fun _ => None) else acc a
    end in
  fun a => if String.eqb a accountId
           then Some (setCell (acc1 accountId) (AccountAnswer.questionId answer)
                              (AccountAnswer.answer answer))
           else acc1 a.

(** The initial value of the [answers] state. *)
Definition initialAnswers (initialAnswers : list AccountAnswer.t) : Answers :=
  fold_left storeInitial initialAnswers no_answers.

(** [getCompletionStatus]: [(total, answered)]. *)
Definition getCompletionStatus (accounts : list Account.t)
  (questions : list Question.t) (answers : Answers) : Z * Z :=
  let totalQuestions := Z.of_nat (List.length accounts) * Z.of_nat (List.length questions) in
  let answeredQuestions :=
    fold_left
      (fun n account =>
         fold_left
           (fun n question =>
              match lookup answers (Account.id account) (Question.id question) with
              | Some _ => n + 1
              | None => n
              end)
           questions n)
      accounts 0 in
  (totalQuestions, answeredQuestions).

(** [completion.answered === completion.total && completion.total > 0] *)
Definition isComplete (accounts : list Account.t) (questions : list Question.t)
  (answers : Answers) : bool :=
  let '(total, answered) := getCompletionStatus accounts questions answers in
  (answered =? total) && (0 <? total).

Section HandleNext.

(** [new Date().toISOString()] at the time the answer of the account at
    position [i] to the question at position [j] is built. *)
Variable toISOString : nat -> nat -> string.

Variable answers : Answers.

(** The inner [questions.forEach] of [handleNext], from position [j] on. *)
Fixpoint answersOfAccount (i : nat) (account : Account.t) (j : nat)
  (questions : list Question.t) : list AccountAnswer.t :=
  match questions with
  | [] => []
  | question :: rest =>
      match lookup answers (Account.id account) (Question.id question) with
      | Some answer =>
          AccountAnswer.mk
            ("answer_" ++ Account.id account ++ "_" ++ Question.id question)
            (Account.id account) (Question.id question) answer
            "current_user" (toISOString i j)
          :: answersOfAccount i account (S j) rest
      | None => answersOfAccount i account (S j) rest
      end
  end.

(** The outer [accounts.forEach], from position [i] on. *)
Fixpoint answersFrom (questions : list Question.t) (i : nat)
  (accounts : list Account.t) : list AccountAnswer.t :=
  match accounts with
  | [] => []
  | account :: rest =>
      answersOfAccount i account 0 questions ++ answersFrom questions (S i) rest
  end.

(** [handleNext]: the second argument of [onNext(accounts, accountAnswers)]. *)
Definition handleNext (accounts : list Account.t) (questions : list Question.t)
  : list AccountAnswer.t :=
  answersFrom questions 0 accounts.

End HandleNext.

(** The state that the handlers below read and write. *)
Record State : Type := mkState {
  accounts : list Account.t;
  answers : Answers;
  currentAccountIndex : nat
}.

(** [useState(initialAccounts)], [useState(initialAnswers.reduce(...))],
    [useState(0)] *)
Definition initialState (initialAccounts : list Account.t)
  (initial : list AccountAnswer.t) : State :=
  mkState initialAccounts (initialAnswers initial) 0.

(** The [newAccount] form. *)
Record NewAccount : Set := mkNewAccount {
  name : string;
  industry : string;
  companySize : string;
  revenue : string;
  location : string;
  website : string;
  notes : string
}.

(** An entry of [aiRecommendations.prospects]. *)
Record Prospect : Set := mkProspect {
  company : string;
  reason : string;
  prospectIndustry : string;
  prospectWebsite : option string
}.

(** [l.filter((_, i) => i !== index)] *)
Definition removeAt {X : Type} (index : nat) (l : list X) : list X :=
  firstn index l ++ skipn (S index) l.

Section Handlers.

(** [String.prototype.trim] of the host. *)
Variable trim : string -> string.

(** [addAccount], with the readings of [Date.now()] and of
    [new Date().toISOString()]. *)
Definition addAccount (now : Z) (iso : string) (newAccount : NewAccount)
  (s : State) : State :=
  if String.eqb (trim (name newAccount)) "" then s
  else
    let account :=
      Account.mk ("account_" ++ JS.Number_toString now)
        (name newAccount) (industry newAccount) (companySize newAccount)
        (revenue newAccount) (location newAccount)
        (Some (website newAccount)) (Some (notes newAccount))
        "current_user" iso in
    mkState (accounts s ++ [account]) (answers s) (currentAccountIndex s).

(** [addRecommendedProspect] *)
Definition addRecommendedProspect (now : Z) (iso : string) (prospect : Prospect)
  (s : State) : State :=
  let account :=
    Account.mk ("account_" ++ JS.Number_toString now)
      (company prospect) (prospectIndustry prospect) "" "" ""
      (Some (match prospectWebsite prospect with
             | Some w => w
             | None => EmptyString
             end))
      (Some ("AI Recommended: " ++ reason prospect)%string)
      "current_user" iso in
  mkState (accounts s ++ [account]) (answers s) (currentAccountIndex s).

(** [removeAccount]; [None] when [accounts[index]] is [undefined] and reading
    its [id] throws. *)
Definition removeAccount (index : nat) (s : State) : option State :=
  match nth_error (accounts s) index with
  | None => None
  | Some accountToRemove =>
      let newAnswers : Answers :=
        fun a => if String.eqb a (Account.id accountToRemove) then None
                 else answers s a in
      let length := Z.of_nat (List.length (accounts s)) in
      let index' :=
        if length - 1 <=? Z.of_nat (currentAccountIndex s)
        then Z.to_nat (Z.max 0 (length - 2))
        else currentAccountIndex s in
      Some (mkState (removeAt index (accounts s)) newAnswers index')
  end.

(** What the user can do on the page. *)
Inductive Event : Type :=
| AddAccount (now : Z) (iso : string) (newAccount : NewAccount)
| AddProspect (now : Z) (iso : string) (prospect : Prospect)
| RemoveAccount (index : nat)
| SelectAccount (index : nat)
| Answer (question : Question.t) (answer : AnswerValue).

(** The page offers to select or remove the accounts it lists, and shows the
    questions of the current account when there is an account. *)
Definition offered (s : State) (e : Event) : Prop :=
  match e with
  | AddAccount _ _ _ | AddProspect _ _ _ => True
  | RemoveAccount index | SelectAccount index =>
      (index < List.length (accounts s))%nat
  | Answer _ _ => accounts s <> []
  end.

(** The handler of an event; [None] when it reads a field of [undefined]
    ([removeAccount]) or has no current account to store the answer under
    ([accounts[currentAccountIndex]?.id] is [undefined]). *)
Definition handle (e : Event) (s : State) : option State :=
  match e with
  | AddAccount now iso newAccount => Some (addAccount now iso newAccount s)
  | AddProspect now iso prospect => Some (addRecommendedProspect now iso prospect s)
  | RemoveAccount index => removeAccount index s
  | SelectAccount index => Some (mkState (accounts s) (answers s) index)
  | Answer question answer =>
      match nth_error (accounts s) (currentAccountIndex s) with
      | Some account =>
          Some (mkState (accounts s)
                  (updateAnswer (answers s) (Account.id account)
                                (Question.id question) answer)
                  (currentAccountIndex s))
      | None => None
      end
  end.

(** The states the page can be in after the events offered one by one. *)
Inductive reachable (start : State) : State -> Prop :=
| reachable_start : reachable start start
| reachable_step s e s' :
    reachable start s -> offered s e -> handle e s = Some s' ->
    reachable start s'.

(** The current index names an account whenever there is one. *)
Definition index_valid (s : State) : Prop :=
  (currentAccountIndex s < Nat.max 1 (List.length (accounts s)))%nat.

End Handlers.

End AccountEvaluation.

(** ** The criteria page and the wizard (CriteriaBuilder.tsx, App.tsx) *)

Module Company.

Record t : Set := mk {
  id : string;
  name : string;
  description : string;
  industry : string;
  targetMarket : string;
  userId : string;
  createdAt : string
}.

End Company.

Module CriteriaBuilder.

(** [Omit<Question, 'id' | 'companyId' | 'userId' | 'createdAt'>] *)
Record Draft : Set := mkDraft {
  text : string;
  type : Question.kind;
  weight : Z;
  options : option (list string)
}.

(** [q => ({ text: q.text, type: q.type, weight: q.weight, options: q.options })] *)
Definition strip (q : Question.t) : Draft :=
  mkDraft (Question.text q) (Question.type q) (Question.weight q) (Question.options q).

(** The initial value of the [questions] state:
    [initialData?.map(...) || [{ the default question }]].  An array, even an
    empty one, is truthy, so the default is taken only without [initialData]. *)
Definition initialQuestions (initialData : option (list Question.t)) : list Draft :=
  match initialData with
  | Some data => map strip data
  | None => [mkDraft "Does the company have 500+ employees?" Question.boolean 8 None]
  end.

(** [removeQuestion] *)
Definition removeQuestion (index : nat) (questions : list Draft) : list Draft :=
  AccountEvaluation.removeAt index questions.

(** [questions.map((q, i) => i === index ? { ...q, weight } : q)], the
    positions counted from [i]. *)
Fixpoint setWeightFrom (i index : nat) (weight : Z) (questions : list Draft)
  : list Draft :=
  match questions with
  | [] => []
  | q :: rest =>
      (if Nat.eqb i index then mkDraft (text q) (type q) weight (options q) else q)
      :: setWeightFrom (S i) index weight rest
  end.

(** [updateQuestionWeight] *)
Definition updateQuestionWeight (index : nat) (weight : Z) (questions : list Draft)
  : list Draft :=
  setWeightFrom 0 index weight questions.

(** [handleNext]: the argument of [onNext], or [None] when it returns
    without calling it. *)
Definition handleNext (questions : list Draft) : option (list Draft) :=
  match questions with
  | [] => None
  | _ => Some questions
  end.

(** The state of the page: the questions, and the form of a new question,
    whose [options] are [undefined] after a type other than multiple choice
    has been selected. *)
Record State : Set := mkState {
  questions : list Draft;
  newQuestion : Draft
}.

(** The form as it is at the start and after a question has been added. *)
Definition emptyForm : Draft := mkDraft "" Question.boolean 5 (Some [EmptyString]).

Definition initialState (initialData : option (list Question.t)) : State :=
  mkState (initialQuestions initialData) emptyForm.

Section Handlers.

(** [String.prototype.trim] of the host. *)
Variable trim : string -> string.

(** [s.trim()] as a condition. *)
Definition filled (s : string) : bool := negb (String.eqb (trim s) "").

(** [addQuestion]; [None] when it filters [undefined] options. *)
Definition addQuestion (s : State) : option State :=
  let form := newQuestion s in
  if filled (text form)
  then
    match type form, options form with
    | Question.multiple_choice, Some opts =>
        Some (mkState
                (questions s
                 ++ [mkDraft (text form) (type form) (weight form)
                             (Some (filter filled opts))])
                emptyForm)
    | Question.multiple_choice, None => None
    | _, _ =>
        Some (mkState
                (questions s ++ [mkDraft (text form) (type form) (weight form) None])
                emptyForm)
    end
  else Some s.

(** [addOption]; [None] when it spreads [undefined] options. *)
Definition addOption (s : State) : option State :=
  let form := newQuestion s in
  match options form with
  | Some opts =>
      Some (mkState (questions s)
              (mkDraft (text form) (type form) (weight form)
                       (Some (opts ++ [EmptyString]))))
  | None => None
  end.

(** [l] with [value] at position [index], for an index within [l]. *)
Fixpoint replaceAt (index : nat) (value : string) (l : list string)
  : option (list string) :=
  match l, index with
  | [], _ => None
  | _ :: rest, O => Some (value :: rest)
  | x :: rest, S i => option_map (cons x) (replaceAt i value rest)
  end.

(** [updateOption]; [None] when it spreads [undefined] options, and for an
    index beyond the options, where the assignment would leave holes in the
    array, which a list does not have. *)
Definition updateOption (index : nat) (value : string) (s : State) : option State :=
  let form := newQuestion s in
  match options form with
  | Some opts =>
      match replaceAt index value opts with
      | Some newOptions =>
          Some (mkState (questions s)
                  (mkDraft (text form) (type form) (weight form) (Some newOptions)))
      | None => None
      end
  | None => None
  end.

(** [removeOption]; [None] when it reads the length of [undefined]. *)
Definition removeOption (index : nat) (s : State) : option State :=
  let form := newQuestion s in
  match options form with
  | Some opts =>
      if (1 <? List.length opts)%nat
      then Some (mkState (questions s)
                   (mkDraft (text form) (type form) (weight form)
                            (Some (AccountEvaluation.removeAt index opts))))
      else Some s
  | None => None
  end.

(** What the user can do on the page. *)
Inductive Event : Set :=
| TypeText (value : string)
| SelectType (value : Question.kind)
| SlideWeight (value : Z)
| AddOption
| UpdateOption (index : nat) (value : string)
| RemoveOption (index : nat)
| AddQuestion
| RemoveQuestion (index : nat)
| SlideQuestionWeight (index : nat) (value : Z).

(** The inputs of the options are shown for a multiple-choice form only, a
    remove button beside each option when there are at least two; the Add
    Question button is disabled while the text is blank; each listed
    question has its own slider and remove button. *)
Definition offered (s : State) (e : Event) : Prop :=
  match e with
  | TypeText _ | SelectType _ | SlideWeight _ => True
  | AddOption => type (newQuestion s) = Question.multiple_choice
  | UpdateOption index _ =>
      type (newQuestion s) = Question.multiple_choice
      /\ exists opts, options (newQuestion s) = Some opts
                      /\ (index < List.length opts)%nat
  | RemoveOption index =>
      type (newQuestion s) = Question.multiple_choice
      /\ exists opts, options (newQuestion s) = Some opts
                      /\ (index < List.length opts)%nat
                      /\ (1 < List.length opts)%nat
  | AddQuestion => filled (text (newQuestion s)) = true
  | RemoveQuestion index | SlideQuestionWeight index _ =>
      (index < List.length (questions s))%nat
  end.

Definition handle (e : Event) (s : State) : option State :=
  let form := newQuestion s in
  match e with
  | TypeText value =>
      Some (mkState (questions s)
              (mkDraft value (type form) (weight form) (options form)))
  | SelectType value =>
      Some (mkState (questions s)
              (mkDraft (text form) value (weight form)
                 (match value with
                  | Question.multiple_choice => Some [EmptyString]
                  | _ => None
                  end)))
  | SlideWeight value =>
      Some (mkState (questions s)
              (mkDraft (text form) (type form) value (options form)))
  | AddOption => addOption s
  | UpdateOption index value => updateOption index value s
  | RemoveOption index => removeOption index s
  | AddQuestion => addQuestion s
  | RemoveQuestion index =>
      Some (mkState (removeQuestion index (questions s)) form)
  | SlideQuestionWeight index value =>
      Some (mkState (updateQuestionWeight index value (questions s)) form)
  end.

Inductive reachable (start : State) : State -> Prop :=
| reachable_start : reachable start start
| reachable_step s e s' :
    reachable start s -> offered s e -> handle e s = Some s' ->
    reachable start s'.

(** A multiple-choice form has options, and at least one. *)
Definition form_ok (s : State) : Prop :=
  type (newQuestion s) = Question.multiple_choice ->
  exists opts, options (newQuestion s) = Some opts /\ opts <> [].

(** A listed question has options exactly when it is a multiple-choice
    question, and none of them is blank. *)
Definition question_ok (q : Draft) : Prop :=
  match options q with
  | Some opts =>
      type q = Question.multiple_choice /\ Forall (fun o => filled o = true) opts
  | None => type q <> Question.multiple_choice
  end.

End Handlers.

End CriteriaBuilder.

Module App.

Record State : Type := mkState {
  currentStep : Z;
  company : option Company.t;
  questions : list Question.t;
  accounts : list Account.t;
  answers : list AccountAnswer.t
}.

(** The initial values of the five [useState]. *)
Definition initial : State := mkState 1 None [] [] [].

(** [Omit<Company, 'id' | 'userId' | 'createdAt'>] *)
Record CompanyData : Set := mkCompanyData {
  name : string;
  description : string;
  industry : string;
  targetMarket : string
}.

Section Handlers.

(** [user.id] of the signed-in user. *)
Variable userId : string.

(** [handleCompanyNext], with the readings of the clock. *)
Definition handleCompanyNext (now : Z) (iso : string) (companyData : CompanyData)
  (s : State) : State :=
  let newCompany :=
    Company.mk ("company_" ++ JS.Number_toString now)
      (name companyData) (description companyData) (industry companyData)
      (targetMarket companyData) userId iso in
  mkState 2 (Some newCompany) (questions s) (accounts s) (answers s).

(** [company?.id || ''] *)
Definition companyIdOf (c : option Company.t) : string :=
  match c with
  | Some c => Company.id c
  | None => EmptyString
  end.

(** [questionsData.map((q, index) => ...)] from position [index] on; [now]
    and [iso] are the readings of [Date.now()] and of
    [new Date().toISOString()] at each position. *)
Fixpoint newQuestions (companyId : string) (now : nat -> Z) (iso : nat -> string)
  (index : nat) (questionsData : list CriteriaBuilder.Draft) : list Question.t :=
  match questionsData with
  | [] => []
  | q :: rest =>
      Question.mk
        ("question_" ++ JS.Number_toString (now index) ++ "_"
           ++ JS.Number_toString (Z.of_nat index))
        (CriteriaBuilder.text q) (CriteriaBuilder.type q)
        (CriteriaBuilder.weight q) (CriteriaBuilder.options q)
        companyId userId (iso index)
      :: newQuestions companyId now iso (S index) rest
  end.

(** [handleCriteriaNext] *)
Definition handleCriteriaNext (now : nat -> Z) (iso : nat -> string)
  (questionsData : list CriteriaBuilder.Draft) (s : State) : State :=
  mkState 3 (company s)
    (newQuestions (companyIdOf (company s)) now iso 0 questionsData)
    (accounts s) (answers s).

(** [handleEvaluationNext] *)
Definition handleEvaluationNext (accountsData : list Account.t)
  (answersData : list AccountAnswer.t) (s : State) : State :=
  mkState 4 (company s) (questions s) accountsData answersData.

(** [handleStartOver] *)
Definition handleStartOver (s : State) : State := mkState 1 None [] [] [].

(** [handleBack] *)
Definition handleBack (s : State) : State :=
  if 1 <? currentStep s
  then mkState (currentStep s - 1) (company s) (questions s) (accounts s) (answers s)
  else s.

(** What the user can do in the wizard: submit the company form, continue
    from the criteria page with its list of questions, continue from the
    account page with its accounts and table of answers, go back, start
    over. *)
Inductive Event : Type :=
| CompanyNext (now : Z) (iso : string) (companyData : CompanyData)
| CriteriaNext (now : nat -> Z) (iso : nat -> string)
    (questions : list CriteriaBuilder.Draft)
| EvaluationNext (toISOString : nat -> nat -> string)
    (accounts : list Account.t) (table : AccountEvaluation.Answers)
| Back
| StartOver.

(** The effect of an event; [None] when the page that raises it is not the
    one shown at the current step, or when its button is disabled. *)
Definition dispatch (e : Event) (s : State) : option State :=
  match e with
  | CompanyNext now iso companyData =>
      if currentStep s =? 1 then Some (handleCompanyNext now iso companyData s)
      else None
  | CriteriaNext now iso drafts =>
      if currentStep s =? 2
      then match CriteriaBuilder.handleNext drafts with
           | Some questionsData => Some (handleCriteriaNext now iso questionsData s)
           | None => None
           end
      else None
  | EvaluationNext toISOString accountsData table =>
      if (currentStep s =? 3)
         && AccountEvaluation.isComplete accountsData (questions s) table
      then Some (handleEvaluationNext accountsData
                   (AccountEvaluation.handleNext toISOString table accountsData
                      (questions s))
                   s)
      else None
  | Back =>
      if (2 <=? currentStep s) && (currentStep s <=? 4) then Some (handleBack s)
      else None
  | StartOver =>
      if currentStep s =? 4 then Some (handleStartOver s) else None
  end.

(** The states of the wizard after any events from the start. *)
Inductive reachable : State -> Prop :=
| reachable_initial : reachable initial
| reachable_dispatch s e s' :
    reachable s -> dispatch e s = Some s' -> reachable s'.

End Handlers.

End App.

(** ** More sample data *)

(** Acme and Bolt have answered the yes/no question; Acme also the number
    question. *)
Definition sample_table : AccountEvaluation.Answers :=
  AccountEvaluation.updateAnswer
    (AccountEvaluation.updateAnswer
       (AccountEvaluation.updateAnswer AccountEvaluation.no_answers
          "a" "q0" (of_boolean true))
       "a" "n0" (of_number 5%float))
    "b" "q0" (of_boolean false).

Definition sample_clock (i j : nat) : string := "2025-01-01T00:00:00.000Z".

(** A host whose [trim] finds no white space to remove. *)
Definition no_trim (s : string) : string := s.

(** The account page opened on Acme and Bolt, and after Bolt is removed. *)
Definition sample_page : AccountEvaluation.State :=
  AccountEvaluation.initialState [acme; bolt] [].

Definition sample_page_after : AccountEvaluation.State :=
  match AccountEvaluation.removeAccount 1 sample_page with
  | Some s => s
  | None => sample_page
  end.

(** The criteria page opened without initial data, and after multiple
    choice is selected in the form. *)
Definition sample_criteria : CriteriaBuilder.State :=
  CriteriaBuilder.initialState None.

Definition sample_criteria_after : CriteriaBuilder.State :=
  match CriteriaBuilder.handle no_trim
          (CriteriaBuilder.SelectType Question.multiple_choice) sample_criteria with
  | Some s => s
  | None => sample_criteria
  end.

(** A run of the wizard: the company, one yes/no question, Acme's answer. *)
Definition wizard_company : App.State :=
  App.handleCompanyNext "user_1" 0 "2025-01-01T00:00:00.000Z"
    (App.mkCompanyData "Seller" "" "Software" "") App.initial.

Definition wizard_criteria : App.State :=
  App.handleCriteriaNext "user_1" (fun _ => 0)
    (fun _ => "2025-01-01T00:00:00.000Z"%string)
    [CriteriaBuilder.mkDraft "Is it large?" Question.boolean 10 None]
    wizard_company.

Definition wizard_table : AccountEvaluation.Answers :=
  AccountEvaluation.updateAnswer AccountEvaluation.no_answers
    "a" "question_0_0" (of_boolean true).

Definition wizard_results : App.State :=
  App.handleEvaluationNext [acme]
    (AccountEvaluation.handleNext sample_clock wizard_table [acme]
       (App.questions wizard_criteria))
    wizard_criteria.

(** ** Lists: sorting, filtering, ranking *)

Section SortFacts.

Context {T : Type}.
Variable key : T -> Z.

(** The comparator of a descending sort on [key]. *)
Let descending (a b : T) : Z := key b - key a.

Lemma sort_insert_perm (x : T) (l : list T) :
  Permutation (JS.sort_insert descending x l) (x :: l).
Proof.
  induction l as [|y l IH]; simpl.
  - apply Permutation_refl.
  - destruct (0 <? descending x y).
    + apply perm_trans with (y :: x :: l).
      * now apply perm_skip.
      * apply perm_swap.
    + apply Permutation_refl.
Qed.

Lemma Array_sort_perm (l : list T) :
  Permutation (JS.Array_sort descending l) l.
Proof.
  induction l as [|x l IH]; simpl.
  - constructor.
  - eapply perm_trans; [apply sort_insert_perm|].
    now apply perm_skip.
Qed.

Lemma Array_sort_length (l : list T) :
  List.length (JS.Array_sort descending l) = List.length l.
Proof. apply Permutation_length, Array_sort_perm. Qed.

Lemma sort_insert_sorted (x : T) (l : list T) :
  StronglySorted Z.ge (map key l) ->
  StronglySorted Z.ge (map key (JS.sort_insert descending x l)).
Proof.
  induction l as [|y l IH]; simpl; intros Hs.
  - repeat constructor.
  - inversion Hs as [|? ? Hl Hy]; subst.
    destruct (0 <? descending x y) eqn:E; unfold descending in E; simpl.
    + apply Z.ltb_lt in E.
      constructor; [now apply IH|].
      apply Forall_forall. intros k Hk.
      apply in_map_iff in Hk. destruct Hk as [z [<- Hz]].
      apply (Permutation_in _ (sort_insert_perm x l)) in Hz.
      destruct Hz as [<-|Hz]; [lia|].
      rewrite Forall_forall in Hy. apply Hy. now apply in_map.
    + apply Z.ltb_ge in E.
      constructor; [assumption|].
      constructor; [lia|].
      rewrite Forall_forall in Hy |- *. intros k Hk.
      specialize (Hy k Hk). lia.
Qed.

Lemma Array_sort_sorted (l : list T) :
  StronglySorted Z.ge (map key (JS.Array_sort descending l)).
Proof.
  induction l as [|x l IH]; simpl.
  - constructor.
  - now apply sort_insert_sorted.
Qed.

(** Stability: the elements of any one key stand in the order they had. *)
Lemma sort_insert_filter (p : Z) (x : T) (l : list T) :
  filter (fun r => key r =? p) (JS.sort_insert descending x l)
  = filter (fun r => key r =? p) (x :: l).
Proof.
  induction l as [|y l IH]; simpl; [reflexivity|].
  destruct (0 <? descending x y) eqn:E; unfold descending in E; simpl.
  - apply Z.ltb_lt in E. simpl in IH.
    destruct (key y =? p) eqn:Ey.
    + apply Z.eqb_eq in Ey.
      rewrite IH.
      destruct (key x =? p) eqn:Ex; [apply Z.eqb_eq in Ex; lia|reflexivity].
    + rewrite IH. reflexivity.
  - reflexivity.
Qed.

Lemma Array_sort_stable (p : Z) (l : list T) :
  filter (fun r => key r =? p) (JS.Array_sort descending l)
  = filter (fun r => key r =? p) l.
Proof.
  induction l as [|x l IH]; simpl; [reflexivity|].
  rewrite sort_insert_filter. simpl. now rewrite IH.
Qed.

(** A list in descending order of key is known from its elements key by key. *)
Lemma sorted_by_key_unique (l1 l2 : list T) :
  StronglySorted Z.ge (map key l1) ->
  StronglySorted Z.ge (map key l2) ->
  (forall p, filter (fun r => key r =? p) l1 = filter (fun r => key r =? p) l2) ->
  l1 = l2.
Proof.
  assert (Hhead : forall x l y l',
             StronglySorted Z.ge (map key (x :: l)) ->
             (forall p, filter (fun r => key r =? p) (x :: l)
                        = filter (fun r => key r =? p) (y :: l')) ->
             key y <= key x).
  { intros x l y l' Hs Hf. specialize (Hf (key y)). simpl in Hf.
    rewrite (Z.eqb_refl (key y)) in Hf.
    assert (Hin : In y (filter (fun r => key r =? key y) (x :: l))).
    { simpl. rewrite Hf. now left. }
    apply filter_In in Hin. destruct Hin as [[<-|Hin] _]; [lia|].
    simpl in Hs. inversion Hs as [|? ? _ Hall]; subst.
    rewrite Forall_forall in Hall.
    specialize (Hall (key y) (in_map key _ _ Hin)). lia. }
  revert l2. induction l1 as [|x l1 IH]; intros [|y l2] Hs1 Hs2 Hf.
  - reflexivity.
  - specialize (Hf (key y)). simpl in Hf. rewrite Z.eqb_refl in Hf. discriminate.
  - specialize (Hf (key x)). simpl in Hf. rewrite Z.eqb_refl in Hf. discriminate.
  - assert (Hk : key x = key y).
    { apply Z.le_antisymm.
      - apply (Hhead y l2 x l1 Hs2). intros p. symmetry. apply Hf.
      - apply (Hhead x l1 y l2 Hs1 Hf). }
    assert (Hxy : x = y).
    { specialize (Hf (key x)). simpl in Hf.
      rewrite <- Hk, Z.eqb_refl in Hf. now inversion Hf. }
    subst y. f_equal. apply IH.
    + simpl in Hs1. now inversion Hs1.
    + simpl in Hs2. now inversion Hs2.
    + intros p. specialize (Hf p). simpl in Hf.
      destruct (key x =? p); [now inversion Hf|exact Hf].
Qed.

(** So [Array_sort] is the only stable descending arrangement of an array. *)
Lemma Array_sort_unique (l sorted : list T) :
  StronglySorted Z.ge (map key sorted) ->
  (forall p, filter (fun r => key r =? p) sorted = filter (fun r => key r =? p) l) ->
  sorted = JS.Array_sort descending l.
Proof.
  intros Hs Hf. apply sorted_by_key_unique.
  - exact Hs.
  - apply Array_sort_sorted.
  - intros p. now rewrite Hf, Array_sort_stable.
Qed.

End SortFacts.

(** ** The ranking pass *)

Lemma assignRanks_length (index : nat) (results : list EvaluationResult.t) :
  List.length (assignRanks index results) = List.length results.
Proof.
  revert index. induction results as [|r l IH]; intros index; simpl; [reflexivity|].
  now rewrite IH.
Qed.

Lemma assignRanks_map {X : Type} (g : EvaluationResult.t -> X) :
  rank_blind g ->
  forall index results, map g (assignRanks index results) = map g results.
Proof.
  intros Hg index results. revert index.
  induction results as [|r l IH]; intros index; simpl; [reflexivity|].
  now rewrite Hg, IH.
Qed.

Lemma assignRanks_filter {X : Type} (g : EvaluationResult.t -> X)
  (keep : EvaluationResult.t -> bool) :
  rank_blind g -> rank_blind keep ->
  forall index results,
    map g (filter keep (assignRanks index results)) = map g (filter keep results).
Proof.
  intros Hg Hk index results. revert index.
  induction results as [|r l IH]; intros index; simpl; [reflexivity|].
  rewrite Hk. destruct (keep r); simpl; [rewrite Hg|]; now rewrite IH.
Qed.

Lemma assignRanks_Forall (P : EvaluationResult.t -> Prop) :
  (forall result r, P result -> P (EvaluationResult.set_rank result r)) ->
  forall index results, Forall P results -> Forall P (assignRanks index results).
Proof.
  intros HP index results H. revert index.
  induction H as [|r l Hr Hl IH]; intros index; simpl; constructor; auto.
Qed.

Lemma assignRanks_rank (index : nat) (results : list EvaluationResult.t) :
  map EvaluationResult.rank (assignRanks index results)
  = map (fun i => Z.of_nat i + 1) (seq index (List.length results)).
Proof.
  revert index. induction results as [|r l IH]; intros index; simpl; [reflexivity|].
  now rewrite IH.
Qed.

Lemma rank_blind_account : rank_blind EvaluationResult.account.
Proof. intros result r. reflexivity. Qed.

Lemma rank_blind_percentage : rank_blind EvaluationResult.percentage.
Proof. intros result r. reflexivity. Qed.

Lemma rank_blind_percentage_is (p : Z) :
  rank_blind (fun result => EvaluationResult.percentage result =? p).
Proof. intros result r. reflexivity. Qed.

(** ** One account *)

Section AccountFacts.

Variable StringToNumber : string -> float.
Variable questions : list Question.t.
Variable answers : list AccountAnswer.t.

Let evaluate := evaluateAccount StringToNumber questions answers.

Lemma evaluateAccount_account (account : Account.t) :
  EvaluationResult.account (evaluate account) = account.
Proof.
  unfold evaluate, evaluateAccount.
  destruct (scoreQuestions _ _ _) as [t m]. reflexivity.
Qed.

Lemma evaluateAccount_answers (account : Account.t) :
  EvaluationResult.answers (evaluate account) = accountAnswers answers account.
Proof.
  unfold evaluate, evaluateAccount.
  destruct (scoreQuestions _ _ _) as [t m]. reflexivity.
Qed.

Lemma evaluateAccount_scores (account : Account.t) :
  (EvaluationResult.totalScore (evaluate account),
   EvaluationResult.maxScore (evaluate account))
  = scoreQuestions StringToNumber (accountAnswers answers account) questions.
Proof.
  unfold evaluate, evaluateAccount.
  destruct (scoreQuestions _ _ _) as [t m]. reflexivity.
Qed.

Lemma evaluateAccount_percentage (account : Account.t) :
  EvaluationResult.percentage (evaluate account)
  = percentageOf (EvaluationResult.totalScore (evaluate account))
                 (EvaluationResult.maxScore (evaluate account)).
Proof.
  unfold evaluate, evaluateAccount.
  destruct (scoreQuestions _ _ _) as [t m]. reflexivity.
Qed.

Lemma evaluateAccount_tier (account : Account.t) :
  EvaluationResult.tier (evaluate account)
  = tierOf (EvaluationResult.percentage (evaluate account)).
Proof.
  unfold evaluate, evaluateAccount.
  destruct (scoreQuestions _ _ _) as [t m]. reflexivity.
Qed.

(** What holds of each account's result, and does not read the rank, holds
    of every result returned. *)
Lemma calculateScores_Forall (P : EvaluationResult.t -> Prop)
  (accounts : list Account.t) :
  (forall result r, P result -> P (EvaluationResult.set_rank result r)) ->
  (forall account, In account accounts -> P (evaluate account)) ->
  Forall P (calculateScores StringToNumber accounts questions answers).
Proof.
  intros Hrank Hall. unfold calculateScores.
  apply assignRanks_Forall; [exact Hrank|].
  apply Forall_forall. intros result Hin.
  apply (Permutation_in _ (Array_sort_perm EvaluationResult.percentage _)) in Hin.
  apply in_map_iff in Hin. destruct Hin as [account [<- Hacc]].
  now apply Hall.
Qed.

End AccountFacts.

(** ** The loop over the questions *)

Section ScoreFacts.

Variable StringToNumber : string -> float.

Lemma scoreQuestion_maxScore (answersOfAccount : list AccountAnswer.t)
  (st : Z * Z) (question : Question.t) :
  snd (scoreQuestion StringToNumber answersOfAccount st question)
  = snd st + Question.weight question.
Proof.
  destruct st as [t m]. unfold scoreQuestion.
  destruct (findAnswer answersOfAccount question); reflexivity.
Qed.

Lemma fold_scoreQuestion_maxScore (answersOfAccount : list AccountAnswer.t)
  (questions : list Question.t) :
  forall st,
    snd (fold_left (scoreQuestion StringToNumber answersOfAccount) questions st)
    = snd st + sum_of_weights questions.
Proof.
  induction questions as [|q qs IH]; intros st; simpl.
  - unfold sum_of_weights. simpl. lia.
  - rewrite IH, scoreQuestion_maxScore.
    unfold sum_of_weights. simpl. lia.
Qed.

(** The score of an answer is the weight or nothing. *)
Lemma questionScore_cases (question : Question.t) (answer : AccountAnswer.t) :
  questionScore StringToNumber question answer = Question.weight question
  \/ questionScore StringToNumber question answer = 0.
Proof.
  unfold questionScore.
  destruct (Question.type question);
    match goal with |- context [if ?b then _ else _] => destruct b end; auto.
Qed.

Lemma scoreQuestion_bounds (answersOfAccount : list AccountAnswer.t)
  (st : Z * Z) (question : Question.t) :
  0 <= Question.weight question ->
  0 <= fst st <= snd st ->
  0 <= fst (scoreQuestion StringToNumber answersOfAccount st question)
    <= snd (scoreQuestion StringToNumber answersOfAccount st question).
Proof.
  destruct st as [t m]. unfold scoreQuestion. simpl. intros Hw Hst.
  destruct (findAnswer answersOfAccount question) as [a|]; simpl; [|lia].
  destruct (questionScore_cases question a) as [-> | ->]; lia.
Qed.

Lemma fold_scoreQuestion_bounds (answersOfAccount : list AccountAnswer.t)
  (questions : list Question.t) :
  Forall (fun q => 0 <= Question.weight q) questions ->
  forall st, 0 <= fst st <= snd st ->
    0 <= fst (fold_left (scoreQuestion StringToNumber answersOfAccount) questions st)
      <= snd (fold_left (scoreQuestion StringToNumber answersOfAccount) questions st).
Proof.
  induction 1 as [|q qs Hq Hqs IH]; intros st Hst; simpl; [exact Hst|].
  apply IH. now apply scoreQuestion_bounds.
Qed.

End ScoreFacts.

(** ** Integers in binary64 *)

(** Addition of non-negative integers is exact in binary64 as long as the
    sum stays below 2^53.  The proof follows [SFadd]: both numbers are
    aligned on the smaller exponent, added as integers, and the sum is
    rounded, which only shifts it. *)

Lemma iter_pos_nat {X : Type} (f : X -> X) (n : positive) (x : X) :
  iter_pos f n x = Nat.iter (Pos.to_nat n) f x.
Proof.
  revert x. induction n as [n IH | n IH |]; intro x; cbn [iter_pos].
  - rewrite !IH, Pos2Nat.inj_xI, <- Nat.iter_add, <- Nat.iter_succ_r.
    f_equal. lia.
  - rewrite !IH, Pos2Nat.inj_xO, <- Nat.iter_add. f_equal. lia.
  - reflexivity.
Qed.

Lemma shifted_digits (j : nat) (m : positive) :
  Z.pos (digits2_pos (shifted j m)) = Z.pos (digits2_pos m) + Z.of_nat j.
Proof.
  induction j as [| j IH].
  - simpl. lia.
  - change (shifted (S j) m) with (xO (shifted j m)).
    cbn [digits2_pos]. rewrite Pos2Z.inj_succ, IH. lia.
Qed.

Lemma shifted_add (i j : nat) (m : positive) :
  shifted i (shifted j m) = shifted (i + j) m.
Proof. unfold shifted. now rewrite Nat.iter_add. Qed.

Lemma shifted_plus (j : nat) (a b : positive) :
  (shifted j a + shifted j b)%positive = shifted j (a + b).
Proof.
  induction j as [| j IH]; [reflexivity |].
  change (shifted (S j) a) with (xO (shifted j a)).
  change (shifted (S j) b) with (xO (shifted j b)).
  change (shifted (S j) (a + b)) with (xO (shifted j (a + b))).
  rewrite <- IH. reflexivity.
Qed.

Lemma shifted_value (j : nat) (m : positive) :
  Z.pos (shifted j m) = Z.pos m * 2 ^ Z.of_nat j.
Proof.
  induction j as [| j IH]; [simpl; lia |].
  change (shifted (S j) m) with (xO (shifted j m)).
  rewrite Pos2Z.inj_xO, IH, Nat2Z.inj_succ, Z.pow_succ_r by lia. lia.
Qed.

(** Shifting right what was shifted left loses nothing. *)
Lemma shr_shifted (j i : nat) (m : positive) :
  Nat.iter j shr_1 (Build_shr_record (Z.pos (shifted (j + i) m)) false false)
  = Build_shr_record (Z.pos (shifted i m)) false false.
Proof.
  revert i. induction j as [| j IH]; intro i; [reflexivity |].
  rewrite Nat.iter_succ. replace (S j + i)%nat with (j + S i)%nat by lia.
  rewrite IH. reflexivity.
Qed.

Lemma digits_bound (c : positive) :
  2 ^ (Z.pos (digits2_pos c) - 1) <= Z.pos c.
Proof.
  induction c as [c IH | c IH |]; cbn [digits2_pos].
  - rewrite Pos2Z.inj_succ.
    replace (Z.succ (Z.pos (digits2_pos c)) - 1)
      with (Z.succ (Z.pos (digits2_pos c) - 1)) by lia.
    rewrite Z.pow_succ_r by lia. lia.
  - rewrite Pos2Z.inj_succ.
    replace (Z.succ (Z.pos (digits2_pos c)) - 1)
      with (Z.succ (Z.pos (digits2_pos c) - 1)) by lia.
    rewrite Z.pow_succ_r by lia. lia.
  - simpl. lia.
Qed.

Lemma digits_le_53 (c : positive) :
  Z.pos c < 2 ^ 53 -> Z.pos (digits2_pos c) <= 53.
Proof.
  intro H.
  destruct (Z_le_gt_dec (Z.pos (digits2_pos c)) 53) as [Hd | Hd]; [exact Hd |].
  exfalso. pose proof (digits_bound c) as Hb.
  assert (2 ^ 53 <= 2 ^ (Z.pos (digits2_pos c) - 1))
    by (apply Z.pow_le_mono_r; lia).
  lia.
Qed.

Lemma fexp_normal (x : Z) : -1021 <= x -> fexp prec emax x = x - 53.
Proof.
  intro H. unfold fexp, SpecFloat.emin. change prec with 53. change emax with 1024.
  apply Z.max_l. lia.
Qed.

Lemma shl_align_shifted (mx : positive) (ex ex' : Z) :
  ex' <= ex ->
  shl_align mx ex ex' = (shifted (Z.to_nat (ex - ex')) mx, ex').
Proof.
  intro H. unfold shl_align.
  destruct (ex' - ex) as [| p | p] eqn:E; try lia.
  - assert (ex' = ex) by lia. subst ex'. now rewrite Z.sub_diag.
  - unfold shifted. rewrite Pos2Nat.inj_iter.
    replace (Z.to_nat (ex - ex')) with (Pos.to_nat p); [reflexivity |].
    assert (ex - ex' = Z.pos p) as -> by lia. reflexivity.
Qed.

Lemma shr_exact (n i : nat) (c : positive) (e : Z) :
  shr (Build_shr_record (Z.pos (shifted (n + i) c)) false false) e (Z.of_nat n)
  = (Build_shr_record (Z.pos (shifted i c)) false false, e + Z.of_nat n).
Proof.
  unfold shr. destruct n as [| n].
  - simpl. now rewrite Z.add_0_r.
  - cbn [Z.of_nat]. now rewrite iter_pos_nat, SuccNat2Pos.id_succ, shr_shifted.
Qed.

(** Rounding a mantissa of [53 + n] digits whose last [n] digits are 0. *)
Lemma binary_round_aux_exact (n i : nat) (c : positive) (e : Z) :
  Z.pos (digits2_pos c) + Z.of_nat i = 53 ->
  -1074 <= e + Z.of_nat n <= 971 ->
  binary_round_aux prec emax false (Z.pos (shifted (n + i) c)) e loc_Exact
  = S754_finite false (shifted i c) (e + Z.of_nat n).
Proof.
  intros Hd He. unfold binary_round_aux, shr_fexp.
  cbn [Zdigits2 shr_record_of_loc].
  rewrite shifted_digits, fexp_normal by lia.
  replace (Z.pos (digits2_pos c) + Z.of_nat (n + i) + e - 53 - e)
    with (Z.of_nat n) by lia.
  rewrite shr_exact.
  cbn [shr_m loc_of_shr_record round_nearest_even Zdigits2].
  rewrite shifted_digits, fexp_normal by lia.
  replace (Z.pos (digits2_pos c) + Z.of_nat i + (e + Z.of_nat n) - 53
           - (e + Z.of_nat n)) with 0 by lia.
  cbn [shr shr_m]. change (emax - prec) with 971.
  destruct (Z.leb_spec (e + Z.of_nat n) 971); [reflexivity | lia].
Qed.

(** [c * 2^j] with exponent [-j] rounds to [c], whatever [j] is. *)
Lemma binary_round_shifted (j : nat) (c : positive) :
  Z.pos (digits2_pos c) <= 53 ->
  binary_round prec emax false (shifted j c) (- Z.of_nat j) = canonical c.
Proof.
  intro Hd. unfold binary_round, canonical.
  pose proof (Pos2Z.is_pos (digits2_pos c)) as Hp.
  rewrite shifted_digits, fexp_normal by lia.
  set (d := Z.pos (digits2_pos c)) in *.
  destruct (Z_le_gt_dec (d - 53) (- Z.of_nat j)) as [Hc | Hc].
  - rewrite shl_align_shifted by lia.
    rewrite shifted_add.
    replace (Z.to_nat (- Z.of_nat j - (d + Z.of_nat j + - Z.of_nat j - 53)) + j)%nat
      with (0 + Z.to_nat (53 - d))%nat by lia.
    rewrite binary_round_aux_exact by (fold d; lia).
    f_equal. lia.
  - unfold shl_align.
    destruct (d + Z.of_nat j + - Z.of_nat j - 53 - - Z.of_nat j) as [| p | p] eqn:E;
      try lia.
    replace j with (Z.to_nat (Z.of_nat j - (53 - d)) + Z.to_nat (53 - d))%nat
      at 1 by lia.
    rewrite binary_round_aux_exact by (fold d; lia).
    f_equal. lia.
Qed.

Lemma canonical_valid (c : positive) :
  Z.pos (digits2_pos c) <= 53 -> valid_binary (canonical c) = true.
Proof.
  intro Hd. pose proof (Pos2Z.is_pos (digits2_pos c)) as Hp.
  unfold canonical. cbn [SpecFloat.valid_binary]. unfold bounded, canonical_mantissa.
  rewrite shifted_digits, fexp_normal by lia.
  change (emax - prec) with 971.
  apply andb_true_intro. split; [apply Z.eqb_eq | apply Z.leb_le]; lia.
Qed.

Lemma Prim2SF_of_Z (c : positive) :
  Z.pos c < 2 ^ 53 -> Prim2SF (JS.of_Z (Z.pos c)) = canonical c.
Proof.
  intro H. unfold JS.of_Z.
  change (binary_normalize prec emax (Z.pos c) 0 false)
    with (binary_round prec emax false (shifted 0 c) (- Z.of_nat 0)).
  rewrite (binary_round_shifted 0 c (digits_le_53 c H)).
  apply Prim2SF_SF2Prim, canonical_valid, digits_le_53, H.
Qed.

Lemma SFadd_canonical (a b : positive) :
  Z.pos (a + b) < 2 ^ 53 ->
  SF64add (canonical a) (canonical b) = canonical (a + b).
Proof.
  intro H.
  assert (Z.pos (digits2_pos a) <= 53) as Ha by (apply digits_le_53; lia).
  assert (Z.pos (digits2_pos b) <= 53) as Hb by (apply digits_le_53; lia).
  pose proof (Pos2Z.is_pos (digits2_pos a)) as Hpa.
  pose proof (Pos2Z.is_pos (digits2_pos b)) as Hpb.
  unfold SF64add, canonical at 1 2. cbn [SFadd cond_Zopp].
  set (da := Z.pos (digits2_pos a)) in *.
  set (db := Z.pos (digits2_pos b)) in *.
  rewrite !shl_align_shifted by lia. cbn [fst].
  rewrite !shifted_add.
  set (ez := Z.min (da - 53) (db - 53)).
  replace (Z.to_nat (da - 53 - ez) + Z.to_nat (53 - da))%nat
    with (Z.to_nat (- ez)) by lia.
  replace (Z.to_nat (db - 53 - ez) + Z.to_nat (53 - db))%nat
    with (Z.to_nat (- ez)) by lia.
  rewrite <- Pos2Z.inj_add, shifted_plus. cbn [binary_normalize].
  replace ez with (- Z.of_nat (Z.to_nat (- ez))) at 2 by lia.
  apply binary_round_shifted, digits_le_53, H.
Qed.

(** [a + b] in binary64 is the integer [a + b]. *)
Lemma of_Z_add (a b : Z) :
  0 <= a -> 0 <= b -> a + b < 2 ^ 53 ->
  PrimFloat.add (JS.of_Z a) (JS.of_Z b) = JS.of_Z (a + b).
Proof.
  intros Ha Hb H. apply Prim2SF_inj. rewrite add_spec.
  destruct a as [| a | a]; [| | lia]; destruct b as [| b | b]; try lia.
  - reflexivity.
  - cbn [Z.add]. rewrite Prim2SF_of_Z by lia.
    change (Prim2SF (JS.of_Z 0)) with (S754_zero false). reflexivity.
  - rewrite Z.add_0_r, Prim2SF_of_Z by lia.
    change (Prim2SF (JS.of_Z 0)) with (S754_zero false). reflexivity.
  - cbn [Z.add]. rewrite !Prim2SF_of_Z by lia. apply SFadd_canonical. lia.
Qed.

(** The binary64 number of an integer below 2^53 is that integer:
    [Math.round] gives it back. *)
Lemma Math_round_of_Z (z : Z) :
  0 <= z < 2 ^ 53 -> JS.Math_round (JS.of_Z z) = z.
Proof.
  intros [H0 H]. destruct z as [| c | c]; [reflexivity | | lia].
  unfold JS.Math_round. rewrite Prim2SF_of_Z by exact H.
  apply digits_le_53 in H.
  pose proof (Pos2Z.is_pos (digits2_pos c)) as Hp.
  unfold canonical. cbv zeta.
  set (d := Z.pos (digits2_pos c)) in *.
  rewrite shifted_value, Z2Nat.id by lia.
  destruct (Z.leb_spec 0 (d - 53)) as [Hd | Hd].
  - replace (d - 53) with 0 by lia. replace (53 - d) with 0 by lia. simpl. lia.
  - replace (- (d - 53)) with (53 - d) by lia.
    replace (1 - (d - 53)) with (Z.succ (53 - d)) by lia.
    rewrite Z.pow_succ_r by lia.
    assert (0 < 2 ^ (53 - d)) by (apply Z.pow_pos_nonneg; lia).
    replace (2 * (Z.pos c * 2 ^ (53 - d)) + 2 ^ (53 - d))
      with ((2 * Z.pos c + 1) * 2 ^ (53 - d)) by lia.
    rewrite Z.div_mul_cancel_r by lia.
    rewrite Z.mul_comm, Z.div_add_l by lia. simpl. lia.
Qed.

(** Beyond 2^53 it is not: 2^53 + 1 is 2^53. *)
Lemma of_Z_add_inexact :
  PrimFloat.add (JS.of_Z (2 ^ 53)) (JS.of_Z 1) = JS.of_Z (2 ^ 53)
  /\ JS.of_Z (2 ^ 53) = two_to_53.
Proof. split; vm_compute; reflexivity. Qed.

(** ** The loop on binary64 numbers *)

Section Binary64Facts.

Variable StringToNumber : string -> float.
Variable answersOfAccount : list AccountAnswer.t.

Lemma binary64_scoreQuestion_maxScore (st : float * float)
  (question : Binary64.Question.t) :
  snd (Binary64.scoreQuestion StringToNumber answersOfAccount st question)
  = PrimFloat.add (snd st) (Binary64.Question.weight question).
Proof.
  destruct st as [t m]. unfold Binary64.scoreQuestion.
  destruct (Binary64.findAnswer answersOfAccount question); reflexivity.
Qed.

(** [maxScore] does not depend on what the loop does to [totalScore]. *)
Lemma binary64_fold_maxScore (questions : list Binary64.Question.t) :
  forall st,
    snd (fold_left (Binary64.scoreQuestion StringToNumber answersOfAccount)
                   questions st)
    = fold_left PrimFloat.add (map Binary64.Question.weight questions) (snd st).
Proof.
  induction questions as [| q qs IH]; intro st; [reflexivity |].
  cbn [fold_left map]. now rewrite IH, binary64_scoreQuestion_maxScore.
Qed.

Lemma binary64_findAnswer (question : Question.t) :
  Binary64.findAnswer answersOfAccount (toBinary64 question)
  = findAnswer answersOfAccount question.
Proof. reflexivity. Qed.

Lemma binary64_questionScore (question : Question.t) (answer : AccountAnswer.t) :
  Binary64.questionScore StringToNumber (toBinary64 question) answer
  = JS.of_Z (questionScore StringToNumber question answer).
Proof.
  unfold Binary64.questionScore, questionScore. cbn [toBinary64 Binary64.Question.type
    Binary64.Question.weight].
  destruct (Question.type question);
    match goal with |- context [if ?b then _ else _] => destruct b end;
    reflexivity.
Qed.

(** One turn on integers below 2^53 is the turn of the integer loop. *)
Lemma binary64_scoreQuestion_integers (t m : Z) (question : Question.t) :
  0 <= t <= m -> 0 <= Question.weight question ->
  m + Question.weight question < 2 ^ 53 ->
  Binary64.scoreQuestion StringToNumber answersOfAccount
    (JS.of_Z t, JS.of_Z m) (toBinary64 question)
  = (JS.of_Z (fst (scoreQuestion StringToNumber answersOfAccount (t, m) question)),
     JS.of_Z (snd (scoreQuestion StringToNumber answersOfAccount (t, m) question))).
Proof.
  intros Ht Hw Hm. unfold Binary64.scoreQuestion, scoreQuestion.
  rewrite binary64_findAnswer.
  change (Binary64.Question.weight (toBinary64 question))
    with (JS.of_Z (Question.weight question)).
  rewrite of_Z_add by lia.
  destruct (findAnswer answersOfAccount question) as [a |]; [| reflexivity].
  rewrite binary64_questionScore. cbn [fst snd].
  destruct (questionScore_cases StringToNumber question a) as [E | E];
    rewrite E, of_Z_add by lia; reflexivity.
Qed.

Lemma binary64_fold_integers (questions : list Question.t) :
  Forall (fun q => 0 <= Question.weight q) questions ->
  forall t m,
    0 <= t <= m -> m + sum_of_weights questions < 2 ^ 53 ->
    fold_left (Binary64.scoreQuestion StringToNumber answersOfAccount)
              (map toBinary64 questions) (JS.of_Z t, JS.of_Z m)
    = (JS.of_Z (fst (fold_left (scoreQuestion StringToNumber answersOfAccount)
                               questions (t, m))),
       JS.of_Z (snd (fold_left (scoreQuestion StringToNumber answersOfAccount)
                               questions (t, m)))).
Proof.
  induction 1 as [| q qs Hq Hqs IH]; intros t m Ht Hm; [reflexivity |].
  assert (Hs : 0 <= sum_of_weights qs).
  { clear - Hqs. induction Hqs as [| q' l Hq' _ IHl]; [reflexivity |].
    unfold sum_of_weights in *. cbn [map fold_right]. lia. }
  unfold sum_of_weights in Hm. cbn [map fold_right] in Hm.
  fold (sum_of_weights qs) in Hm.
  cbn [map fold_left].
  rewrite binary64_scoreQuestion_integers by lia.
  pose proof (scoreQuestion_bounds StringToNumber answersOfAccount (t, m) q Hq Ht) as B.
  pose proof (scoreQuestion_maxScore StringToNumber answersOfAccount (t, m) q) as M.
  destruct (scoreQuestion StringToNumber answersOfAccount (t, m) q) as [t' m'].
  cbn [fst snd] in *. apply IH; lia.
Qed.

(** On non-negative integer weights whose sum is below 2^53 the binary64
    loop returns the integers of the integer loop. *)
Lemma scoreQuestions_binary64 (questions : list Question.t) :
  Forall (fun q => 0 <= Question.weight q) questions ->
  sum_of_weights questions < 2 ^ 53 ->
  Binary64.scoreQuestions StringToNumber answersOfAccount (map toBinary64 questions)
  = (JS.of_Z (fst (scoreQuestions StringToNumber answersOfAccount questions)),
     JS.of_Z (snd (scoreQuestions StringToNumber answersOfAccount questions))).
Proof.
  intros Hw Hs. unfold Binary64.scoreQuestions, scoreQuestions.
  change 0%float with (JS.of_Z 0).
  apply binary64_fold_integers; [exact Hw | lia | lia].
Qed.

End Binary64Facts.

(** ** The tiers *)

Lemma tierOf_A (p : Z) : tierOf p = Tier.A <-> 80 <= p.
Proof.
  unfold tierOf.
  destruct (80 <=? p) eqn:E80; [apply Z.leb_le in E80; tauto|].
  apply Z.leb_gt in E80.
  destruct (60 <=? p); [|destruct (40 <=? p)]; split; (discriminate || lia).
Qed.

Lemma tierOf_B (p : Z) : tierOf p = Tier.B <-> 60 <= p < 80.
Proof.
  unfold tierOf.
  destruct (80 <=? p) eqn:E80;
    [apply Z.leb_le in E80; split; (discriminate || lia)|].
  apply Z.leb_gt in E80.
  destruct (60 <=? p) eqn:E60; [apply Z.leb_le in E60; split; auto; lia|].
  apply Z.leb_gt in E60.
  destruct (40 <=? p); split; (discriminate || lia).
Qed.

Lemma tierOf_C (p : Z) : tierOf p = Tier.C <-> 40 <= p < 60.
Proof.
  unfold tierOf.
  destruct (80 <=? p) eqn:E80;
    [apply Z.leb_le in E80; split; (discriminate || lia)|].
  apply Z.leb_gt in E80.
  destruct (60 <=? p) eqn:E60;
    [apply Z.leb_le in E60; split; (discriminate || lia)|].
  apply Z.leb_gt in E60.
  destruct (40 <=? p) eqn:E40; [apply Z.leb_le in E40; split; auto; lia|].
  apply Z.leb_gt in E40. split; (discriminate || lia).
Qed.

Lemma tierOf_D (p : Z) : tierOf p = Tier.D <-> p < 40.
Proof.
  unfold tierOf.
  destruct (80 <=? p) eqn:E80;
    [apply Z.leb_le in E80; split; (discriminate || lia)|].
  destruct (60 <=? p) eqn:E60;
    [apply Z.leb_le in E60; split; (discriminate || lia)|].
  destruct (40 <=? p) eqn:E40;
    [apply Z.leb_le in E40; split; (discriminate || lia)|].
  apply Z.leb_gt in E40. split; auto.
Qed.

Lemma tierOf_monotone (p1 p2 : Z) :
  p1 <= p2 -> Tier.level (tierOf p1) <= Tier.level (tierOf p2).
Proof.
  intros H. unfold tierOf.
  destruct (80 <=? p1) eqn:A1; destruct (80 <=? p2) eqn:A2;
  destruct (60 <=? p1) eqn:B1; destruct (60 <=? p2) eqn:B2;
  destruct (40 <=? p1) eqn:C1; destruct (40 <=? p2) eqn:C2;
  simpl; try lia;
  repeat match goal with
  | E : (_ <=? _) = true |- _ => apply Z.leb_le in E
  | E : (_ <=? _) = false |- _ => apply Z.leb_gt in E
  end; lia.
Qed.

(** ** Numbers compared with zero *)

Lemma Prim2SF_zero : Prim2SF 0%float = S754_zero false.
Proof. reflexivity. Qed.

Lemma not_positive_when_negative (x : float) :
  PrimFloat.ltb x 0 = true -> PrimFloat.ltb 0 x = false.
Proof.
  rewrite !ltb_spec, Prim2SF_zero.
  destruct (Prim2SF x) as [s|s| |s m e]; try destruct s; cbn; congruence.
Qed.

Lemma not_positive_when_zero (x : float) :
  PrimFloat.eqb x 0 = true -> PrimFloat.ltb 0 x = false.
Proof.
  rewrite eqb_spec, ltb_spec, Prim2SF_zero.
  destruct (Prim2SF x) as [s|s| |s m e]; try destruct s; cbn; congruence.
Qed.

Lemma positive_not_zero (x : float) :
  PrimFloat.ltb 0 x = true -> PrimFloat.eqb x 0 = false /\ PrimFloat.ltb x 0 = false.
Proof.
  rewrite eqb_spec, !ltb_spec, Prim2SF_zero.
  destruct (Prim2SF x) as [s|s| |s m e]; try destruct s; cbn; try congruence; auto.
Qed.

(** ** Looking an answer up *)

(** [find] after [filter] is the first element passing both tests. *)
Lemma find_filter {X : Type} (f g : X -> bool) (l : list X) :
  find g (filter f l) = find (fun x => f x && g x) l.
Proof.
  induction l as [|x l IH]; simpl; [reflexivity|].
  destruct (f x); simpl; [destruct (g x)|]; auto.
Qed.

Lemma find_app_first {X : Type} (f : X -> bool) (before after : list X) (x : X) :
  (forall y, In y before -> f y = false) -> f x = true ->
  find f (before ++ x :: after) = Some x.
Proof.
  intros Hb Hx. induction before as [|y l IH]; simpl.
  - now rewrite Hx.
  - rewrite (Hb y (or_introl eq_refl)). apply IH.
    intros z Hz. apply Hb. now right.
Qed.

(** ** The percentage *)

(** No percentage is computed for a [maxScore] that is not positive. *)
Lemma percentageOf_nonpositive (totalScore maxScore : Z) :
  maxScore <= 0 -> percentageOf totalScore maxScore = 0.
Proof.
  intros H. unfold percentageOf.
  destruct (0 <? maxScore) eqn:E; [apply Z.ltb_lt in E; lia|reflexivity].
Qed.

(** Without questions the percentage is 0. *)
Lemma percentageOf_no_question (StringToNumber : string -> float)
  (answersOfAccount : list AccountAnswer.t) :
  scoreQuestions StringToNumber answersOfAccount [] = (0, 0)
  /\ percentageOf 0 0 = 0.
Proof. split; reflexivity. Qed.

(** Every result carries [percentageOf] of its two scores. *)
Lemma calculateScores_percentage (StringToNumber : string -> float)
  (accounts : list Account.t) (questions : list Question.t)
  (answers : list AccountAnswer.t) :
  Forall (fun r => EvaluationResult.percentage r
                   = percentageOf (EvaluationResult.totalScore r)
                                  (EvaluationResult.maxScore r))
         (calculateScores StringToNumber accounts questions answers).
Proof.
  apply calculateScores_Forall.
  - intros result r H. exact H.
  - intros account _. apply evaluateAccount_percentage.
Qed.

(** Below 40 points the float computation and the exact one agree; 23 of 40
    is the first pair on which they differ. *)
Lemma percentageOf_exact_below_40 (totalScore maxScore : Z) :
  0 <= totalScore <= maxScore -> maxScore < 40 ->
  percentageOf totalScore maxScore = spec_percentage totalScore maxScore.
Proof.
  intros Ht Hm.
  assert (H : percentages_agree_below 40 = true) by (vm_compute; reflexivity).
  unfold percentages_agree_below in H.
  rewrite forallb_forall in H.
  specialize (H (Z.to_nat maxScore)).
  rewrite forallb_forall in H.
  assert (Hin : In (Z.to_nat maxScore) (seq 0 40)) by (apply in_seq; lia).
  specialize (H Hin (Z.to_nat totalScore)).
  assert (Hin' : In (Z.to_nat totalScore) (seq 0 (S (Z.to_nat maxScore))))
    by (apply in_seq; lia).
  specialize (H Hin').
  rewrite !Z2Nat.id in H by lia.
  now apply Z.eqb_eq.
Qed.

(** C1, at the input where it fails.  Acme earns 23 of 40 points, which is
    57.5 percent: the specification's round(100 * totalScore / maxScore) is
    58.  The code divides first: 23 / 40 is the float 0.57499999999999996, its
    product with 100 is 57.499999999999993, and [Math.round] of that is 57. *)
Theorem C1_percentage_of_23_in_40 (StringToNumber : string -> float) :
  map (fun r => (EvaluationResult.totalScore r, EvaluationResult.maxScore r,
                 EvaluationResult.percentage r))
      (calculateScores StringToNumber [acme] questions_40 answers_23)
  = [(23, 40, 57)]
  /\ spec_percentage 23 40 = 58
  /\ 2 * (100 * 23) = (2 * 57 + 1) * 40.
Proof. repeat split; vm_compute; reflexivity. Qed.

(** ** The ranks of the results *)

Lemma calculateScores_length (StringToNumber : string -> float)
  (accounts : list Account.t) (questions : list Question.t)
  (answers : list AccountAnswer.t) :
  List.length (calculateScores StringToNumber accounts questions answers)
  = List.length accounts.
Proof.
  unfold calculateScores, byPercentage.
  rewrite assignRanks_length, (Array_sort_length EvaluationResult.percentage).
  apply length_map.
Qed.

Lemma calculateScores_ranks (StringToNumber : string -> float)
  (accounts : list Account.t) (questions : list Question.t)
  (answers : list AccountAnswer.t) :
  map EvaluationResult.rank (calculateScores StringToNumber accounts questions answers)
  = map Z.of_nat (seq 1 (List.length accounts)).
Proof.
  unfold calculateScores, byPercentage.
  rewrite assignRanks_rank, (Array_sort_length EvaluationResult.percentage), length_map.
  rewrite <- seq_shift, map_map. apply map_ext. intros i. lia.
Qed.

(** Apart from its rank, a result is what [evaluateAccount] gives for its
    account. *)
Lemma calculateScores_evaluated (StringToNumber : string -> float)
  (accounts : list Account.t) (questions : list Question.t)
  (answers : list AccountAnswer.t) :
  Forall (fun r => EvaluationResult.set_rank r 0
                   = evaluateAccount StringToNumber questions answers
                       (EvaluationResult.account r))
         (calculateScores StringToNumber accounts questions answers).
Proof.
  apply calculateScores_Forall.
  - intros [a [i t m p g k] l] r H. exact H.
  - intros account _. rewrite evaluateAccount_account.
    unfold evaluateAccount.
    destruct (scoreQuestions _ _ _) as [t m]. reflexivity.
Qed.

(** ** The claims about tiers, ranks and sums *)

(** C2: the tier of every result is [tierOf] of its percentage, and [tierOf]
    gives A from 80 up, B from 60 to below 80, C from 40 to below 60 and D
    below 40 (so exactly one tier for each percentage); a higher percentage
    never gets a lower tier. *)
Theorem C2_tier_by_thresholds :
  (forall StringToNumber accounts questions answers,
      Forall (fun r => EvaluationResult.tier r = tierOf (EvaluationResult.percentage r))
             (calculateScores StringToNumber accounts questions answers))
  /\ (forall p,
         (tierOf p = Tier.A <-> 80 <= p)
         /\ (tierOf p = Tier.B <-> 60 <= p < 80)
         /\ (tierOf p = Tier.C <-> 40 <= p < 60)
         /\ (tierOf p = Tier.D <-> p < 40))
  /\ (forall p1 p2, p1 <= p2 -> Tier.level (tierOf p1) <= Tier.level (tierOf p2)).
Proof.
  split; [|split].
  - intros StringToNumber accounts questions answers.
    apply calculateScores_Forall.
    + intros result r H. exact H.
    + intros account _. apply evaluateAccount_tier.
  - intros p.
    split; [exact (tierOf_A p)|].
    split; [exact (tierOf_B p)|].
    split; [exact (tierOf_C p)|exact (tierOf_D p)].
  - apply tierOf_monotone.
Qed.

(** C3: there is one result for each input account, which apart from its
    rank is the evaluation of that account; the results are in descending
    order of percentage; the accounts of any one percentage stand in the
    order they have in the input; the ranks are 1, 2, ..., N in order, ties
    included. *)
Theorem C3_sorted_stable_ranked (StringToNumber : string -> float)
  (accounts : list Account.t) (questions : list Question.t)
  (answers : list AccountAnswer.t) :
  List.length (calculateScores StringToNumber accounts questions answers)
  = List.length accounts
  /\ Permutation
       (map EvaluationResult.account
            (calculateScores StringToNumber accounts questions answers))
       accounts
  /\ StronglySorted Z.ge
       (map EvaluationResult.percentage
            (calculateScores StringToNumber accounts questions answers))
  /\ (forall p,
         map EvaluationResult.account
             (filter (fun r => EvaluationResult.percentage r =? p)
                     (calculateScores StringToNumber accounts questions answers))
         = filter (fun a => EvaluationResult.percentage
                              (evaluateAccount StringToNumber questions answers a) =? p)
                  accounts)
  /\ Forall (fun r => EvaluationResult.set_rank r 0
                      = evaluateAccount StringToNumber questions answers
                          (EvaluationResult.account r))
            (calculateScores StringToNumber accounts questions answers)
  /\ map EvaluationResult.rank
         (calculateScores StringToNumber accounts questions answers)
     = map Z.of_nat (seq 1 (List.length accounts)).
Proof.
  split; [apply calculateScores_length|].
  split; [|split; [|split; [|split;
    [apply calculateScores_evaluated|apply calculateScores_ranks]]]];
    unfold calculateScores, byPercentage.
  - rewrite (assignRanks_map _ rank_blind_account).
    apply perm_trans
      with (map EvaluationResult.account
                (map (evaluateAccount StringToNumber questions answers) accounts)).
    + apply Permutation_map, (Array_sort_perm EvaluationResult.percentage).
    + rewrite map_map, (map_ext _ id), map_id; [apply Permutation_refl|].
      intros a. apply evaluateAccount_account.
  - rewrite (assignRanks_map _ rank_blind_percentage).
    apply (Array_sort_sorted EvaluationResult.percentage).
  - intros p.
    rewrite (assignRanks_filter _ _ rank_blind_account (rank_blind_percentage_is p)).
    rewrite (Array_sort_stable EvaluationResult.percentage).
    induction accounts as [|a l IH]; simpl; [reflexivity|].
    destruct (_ =? p); simpl; [rewrite evaluateAccount_account|]; now rewrite IH.
Qed.

(** C4: [maxScore] is the sum of the weights of all the questions, whatever
    the answers are.  The code takes the sum in binary64: [maxScore] starts
    at 0 and each weight is added to it in the order of the list; that sum is
    what the loop leaves in [maxScore], for weights of any size and for any
    answers.  For non-negative integer weights whose sum is below 2^53 no
    addition rounds, and [maxScore] is the exact sum, in the loop and in
    every result of [calculateScores]. *)
Theorem C4_maxScore_is_sum_of_weights (StringToNumber : string -> float) :
  (forall (questions : list Binary64.Question.t)
          (answersOfAccount : list AccountAnswer.t),
      snd (Binary64.scoreQuestions StringToNumber answersOfAccount questions)
      = Binary64.sum_of_weights questions)
  /\ (forall questions : list Question.t,
         Forall (fun q => 0 <= Question.weight q) questions ->
         sum_of_weights questions < 2 ^ 53 ->
         (forall answersOfAccount,
             snd (Binary64.scoreQuestions StringToNumber answersOfAccount
                    (map toBinary64 questions))
             = JS.of_Z (sum_of_weights questions))
         /\ (forall accounts answers,
                Forall (fun r => EvaluationResult.maxScore r
                                 = sum_of_weights questions)
                       (calculateScores StringToNumber accounts questions answers))).
Proof.
  split.
  - intros questions aa. unfold Binary64.scoreQuestions, Binary64.sum_of_weights.
    now rewrite binary64_fold_maxScore.
  - intros questions Hw Hs.
    assert (H : forall aa, snd (scoreQuestions StringToNumber aa questions)
                           = sum_of_weights questions).
    { intros aa. unfold scoreQuestions. now rewrite fold_scoreQuestion_maxScore. }
    split.
    + intros aa. rewrite (scoreQuestions_binary64 StringToNumber aa questions Hw Hs).
      cbn [snd]. now rewrite H.
    + intros accounts answers. apply calculateScores_Forall.
      * intros result r Hr. exact Hr.
      * intros account _.
        pose proof (evaluateAccount_scores StringToNumber questions answers account)
          as E.
        rewrite <- (H (accountAnswers answers account)), <- E. reflexivity.
Qed.

(** In a run: with weights 2^53 and 1 the loop leaves 2^53 in [maxScore],
    which is their binary64 sum; with the weights 10, 10, 3, 10 and 7 it
    leaves 40, for Acme's answers as for none. *)
Lemma C4_maxScore_is_sum_of_weights_witness :
  snd (Binary64.scoreQuestions no_numeric_string
         [sample_answer "a" "q0" (of_boolean true)] questions_huge)
  = two_to_53
  /\ snd (Binary64.scoreQuestions no_numeric_string
            (accountAnswers answers_23 acme) (map toBinary64 questions_40))
     = JS.of_Z 40
  /\ snd (Binary64.scoreQuestions no_numeric_string []
            (map toBinary64 questions_40))
     = JS.of_Z 40.
Proof.
  assert (Hw : Forall (fun q => 0 <= Question.weight q) questions_40).
  { repeat constructor; discriminate. }
  assert (Hs : sum_of_weights questions_40 < 2 ^ 53) by reflexivity.
  split; [| split].
  - exact (proj1 (C4_maxScore_is_sum_of_weights no_numeric_string) questions_huge
                 [sample_answer "a" "q0" (of_boolean true)]).
  - exact (proj1 (proj2 (C4_maxScore_is_sum_of_weights no_numeric_string)
                        questions_40 Hw Hs)
                 (accountAnswers answers_23 acme)).
  - exact (proj1 (proj2 (C4_maxScore_is_sum_of_weights no_numeric_string)
                        questions_40 Hw Hs) []).
Defined.

(** The binary64 sum on weights that are no small integers: 2^53 + 1 is
    2^53, and 0.1 + 0.2 + 0.3 is 0.6000000000000001, whatever is answered. *)
Lemma binary64_maxScore_examples :
  Binary64.scoreQuestions no_numeric_string [] questions_huge
  = (0%float, two_to_53)
  /\ Binary64.scoreQuestions no_numeric_string
       [sample_answer "a" "q1" (of_boolean true)] questions_huge
     = (1%float, two_to_53)
  /\ Binary64.scoreQuestions no_numeric_string
       [sample_answer "a" "q2" (of_boolean true)] questions_fractions
     = (0x1.3333333333333p-2%float, 0x1.3333333333334p-1%float)
  /\ Binary64.sum_of_weights (rev questions_fractions) = 0x1.3333333333333p-1%float.
Proof. repeat split; vm_compute; reflexivity. Qed.

(** C8: when no weight is negative, every result has
    [0 <= totalScore <= maxScore]. *)
Theorem C8_totalScore_within_maxScore (StringToNumber : string -> float)
  (accounts : list Account.t) (questions : list Question.t)
  (answers : list AccountAnswer.t) :
  Forall (fun q => 0 <= Question.weight q) questions ->
  Forall (fun r => 0 <= EvaluationResult.totalScore r <= EvaluationResult.maxScore r)
         (calculateScores StringToNumber accounts questions answers).
Proof.
  intros Hw. apply calculateScores_Forall.
  - intros result r Hr. exact Hr.
  - intros account _.
    pose proof (evaluateAccount_scores StringToNumber questions answers account) as E.
    pose proof (fold_scoreQuestion_bounds StringToNumber
                  (accountAnswers answers account) questions Hw (0, 0)) as B.
    fold (scoreQuestions StringToNumber (accountAnswers answers account) questions) in B.
    rewrite <- E in B. simpl in B. apply B. lia.
Qed.

(** On the sample data: no weight is negative, and the three results are
    within bounds. *)
Lemma C8_totalScore_within_maxScore_witness :
  Forall (fun q => 0 <= Question.weight q) questions_40
  /\ Forall (fun r => 0 <= EvaluationResult.totalScore r <= EvaluationResult.maxScore r)
            (calculateScores no_numeric_string [cask; acme; bolt] questions_40 answers_23).
Proof.
  assert (Hw : Forall (fun q => 0 <= Question.weight q) questions_40).
  { repeat constructor; discriminate. }
  split; [exact Hw|].
  exact (C8_totalScore_within_maxScore no_numeric_string [cask; acme; bolt]
           questions_40 answers_23 Hw).
Defined.

(** ** The score of one question *)

Section QuestionFacts.

Variable StringToNumber : string -> float.
Variable answersOfAccount : list AccountAnswer.t.

Lemma scoreQuestion_found (question : Question.t) (answer : AccountAnswer.t)
  (totalScore maxScore : Z) :
  findAnswer answersOfAccount question = Some answer ->
  scoreQuestion StringToNumber answersOfAccount (totalScore, maxScore) question
  = (totalScore + questionScore StringToNumber question answer,
     maxScore + Question.weight question).
Proof. intros H. unfold scoreQuestion. now rewrite H. Qed.

Lemma scoreQuestion_missing (question : Question.t) (totalScore maxScore : Z) :
  findAnswer answersOfAccount question = None ->
  scoreQuestion StringToNumber answersOfAccount (totalScore, maxScore) question
  = (totalScore, maxScore + Question.weight question).
Proof. intros H. unfold scoreQuestion. now rewrite H. Qed.

End QuestionFacts.

(** C5: a boolean question adds its full weight to [totalScore] when the
    answer found is the boolean [true], and adds nothing for any other
    answer, the string "true" included. *)
Theorem C5_boolean_question (StringToNumber : string -> float)
  (answersOfAccount : list AccountAnswer.t) (question : Question.t)
  (answer : AccountAnswer.t) (totalScore maxScore : Z) :
  Question.type question = Question.boolean ->
  findAnswer answersOfAccount question = Some answer ->
  (AccountAnswer.answer answer = of_boolean true ->
   fst (scoreQuestion StringToNumber answersOfAccount (totalScore, maxScore) question)
   = totalScore + Question.weight question)
  /\ (AccountAnswer.answer answer <> of_boolean true ->
      fst (scoreQuestion StringToNumber answersOfAccount (totalScore, maxScore) question)
      = totalScore)
  /\ (AccountAnswer.answer answer = of_string "true" ->
      fst (scoreQuestion StringToNumber answersOfAccount (totalScore, maxScore) question)
      = totalScore).
Proof.
  intros Hty Hfind.
  rewrite (scoreQuestion_found _ _ _ _ _ _ Hfind). simpl.
  unfold questionScore. rewrite Hty.
  split; [|split].
  - intros ->. reflexivity.
  - intros Hne.
    destruct (AccountAnswer.answer answer) as [s|x|[|]]; simpl; try lia.
    now elim Hne.
  - intros ->. simpl. lia.
Qed.

(** On the sample yes/no question: [true] adds 10, [false] and the string
    "true" add nothing. *)
Lemma C5_boolean_question_witness :
  fst (scoreQuestion no_numeric_string [sample_answer "a" "q0" (of_boolean true)]
         (0, 0) question_yes_no) = 0 + 10
  /\ fst (scoreQuestion no_numeric_string [sample_answer "a" "q0" (of_boolean false)]
            (7, 0) question_yes_no) = 7
  /\ fst (scoreQuestion no_numeric_string [sample_answer "a" "q0" (of_string "true")]
            (7, 0) question_yes_no) = 7.
Proof.
  split; [|split].
  - exact (proj1 (C5_boolean_question no_numeric_string
                    [sample_answer "a" "q0" (of_boolean true)] question_yes_no
                    (sample_answer "a" "q0" (of_boolean true)) 0 0 eq_refl eq_refl)
                 eq_refl).
  - refine (proj1 (proj2 (C5_boolean_question no_numeric_string
                    [sample_answer "a" "q0" (of_boolean false)] question_yes_no
                    (sample_answer "a" "q0" (of_boolean false)) 7 0 eq_refl eq_refl))
                  _).
    simpl. discriminate.
  - exact (proj2 (proj2 (C5_boolean_question no_numeric_string
                    [sample_answer "a" "q0" (of_string "true")] question_yes_no
                    (sample_answer "a" "q0" (of_string "true")) 7 0 eq_refl eq_refl))
                 eq_refl).
Defined.

(** C6: a number question adds its full weight to [totalScore] when the
    numeric answer found is greater than 0 and nothing otherwise; a negative
    answer and an answer of 0 add nothing. *)
Theorem C6_number_question (StringToNumber : string -> float)
  (answersOfAccount : list AccountAnswer.t) (question : Question.t)
  (answer : AccountAnswer.t) (x : float) (totalScore maxScore : Z) :
  Question.type question = Question.number ->
  findAnswer answersOfAccount question = Some answer ->
  AccountAnswer.answer answer = of_number x ->
  (PrimFloat.ltb 0 x = true ->
   fst (scoreQuestion StringToNumber answersOfAccount (totalScore, maxScore) question)
   = totalScore + Question.weight question)
  /\ (PrimFloat.ltb 0 x = false ->
      fst (scoreQuestion StringToNumber answersOfAccount (totalScore, maxScore) question)
      = totalScore)
  /\ (PrimFloat.ltb x 0 = true ->
      fst (scoreQuestion StringToNumber answersOfAccount (totalScore, maxScore) question)
      = totalScore)
  /\ (PrimFloat.eqb x 0 = true ->
      fst (scoreQuestion StringToNumber answersOfAccount (totalScore, maxScore) question)
      = totalScore).
Proof.
  intros Hty Hfind Hx.
  rewrite (scoreQuestion_found _ _ _ _ _ _ Hfind). simpl.
  unfold questionScore, JS.greater_than_zero. rewrite Hty, Hx. simpl.
  assert (Hno : PrimFloat.ltb 0 x = false ->
                totalScore + (if PrimFloat.ltb 0 x then Question.weight question else 0)
                = totalScore).
  { intros ->. lia. }
  split; [|split; [|split]].
  - intros ->. reflexivity.
  - exact Hno.
  - intros Hneg. apply Hno. now apply not_positive_when_negative.
  - intros Hz. apply Hno. now apply not_positive_when_zero.
Qed.

(** On the sample number question: 5 adds 4, -3 and 0 add nothing. *)
Lemma C6_number_question_witness :
  fst (scoreQuestion no_numeric_string [sample_answer "a" "n0" (of_number 5%float)]
         (0, 0) question_count) = 0 + 4
  /\ fst (scoreQuestion no_numeric_string [sample_answer "a" "n0" (of_number (-3)%float)]
            (7, 0) question_count) = 7
  /\ fst (scoreQuestion no_numeric_string [sample_answer "a" "n0" (of_number 0%float)]
            (7, 0) question_count) = 7.
Proof.
  split; [|split].
  - exact (proj1 (C6_number_question no_numeric_string
                    [sample_answer "a" "n0" (of_number 5%float)] question_count
                    (sample_answer "a" "n0" (of_number 5%float)) 5%float 0 0
                    eq_refl eq_refl eq_refl)
                 eq_refl).
  - exact (proj1 (proj2 (proj2 (C6_number_question no_numeric_string
                    [sample_answer "a" "n0" (of_number (-3)%float)] question_count
                    (sample_answer "a" "n0" (of_number (-3)%float)) (-3)%float 7 0
                    eq_refl eq_refl eq_refl)))
                 eq_refl).
  - exact (proj2 (proj2 (proj2 (C6_number_question no_numeric_string
                    [sample_answer "a" "n0" (of_number 0%float)] question_count
                    (sample_answer "a" "n0" (of_number 0%float)) 0%float 7 0
                    eq_refl eq_refl eq_refl)))
                 eq_refl).
Defined.

(** C7: a multiple-choice question adds its full weight to [totalScore] when
    the answer found is truthy, and nothing when it is not, whatever kind of
    value the answer is: a string counts unless it is empty, a boolean when
    it is [true], a number unless it is 0, -0 or NaN.  The options of the
    question are not consulted, so every option, and a string that is no
    option at all, adds the same full weight.  When the weight is not 0, the
    full weight is added if and only if the answer is truthy. *)
Theorem C7_multiple_choice_question (StringToNumber : string -> float)
  (answersOfAccount : list AccountAnswer.t) (question : Question.t)
  (answer : AccountAnswer.t) (totalScore maxScore : Z) :
  Question.type question = Question.multiple_choice ->
  findAnswer answersOfAccount question = Some answer ->
  (forall s, AccountAnswer.answer answer = of_string s -> s <> EmptyString ->
   fst (scoreQuestion StringToNumber answersOfAccount (totalScore, maxScore) question)
   = totalScore + Question.weight question)
  /\ (AccountAnswer.answer answer = of_string EmptyString ->
      fst (scoreQuestion StringToNumber answersOfAccount (totalScore, maxScore) question)
      = totalScore)
  /\ (forall s opts, AccountAnswer.answer answer = of_string s ->
      Question.options question = Some opts -> ~ In s opts -> s <> EmptyString ->
      fst (scoreQuestion StringToNumber answersOfAccount (totalScore, maxScore) question)
      = totalScore + Question.weight question)
  /\ (AccountAnswer.answer answer = of_boolean true ->
      fst (scoreQuestion StringToNumber answersOfAccount (totalScore, maxScore) question)
      = totalScore + Question.weight question)
  /\ (AccountAnswer.answer answer = of_boolean false ->
      fst (scoreQuestion StringToNumber answersOfAccount (totalScore, maxScore) question)
      = totalScore)
  /\ (forall x, AccountAnswer.answer answer = of_number x ->
      PrimFloat.eqb x 0 = false -> PrimFloat.is_nan x = false ->
      fst (scoreQuestion StringToNumber answersOfAccount (totalScore, maxScore) question)
      = totalScore + Question.weight question)
  /\ (forall x, AccountAnswer.answer answer = of_number x ->
      PrimFloat.eqb x 0 = true \/ PrimFloat.is_nan x = true ->
      fst (scoreQuestion StringToNumber answersOfAccount (totalScore, maxScore) question)
      = totalScore)
  /\ (Question.weight question <> 0 ->
      (fst (scoreQuestion StringToNumber answersOfAccount (totalScore, maxScore)
              question)
       = totalScore + Question.weight question
       <-> JS.ToBoolean (AccountAnswer.answer answer) = true)).
Proof.
  intros Hty Hfind.
  rewrite (scoreQuestion_found _ _ _ _ _ _ Hfind). cbn [fst].
  unfold questionScore. rewrite Hty.
  assert (Hfull : forall s, AccountAnswer.answer answer = of_string s ->
                            s <> EmptyString ->
                            totalScore + (if JS.ToBoolean (AccountAnswer.answer answer)
                                          then Question.weight question else 0)
                            = totalScore + Question.weight question).
  { intros s -> Hne. apply String.eqb_neq in Hne. cbn [JS.ToBoolean]. now rewrite Hne. }
  repeat apply conj.
  - exact Hfull.
  - intros ->. cbn. lia.
  - intros s opts Hs _ _. exact (Hfull s Hs).
  - intros ->. reflexivity.
  - intros ->. cbn. lia.
  - intros x -> Hz Hn. cbn [JS.ToBoolean]. now rewrite Hz, Hn.
  - intros x -> [Hz | Hn]; cbn [JS.ToBoolean].
    + rewrite Hz. cbn. lia.
    + rewrite Hn, orb_true_r. cbn. lia.
  - intros Hw. destruct (JS.ToBoolean (AccountAnswer.answer answer)).
    + split; reflexivity.
    + split; [intros H; lia | discriminate].
Qed.

(** On the sample multiple-choice question: the option Large adds 6, the
    empty string nothing, and Medium, which is no option, adds 6; so do the
    number 7 and the boolean [true], while 0 and [false] add nothing. *)
Lemma C7_multiple_choice_question_witness :
  fst (scoreQuestion no_numeric_string [sample_answer "a" "m0" (of_string "Large")]
         (0, 0) question_choice) = 0 + 6
  /\ fst (scoreQuestion no_numeric_string [sample_answer "a" "m0" (of_string "")]
            (7, 0) question_choice) = 7
  /\ fst (scoreQuestion no_numeric_string [sample_answer "a" "m0" (of_string "Medium")]
            (0, 0) question_choice) = 0 + 6
  /\ fst (scoreQuestion no_numeric_string [sample_answer "a" "m0" (of_boolean true)]
            (0, 0) question_choice) = 0 + 6
  /\ fst (scoreQuestion no_numeric_string [sample_answer "a" "m0" (of_boolean false)]
            (7, 0) question_choice) = 7
  /\ fst (scoreQuestion no_numeric_string [sample_answer "a" "m0" (of_number 7%float)]
            (0, 0) question_choice) = 0 + 6
  /\ fst (scoreQuestion no_numeric_string [sample_answer "a" "m0" (of_number 0%float)]
            (7, 0) question_choice) = 7.
Proof.
  pose (run := fun v t =>
          C7_multiple_choice_question no_numeric_string [sample_answer "a" "m0" v]
            question_choice (sample_answer "a" "m0" v) t 0 eq_refl eq_refl).
  repeat apply conj.
  - refine (proj1 (run (of_string "Large") 0) "Large"%string eq_refl _). discriminate.
  - exact (proj1 (proj2 (run (of_string "") 7)) eq_refl).
  - refine (proj1 (proj2 (proj2 (run (of_string "Medium") 0)))
                  "Medium"%string ["Small"; "Large"]%string eq_refl eq_refl _ _).
    + simpl. intros [H|[H|[]]]; discriminate H.
    + discriminate.
  - exact (proj1 (proj2 (proj2 (proj2 (run (of_boolean true) 0)))) eq_refl).
  - exact (proj1 (proj2 (proj2 (proj2 (proj2 (run (of_boolean false) 7))))) eq_refl).
  - exact (proj1 (proj2 (proj2 (proj2 (proj2 (proj2 (run (of_number 7%float) 0))))))
                 7%float eq_refl eq_refl eq_refl).
  - exact (proj1 (proj2 (proj2 (proj2 (proj2 (proj2 (proj2
                   (run (of_number 0%float) 7)))))))
                 0%float eq_refl (or_introl eq_refl)).
Defined.

(** The claim as worded, full weight only for a non-empty string, fails: under
    the sample multiple-choice question, of weight 6, the number 7 and the
    boolean [true] are no strings and both score 6. *)
Lemma C7_number_and_true_score_full_weight :
  Question.type question_choice = Question.multiple_choice
  /\ Question.weight question_choice = 6
  /\ questionScore no_numeric_string question_choice
       (sample_answer "a" "m0" (of_number 7%float)) = 6
  /\ questionScore no_numeric_string question_choice
       (sample_answer "a" "m0" (of_boolean true)) = 6
  /\ fst (scoreQuestion no_numeric_string [sample_answer "a" "m0" (of_number 7%float)]
            (0, 0) question_choice) = 0 + 6
  /\ fst (scoreQuestion no_numeric_string [sample_answer "a" "m0" (of_boolean true)]
            (0, 0) question_choice) = 0 + 6
  /\ (forall s, of_number 7%float <> of_string s)
  /\ (forall s, of_boolean true <> of_string s).
Proof.
  repeat apply conj; try (vm_compute; reflexivity); intros s; discriminate.
Qed.

(** ** The export *)

Lemma exportResults_lines (results : list EvaluationResult.t) :
  exportResults results = String.concat newline (csvHeaderLine :: map csvLine results).
Proof.
  unfold exportResults, JS.Array_join.
  rewrite map_cons, map_map. reflexivity.
Qed.

(** C9, as the code has it: the export is the header line
    Rank,Company,Industry,Score,Percentage,Tier followed by one line for each
    result, the lines joined by a newline; a line is
    rank,name,industry,total/max,percentage%,tier, no field between quotes;
    the results of [calculateScores] carry the ranks 1, 2, ..., N in order,
    so the lines are in ascending order of rank. *)
Theorem C9_export_format :
  (forall results,
      exportResults results
      = String.concat newline
          ("Rank,Company,Industry,Score,Percentage,Tier"%string
           :: map (fun result =>
                     (JS.Number_toString (EvaluationResult.rank result) ++ ","
                      ++ Account.name (EvaluationResult.account result) ++ ","
                      ++ Account.industry (EvaluationResult.account result) ++ ","
                      ++ (JS.Number_toString (EvaluationResult.totalScore result) ++ "/"
                          ++ JS.Number_toString (EvaluationResult.maxScore result))
                      ++ ","
                      ++ (JS.Number_toString (EvaluationResult.percentage result) ++ "%")
                      ++ ","
                      ++ Tier.to_string (EvaluationResult.tier result))%string)
                  results))
  /\ (forall StringToNumber accounts questions answers,
         map EvaluationResult.rank
             (calculateScores StringToNumber accounts questions answers)
         = map Z.of_nat (seq 1 (List.length accounts))).
Proof.
  split.
  - intros results. rewrite exportResults_lines. reflexivity.
  - exact calculateScores_ranks.
Qed.

(** C9 as stated fails: the export of Acme's result has the line
    1,Acme,Software,23/40,57%,C, which is not the line with 23/40 and 57%
    between double quotes. *)
Lemma C9_fields_are_not_quoted :
  exportResults (calculateScores no_numeric_string [acme] questions_40 answers_23)
  = (csvHeaderLine ++ newline ++ "1,Acme,Software,23/40,57%,C")%string
  /\ spec_export (calculateScores no_numeric_string [acme] questions_40 answers_23)
     = (csvHeaderLine ++ newline ++ "1,Acme,Software," ++ dquote ++ "23/40" ++ dquote
        ++ "," ++ dquote ++ "57%" ++ dquote ++ ",C")%string
  /\ exportResults (calculateScores no_numeric_string [acme] questions_40 answers_23)
     <> spec_export (calculateScores no_numeric_string [acme] questions_40 answers_23).
Proof.
  split; [vm_compute; reflexivity|].
  split; [vm_compute; reflexivity|].
  intros H. vm_compute in H. discriminate H.
Qed.

(** ** An answer given twice *)

Lemma find_shadowed {X : Type} (h : X -> bool) (first dup : X)
  (before middle after : list X) :
  h dup = h first ->
  find h (before ++ first :: middle ++ dup :: after)
  = find h (before ++ first :: middle ++ after).
Proof.
  intros Hh. induction before as [|y l IH]; simpl.
  - destruct (h first) eqn:Hf; [reflexivity|].
    induction middle as [|z l IH]; simpl.
    + now rewrite Hh.
    + now rewrite IH.
  - now rewrite IH.
Qed.

Section DuplicateFacts.

Variable StringToNumber : string -> float.
Variable questions : list Question.t.
Variables (before middle after : list AccountAnswer.t) (first dup : AccountAnswer.t).

Hypothesis same_account :
  AccountAnswer.accountId dup = AccountAnswer.accountId first.
Hypothesis same_question :
  AccountAnswer.questionId dup = AccountAnswer.questionId first.

Let doubled := with_duplicate before first middle dup after.
Let single := without_duplicate before first middle after.

Lemma findAnswer_filter (answers : list AccountAnswer.t) (account : Account.t)
  (question : Question.t) :
  findAnswer (accountAnswers answers account) question
  = find (answers_pair account question) answers.
Proof. unfold findAnswer, accountAnswers. apply find_filter. Qed.

Lemma findAnswer_duplicate (account : Account.t) (question : Question.t) :
  findAnswer (accountAnswers doubled account) question
  = findAnswer (accountAnswers single account) question.
Proof.
  rewrite !findAnswer_filter.
  apply find_shadowed. unfold answers_pair.
  now rewrite same_account, same_question.
Qed.

Lemma scoreQuestions_duplicate (account : Account.t) :
  scoreQuestions StringToNumber (accountAnswers doubled account) questions
  = scoreQuestions StringToNumber (accountAnswers single account) questions.
Proof.
  unfold scoreQuestions. generalize (0, 0).
  induction questions as [|q qs IH]; intros st; simpl; [reflexivity|].
  rewrite IH. f_equal.
  destruct st as [t m]. unfold scoreQuestion.
  now rewrite findAnswer_duplicate.
Qed.

Lemma evaluateAccount_duplicate (account : Account.t) :
  EvaluationResult.score (evaluateAccount StringToNumber questions doubled account)
  = EvaluationResult.score (evaluateAccount StringToNumber questions single account).
Proof.
  unfold evaluateAccount. rewrite scoreQuestions_duplicate.
  destruct (scoreQuestions _ _ _) as [t m]. reflexivity.
Qed.

End DuplicateFacts.

(** The scores returned depend on the scores computed only. *)
Lemma sort_insert_score (x : EvaluationResult.t) (l : list EvaluationResult.t) :
  map EvaluationResult.score (JS.sort_insert byPercentage x l)
  = JS.sort_insert
      (fun a b => AccountScore.percentage b - AccountScore.percentage a)
      (EvaluationResult.score x) (map EvaluationResult.score l).
Proof.
  induction l as [|y l IH]; simpl; [reflexivity|].
  unfold byPercentage at 1. unfold EvaluationResult.percentage.
  destruct (0 <? _); simpl; [now rewrite IH|reflexivity].
Qed.

Lemma Array_sort_score (l : list EvaluationResult.t) :
  map EvaluationResult.score (JS.Array_sort byPercentage l)
  = JS.Array_sort
      (fun a b => AccountScore.percentage b - AccountScore.percentage a)
      (map EvaluationResult.score l).
Proof.
  induction l as [|x l IH]; simpl; [reflexivity|].
  now rewrite sort_insert_score, IH.
Qed.

Lemma assignRanks_score (index : nat) (l : list EvaluationResult.t) :
  map EvaluationResult.score (assignRanks index l)
  = rankScores index (map EvaluationResult.score l).
Proof.
  revert index. induction l as [|x l IH]; intros index; simpl; [reflexivity|].
  now rewrite IH.
Qed.

(** C10: when the input holds a second answer [dup] of the same account to
    the same question after [first], (1) the answer looked up for an account
    and a question is the first one in input order that carries both ids,
    (2) every score is what it is without [dup], and (3) each result lists all
    the input answers of its account, [first] and [dup] among them. *)
Theorem C10_first_answer_scores (StringToNumber : string -> float)
  (accounts : list Account.t) (questions : list Question.t)
  (before middle after : list AccountAnswer.t) (first dup : AccountAnswer.t) :
  AccountAnswer.accountId dup = AccountAnswer.accountId first ->
  AccountAnswer.questionId dup = AccountAnswer.questionId first ->
  (forall account question totalScore maxScore,
      (forall a, In a before -> answers_pair account question a = false) ->
      answers_pair account question first = true ->
      findAnswer (accountAnswers (with_duplicate before first middle dup after) account)
                 question = Some first
      /\ scoreQuestion StringToNumber
           (accountAnswers (with_duplicate before first middle dup after) account)
           (totalScore, maxScore) question
         = (totalScore + questionScore StringToNumber question first,
            maxScore + Question.weight question))
  /\ map EvaluationResult.score
         (calculateScores StringToNumber accounts questions
            (with_duplicate before first middle dup after))
     = map EvaluationResult.score
         (calculateScores StringToNumber accounts questions
            (without_duplicate before first middle after))
  /\ Forall (fun r =>
               EvaluationResult.answers r
               = accountAnswers (with_duplicate before first middle dup after)
                                (EvaluationResult.account r)
               /\ (Account.id (EvaluationResult.account r)
                   = AccountAnswer.accountId first ->
                   In first (EvaluationResult.answers r)
                   /\ In dup (EvaluationResult.answers r)))
            (calculateScores StringToNumber accounts questions
               (with_duplicate before first middle dup after)).
Proof.
  intros Hacc Hq. split; [|split].
  - intros account question totalScore maxScore Hbefore Hfirst.
    assert (Hfind : findAnswer
                      (accountAnswers (with_duplicate before first middle dup after)
                                      account) question = Some first).
    { rewrite findAnswer_filter. unfold with_duplicate.
      now apply find_app_first. }
    split; [exact Hfind|]. now apply scoreQuestion_found.
  - unfold calculateScores.
    rewrite !assignRanks_score, !Array_sort_score, !map_map.
    do 2 f_equal. apply map_ext. intros account.
    now apply evaluateAccount_duplicate.
  - apply calculateScores_Forall.
    + intros result r H. exact H.
    + intros account _.
      rewrite evaluateAccount_answers, evaluateAccount_account.
      split; [reflexivity|].
      intros Hid. unfold accountAnswers, with_duplicate.
      split; apply filter_In; split.
      * apply in_or_app. right. now left.
      * rewrite Hid. apply String.eqb_refl.
      * apply in_or_app. right. right. apply in_or_app. right. now left.
      * rewrite Hacc, Hid. apply String.eqb_refl.
Qed.

(** On sample data: Acme answers q0 with [true] and later with [false]; the
    first answer is found, and Acme scores 20 for q0 and q1. *)
Lemma C10_first_answer_scores_witness :
  findAnswer
    (accountAnswers
       (with_duplicate [sample_answer "b" "q0" (of_boolean false)]
          (sample_answer "a" "q0" (of_boolean true))
          [sample_answer "a" "q1" (of_boolean true)]
          (sample_answer "a" "q0" (of_boolean false)) [])
       acme)
    question_yes_no
  = Some (sample_answer "a" "q0" (of_boolean true))
  /\ map EvaluationResult.totalScore
         (calculateScores no_numeric_string [acme; bolt] questions_40
            (with_duplicate [sample_answer "b" "q0" (of_boolean false)]
               (sample_answer "a" "q0" (of_boolean true))
               [sample_answer "a" "q1" (of_boolean true)]
               (sample_answer "a" "q0" (of_boolean false)) []))
     = [20; 0].
Proof.
  pose proof (C10_first_answer_scores no_numeric_string [acme; bolt] questions_40
                [sample_answer "b" "q0" (of_boolean false)]
                [sample_answer "a" "q1" (of_boolean true)] []
                (sample_answer "a" "q0" (of_boolean true))
                (sample_answer "a" "q0" (of_boolean false))
                eq_refl eq_refl) as [Hfirst [Hscores _]].
  split.
  - refine (proj1 (Hfirst acme question_yes_no 0 0 _ eq_refl)).
    intros a [<-|[]]. reflexivity.
  - change (map EvaluationResult.totalScore ?l)
      with (map (fun r => AccountScore.totalScore (EvaluationResult.score r)) l).
    rewrite <- (map_map EvaluationResult.score AccountScore.totalScore).
    rewrite Hscores. reflexivity.
Defined.

(** ** The scenarios of the specification, run on the model *)

(** One yes/no question of weight 10 answered [true]: 10 of 10, 100, tier A. *)
Example scenario_all_yes :
  map (fun r => (EvaluationResult.totalScore r, EvaluationResult.maxScore r,
                 EvaluationResult.percentage r, EvaluationResult.tier r))
      (calculateScores no_numeric_string [acme] [question_yes_no]
         [sample_answer "a" "q0" (of_boolean true)])
  = [(10, 10, 100, Tier.A)].
Proof. vm_compute. reflexivity. Qed.

(** The same question answered [false]: 0 of 10, 0, tier D. *)
Example scenario_all_no :
  map (fun r => (EvaluationResult.totalScore r, EvaluationResult.maxScore r,
                 EvaluationResult.percentage r, EvaluationResult.tier r))
      (calculateScores no_numeric_string [acme] [question_yes_no]
         [sample_answer "a" "q0" (of_boolean false)])
  = [(0, 10, 0, Tier.D)].
Proof. vm_compute. reflexivity. Qed.

(** A yes/no question of weight 6 answered [true] and a number question of
    weight 4 answered 5: 10 of 10, 100, tier A. *)
Example scenario_two_types :
  map (fun r => (EvaluationResult.totalScore r, EvaluationResult.maxScore r,
                 EvaluationResult.percentage r, EvaluationResult.tier r))
      (calculateScores no_numeric_string [acme]
         [sample_question "q0" Question.boolean 6; question_count]
         [sample_answer "a" "q0" (of_boolean true);
          sample_answer "a" "n0" (of_number 5%float)])
  = [(10, 10, 100, Tier.A)].
Proof. vm_compute. reflexivity. Qed.

(** Two questions of weight 5 and no answer: 0 of 10, 0, tier D. *)
Example scenario_unanswered :
  map (fun r => (EvaluationResult.totalScore r, EvaluationResult.maxScore r,
                 EvaluationResult.percentage r, EvaluationResult.tier r))
      (calculateScores no_numeric_string [acme]
         [sample_question "q0" Question.boolean 5;
          sample_question "q1" Question.boolean 5] [])
  = [(0, 10, 0, Tier.D)].
Proof. vm_compute. reflexivity. Qed.

(** Bolt and Cask both at 25 behind Acme at 57, in the input order Cask,
    Acme, Bolt: Acme first, then Cask before Bolt. *)
Example scenario_tie :
  map (fun r => (Account.name (EvaluationResult.account r),
                 EvaluationResult.percentage r, EvaluationResult.rank r))
      (calculateScores no_numeric_string [cask; acme; bolt] questions_40 answers_23)
  = [("Acme"%string, 57, 1); ("Cask"%string, 25, 2); ("Bolt"%string, 25, 3)].
Proof. vm_compute. reflexivity. Qed.

(** No question at all: 0 of 0, 0, tier D, ranks in input order. *)
Example scenario_no_question :
  map (fun r => (Account.name (EvaluationResult.account r),
                 EvaluationResult.maxScore r, EvaluationResult.percentage r,
                 EvaluationResult.tier r, EvaluationResult.rank r))
      (calculateScores no_numeric_string [cask; acme; bolt] [] answers_23)
  = [("Cask"%string, 0, 0, Tier.D, 1); ("Acme"%string, 0, 0, Tier.D, 2);
     ("Bolt"%string, 0, 0, Tier.D, 3)].
Proof. vm_compute. reflexivity. Qed.

(** * Further properties of the code *)

(** ** The summary cards ([tierCounts], Results.tsx lines 113-116) *)

Lemma or_zero_Some (n : Z) : or_zero (Some n) = n.
Proof. unfold or_zero. destruct (n =? 0) eqn:E; [apply Z.eqb_eq in E; lia|reflexivity]. Qed.

Lemma Tier_eqb_eq (x y : Tier.t) : Tier_eqb x y = true <-> x = y.
Proof. destruct x, y; simpl; split; (reflexivity || discriminate). Qed.

Lemma countTier_fold (results : list EvaluationResult.t) (tier : Tier.t) :
  forall acc,
    or_zero (fold_left countTier results acc tier)
    = or_zero (acc tier)
      + Z.of_nat (List.length
                    (filter (fun r => Tier_eqb tier (EvaluationResult.tier r)) results)).
Proof.
  induction results as [|r l IH]; intros acc; simpl; [lia|].
  rewrite IH. unfold countTier.
  destruct (Tier_eqb tier (EvaluationResult.tier r)) eqn:E.
  - apply Tier_eqb_eq in E. subst tier.
    rewrite or_zero_Some. simpl List.length. lia.
  - lia.
Qed.

Lemma countTier_key (results : list EvaluationResult.t) (tier : Tier.t) :
  forall acc,
    fold_left countTier results acc tier = None
    <-> acc tier = None
        /\ Forall (fun r => EvaluationResult.tier r <> tier) results.
Proof.
  induction results as [|r l IH]; intros acc; simpl.
  - split; [intros H; split; [exact H|constructor]|intros [H _]; exact H].
  - rewrite IH. unfold countTier at 1.
    destruct (Tier_eqb tier (EvaluationResult.tier r)) eqn:E.
    + apply Tier_eqb_eq in E. split.
      * intros [H _]. discriminate H.
      * intros [_ H]. inversion H; subst. congruence.
    + assert (Hne : EvaluationResult.tier r <> tier).
      { intros <-. destruct (EvaluationResult.tier r); discriminate E. }
      split.
      * intros [H1 H2]. split; [exact H1|now constructor].
      * intros [H1 H2]. inversion H2; subst. now split.
Qed.

Lemma tierCard_count (results : list EvaluationResult.t) (tier : Tier.t) :
  tierCard results tier
  = Z.of_nat (List.length
                (filter (fun r => Tier_eqb tier (EvaluationResult.tier r)) results)).
Proof. unfold tierCard, tierCounts. rewrite countTier_fold. simpl. lia. Qed.

(** X1: The card of a tier shows how many results have that tier, and the object
    has a key for a tier exactly when some result has it. *)
Theorem tierCounts_counts (results : list EvaluationResult.t) (tier : Tier.t) :
  tierCard results tier
  = Z.of_nat (List.length
                (filter (fun r => Tier_eqb tier (EvaluationResult.tier r)) results))
  /\ (tierCounts results tier = None
      <-> Forall (fun r => EvaluationResult.tier r <> tier) results).
Proof.
  split; [apply tierCard_count|].
  unfold tierCounts. rewrite countTier_key.
  split; [intros [_ H]; exact H|intros H; now split].
Qed.

(** X2: The four tier cards add up to the Total Accounts card. *)
Theorem tierCards_total (results : list EvaluationResult.t) :
  tierCard results Tier.A + tierCard results Tier.B
  + tierCard results Tier.C + tierCard results Tier.D
  = Z.of_nat (List.length results).
Proof.
  rewrite !tierCard_count.
  induction results as [|r l IH]; [reflexivity|].
  cbn [filter List.length].
  set (a := filter (fun r => Tier_eqb Tier.A (EvaluationResult.tier r)) l) in *.
  set (b := filter (fun r => Tier_eqb Tier.B (EvaluationResult.tier r)) l) in *.
  set (c := filter (fun r => Tier_eqb Tier.C (EvaluationResult.tier r)) l) in *.
  set (d := filter (fun r => Tier_eqb Tier.D (EvaluationResult.tier r)) l) in *.
  destruct (EvaluationResult.tier r); cbn [Tier_eqb List.length];
    rewrite !Nat2Z.inj_succ; lia.
Qed.

(** ** The top ten ([topTen], [getRankIcon], Results.tsx lines 103-112) *)

Lemma StronglySorted_app_ge (l1 l2 : list Z) :
  StronglySorted Z.ge (l1 ++ l2) ->
  forall x y, In x l1 -> In y l2 -> y <= x.
Proof.
  induction l1 as [|a l1 IH]; simpl; intros Hs x y Hx Hy; [contradiction|].
  inversion Hs as [|? ? Hs' Hall]; subst.
  destruct Hx as [<-|Hx].
  - rewrite Forall_forall in Hall.
    specialize (Hall y (in_or_app _ _ _ (or_intror Hy))). lia.
  - now apply (IH Hs' x y).
Qed.

Lemma firstn_of_seq (n start len : nat) :
  firstn n (seq start len) = seq start (Nat.min n len).
Proof.
  revert start len. induction n as [|n IH]; intros start [|len]; simpl; try reflexivity.
  now rewrite IH.
Qed.

(** X3: The top ten are the first [min 10 N] results, with the ranks 1, 2, ... *)
Theorem topTen_ranks (StringToNumber : string -> float)
  (accounts : list Account.t) (questions : list Question.t)
  (answers : list AccountAnswer.t) :
  map EvaluationResult.rank
      (topTen (calculateScores StringToNumber accounts questions answers))
  = map Z.of_nat (seq 1 (Nat.min 10 (List.length accounts))).
Proof.
  unfold topTen.
  rewrite <- firstn_map, calculateScores_ranks, firstn_map, firstn_of_seq.
  reflexivity.
Qed.

(** X4: No result left out of the top ten has a higher percentage than a result
    in it. *)
Theorem topTen_best (StringToNumber : string -> float)
  (accounts : list Account.t) (questions : list Question.t)
  (answers : list AccountAnswer.t) :
  Forall (fun r =>
            Forall (fun r' => EvaluationResult.percentage r'
                              <= EvaluationResult.percentage r)
                   (skipn 10 (calculateScores StringToNumber accounts questions answers)))
         (topTen (calculateScores StringToNumber accounts questions answers)).
Proof.
  assert (Hs : StronglySorted Z.ge
                 (map EvaluationResult.percentage
                      (calculateScores StringToNumber accounts questions answers))).
  { unfold calculateScores, byPercentage.
    rewrite (assignRanks_map _ rank_blind_percentage).
    apply (Array_sort_sorted EvaluationResult.percentage). }
  unfold topTen.
  rewrite <- (firstn_skipn 10 (calculateScores _ _ _ _)) in Hs.
  rewrite map_app in Hs.
  apply Forall_forall. intros r Hr. apply Forall_forall. intros r' Hr'.
  apply (StronglySorted_app_ge _ _ Hs); now apply in_map.
Qed.

(** X5: In the top ten, the cards with the golden background ([index < 3]) are
    exactly the cards on which [getRankIcon] draws an icon instead of the
    rank number. *)
Theorem topTen_icons (StringToNumber : string -> float)
  (accounts : list Account.t) (questions : list Question.t)
  (answers : list AccountAnswer.t) :
  map (fun r => is_icon (getRankIcon (EvaluationResult.rank r)))
      (topTen (calculateScores StringToNumber accounts questions answers))
  = map highlighted
        (seq 0 (List.length
                  (topTen (calculateScores StringToNumber accounts questions answers)))).
Proof.
  rewrite <- (map_map EvaluationResult.rank (fun k => is_icon (getRankIcon k))).
  unfold topTen.
  rewrite <- firstn_map, calculateScores_ranks, firstn_map, firstn_of_seq.
  rewrite length_firstn, calculateScores_length.
  rewrite <- seq_shift, !map_map.
  apply map_ext. intros i.
  unfold highlighted, getRankIcon.
  destruct i as [|[|[|i]]]; try reflexivity.
  replace (Z.of_nat (S (S (S (S i)))) =? 1) with false by (symmetry; apply Z.eqb_neq; lia).
  replace (Z.of_nat (S (S (S (S i)))) =? 2) with false by (symmetry; apply Z.eqb_neq; lia).
  replace (Z.of_nat (S (S (S (S i)))) =? 3) with false by (symmetry; apply Z.eqb_neq; lia).
  reflexivity.
Qed.

(** ** The tier badges ([getTierColor], Results.tsx lines 93-101) *)

(** X6: The four tiers have four different badge classes, none of them the gray
    default, which is what any other string gets. *)
Theorem getTierColor_distinct :
  (forall t1 t2,
      getTierColor (Tier.to_string t1) = getTierColor (Tier.to_string t2) -> t1 = t2)
  /\ (forall t, getTierColor (Tier.to_string t)
                <> "bg-gray-100 text-gray-800 border-gray-200"%string)
  /\ (forall s, (forall t, s <> Tier.to_string t) ->
                getTierColor s = "bg-gray-100 text-gray-800 border-gray-200"%string).
Proof.
  split; [|split].
  - intros [] []; simpl; intros H; (reflexivity || discriminate H).
  - intros []; simpl; discriminate.
  - intros s H. unfold getTierColor.
    destruct (String.eqb_spec s "A") as [->|_]; [now elim (H Tier.A)|].
    destruct (String.eqb_spec s "B") as [->|_]; [now elim (H Tier.B)|].
    destruct (String.eqb_spec s "C") as [->|_]; [now elim (H Tier.C)|].
    destruct (String.eqb_spec s "D") as [->|_]; [now elim (H Tier.D)|].
    reflexivity.
Qed.

(** ** More on the engine ([calculateScores], Results.tsx lines 24-78) *)

Lemma percentageOf_zero (maxScore : Z) : percentageOf 0 maxScore = 0.
Proof.
  unfold percentageOf. destruct (0 <? maxScore); [|reflexivity].
  unfold JS.Math_round.
  rewrite mul_spec, div_spec.
  change (Prim2SF (JS.of_Z 0)) with (S754_zero false).
  destruct (Prim2SF (JS.of_Z maxScore)) as [s|s| |s m e]; reflexivity.
Qed.

(** X7: An account that earns no point has percentage 0 and tier D, whatever
    the weights are. *)
Theorem zero_score_is_tier_D (StringToNumber : string -> float)
  (accounts : list Account.t) (questions : list Question.t)
  (answers : list AccountAnswer.t) :
  Forall (fun r => EvaluationResult.totalScore r = 0 ->
                   EvaluationResult.percentage r = 0
                   /\ EvaluationResult.tier r = Tier.D)
         (calculateScores StringToNumber accounts questions answers).
Proof.
  apply calculateScores_Forall.
  - intros result r H. exact H.
  - intros account _ Hz.
    rewrite evaluateAccount_tier, evaluateAccount_percentage, Hz, percentageOf_zero.
    split; reflexivity.
Qed.

Lemma zero_score_is_tier_D_example :
  map (fun r => (EvaluationResult.totalScore r, EvaluationResult.percentage r,
                 EvaluationResult.tier r))
      (calculateScores no_numeric_string [acme] questions_40 [])
  = [(0, 0, Tier.D)].
Proof. vm_compute. reflexivity. Qed.

Lemma filter_skip {X : Type} (f : X -> bool) (before after : list X) (x : X) :
  f x = false -> filter f (before ++ x :: after) = filter f (before ++ after).
Proof.
  intros H. rewrite !filter_app. simpl. now rewrite H.
Qed.

Lemma find_skip {X : Type} (f : X -> bool) (before after : list X) (x : X) :
  f x = false -> find f (before ++ x :: after) = find f (before ++ after).
Proof.
  intros H. induction before as [|y l IH]; simpl; [now rewrite H|].
  now rewrite IH.
Qed.

(** X8: An answer whose account id is the id of no account changes nothing in
    the results. *)
Theorem unknown_account_ignored (StringToNumber : string -> float)
  (accounts : list Account.t) (questions : list Question.t)
  (before after : list AccountAnswer.t) (orphan : AccountAnswer.t) :
  (forall account, In account accounts ->
                   AccountAnswer.accountId orphan <> Account.id account) ->
  calculateScores StringToNumber accounts questions (before ++ orphan :: after)
  = calculateScores StringToNumber accounts questions (before ++ after).
Proof.
  intros H. unfold calculateScores. do 2 f_equal.
  apply map_ext_in. intros account Hin.
  unfold evaluateAccount, accountAnswers.
  rewrite filter_skip; [reflexivity|].
  apply String.eqb_neq. now apply H.
Qed.

(** The same in a run: an answer of an account that is not in the list. *)
Lemma unknown_account_ignored_witness :
  calculateScores no_numeric_string [acme; bolt] questions_40
    ([sample_answer "a" "q0" (of_boolean true)]
       ++ sample_answer "z" "q0" (of_boolean true)
       :: [sample_answer "b" "q1" (of_boolean true)])
  = calculateScores no_numeric_string [acme; bolt] questions_40
      ([sample_answer "a" "q0" (of_boolean true)]
         ++ [sample_answer "b" "q1" (of_boolean true)]).
Proof.
  apply (unknown_account_ignored no_numeric_string [acme; bolt] questions_40
           [sample_answer "a" "q0" (of_boolean true)]
           [sample_answer "b" "q1" (of_boolean true)]
           (sample_answer "z" "q0" (of_boolean true))).
  intros account [<-|[<-|[]]]; discriminate.
Defined.

(** X9: An answer whose question id is the id of no question changes no score;
    it is still listed among the answers of its account. *)
Theorem unknown_question_ignored (StringToNumber : string -> float)
  (accounts : list Account.t) (questions : list Question.t)
  (before after : list AccountAnswer.t) (orphan : AccountAnswer.t) :
  (forall question, In question questions ->
                    AccountAnswer.questionId orphan <> Question.id question) ->
  map EvaluationResult.score
      (calculateScores StringToNumber accounts questions (before ++ orphan :: after))
  = map EvaluationResult.score
      (calculateScores StringToNumber accounts questions (before ++ after))
  /\ Forall (fun r => Account.id (EvaluationResult.account r)
                      = AccountAnswer.accountId orphan ->
                      In orphan (EvaluationResult.answers r))
            (calculateScores StringToNumber accounts questions
               (before ++ orphan :: after)).
Proof.
  intros H. split.
  - unfold calculateScores.
    rewrite !assignRanks_score, !Array_sort_score, !map_map.
    do 2 f_equal. apply map_ext. intros account.
    unfold evaluateAccount.
    assert (E : scoreQuestions StringToNumber
                  (accountAnswers (before ++ orphan :: after) account) questions
                = scoreQuestions StringToNumber
                    (accountAnswers (before ++ after) account) questions).
    { unfold scoreQuestions. generalize (0, 0).
      induction questions as [|q qs IH]; intros st; simpl; [reflexivity|].
      rewrite IH by (intros q' Hq'; apply H; now right).
      f_equal. destruct st as [t m]. unfold scoreQuestion.
      rewrite !findAnswer_filter.
      rewrite find_skip; [reflexivity|].
      unfold answers_pair. apply andb_false_intro2.
      apply String.eqb_neq. apply H. now left. }
    rewrite E. clear E. destruct (scoreQuestions _ _ _) as [t m]. reflexivity.
  - apply calculateScores_Forall.
    + intros result r Hr. exact Hr.
    + intros account _.
      rewrite evaluateAccount_answers, evaluateAccount_account.
      intros Hid. unfold accountAnswers. apply filter_In. split.
      * apply in_or_app. right. now left.
      * rewrite Hid. apply String.eqb_refl.
Qed.

Lemma unknown_question_ignored_witness :
  map EvaluationResult.score
      (calculateScores no_numeric_string [acme] questions_40
         ([sample_answer "a" "q0" (of_boolean true)]
            ++ sample_answer "a" "old" (of_boolean true) :: []))
  = map EvaluationResult.score
      (calculateScores no_numeric_string [acme] questions_40
         ([sample_answer "a" "q0" (of_boolean true)] ++ [])).
Proof.
  refine (proj1 (unknown_question_ignored no_numeric_string [acme] questions_40
                   [sample_answer "a" "q0" (of_boolean true)] []
                   (sample_answer "a" "old" (of_boolean true)) _)).
  intros question [<-|[<-|[<-|[<-|[<-|[]]]]]]; discriminate.
Defined.

Lemma scoreQuestion_swap (StringToNumber : string -> float)
  (answersOfAccount : list AccountAnswer.t) (st : Z * Z) (q1 q2 : Question.t) :
  scoreQuestion StringToNumber answersOfAccount
    (scoreQuestion StringToNumber answersOfAccount st q1) q2
  = scoreQuestion StringToNumber answersOfAccount
      (scoreQuestion StringToNumber answersOfAccount st q2) q1.
Proof.
  destruct st as [t m]. unfold scoreQuestion.
  destruct (findAnswer answersOfAccount q1), (findAnswer answersOfAccount q2);
    f_equal; lia.
Qed.

Lemma scoreQuestions_permutation (StringToNumber : string -> float)
  (answersOfAccount : list AccountAnswer.t) (questions questions' : list Question.t) :
  Permutation questions questions' ->
  forall st,
    fold_left (scoreQuestion StringToNumber answersOfAccount) questions st
    = fold_left (scoreQuestion StringToNumber answersOfAccount) questions' st.
Proof.
  induction 1 as [|q l l' _ IH|q1 q2 l|l1 l2 l3 _ IH1 _ IH2]; intros st; simpl.
  - reflexivity.
  - apply IH.
  - now rewrite scoreQuestion_swap.
  - now rewrite IH1, IH2.
Qed.

Lemma sum_of_weights_permutation (questions questions' : list Question.t) :
  Permutation questions questions' ->
  sum_of_weights questions = sum_of_weights questions'.
Proof.
  unfold sum_of_weights.
  induction 1 as [|q l l' _ IH|q1 q2 l|l1 l2 l3 _ IH1 _ IH2];
    cbn [map fold_right] in *; lia.
Qed.

(** X10: For non-negative integer weights whose sum is below 2^53 the order of
    the questions is immaterial: the same questions in another order leave
    the same [totalScore] and [maxScore] in the binary64 loop, for any
    answers, and give the same results. *)
Theorem question_order_immaterial (StringToNumber : string -> float)
  (accounts : list Account.t) (questions questions' : list Question.t)
  (answers : list AccountAnswer.t) :
  Permutation questions questions' ->
  Forall (fun q => 0 <= Question.weight q) questions ->
  sum_of_weights questions < 2 ^ 53 ->
  (forall answersOfAccount,
      Binary64.scoreQuestions StringToNumber answersOfAccount
        (map toBinary64 questions)
      = Binary64.scoreQuestions StringToNumber answersOfAccount
          (map toBinary64 questions'))
  /\ calculateScores StringToNumber accounts questions answers
     = calculateScores StringToNumber accounts questions' answers.
Proof.
  intros H Hw Hs.
  assert (Hw' : Forall (fun q => 0 <= Question.weight q) questions').
  { apply Forall_forall. intros q Hq.
    apply (proj1 (Forall_forall _ questions) Hw q).
    apply (Permutation_in q (Permutation_sym H) Hq). }
  assert (Hs' : sum_of_weights questions' < 2 ^ 53).
  { now rewrite <- (sum_of_weights_permutation _ _ H). }
  split.
  - intros aa.
    rewrite (scoreQuestions_binary64 StringToNumber aa questions Hw Hs).
    rewrite (scoreQuestions_binary64 StringToNumber aa questions' Hw' Hs').
    unfold scoreQuestions.
    now rewrite (scoreQuestions_permutation StringToNumber aa _ _ H (0, 0)).
  - unfold calculateScores. do 2 f_equal.
    apply map_ext. intros account. unfold evaluateAccount, scoreQuestions.
    now rewrite (scoreQuestions_permutation _ _ _ _ H).
Qed.

Lemma question_order_immaterial_witness :
  Binary64.scoreQuestions no_numeric_string (accountAnswers answers_23 acme)
    (map toBinary64 questions_40)
  = Binary64.scoreQuestions no_numeric_string (accountAnswers answers_23 acme)
      (map toBinary64 (rev questions_40))
  /\ calculateScores no_numeric_string [acme; bolt] questions_40 answers_23
     = calculateScores no_numeric_string [acme; bolt] (rev questions_40) answers_23.
Proof.
  assert (Hw : Forall (fun q => 0 <= Question.weight q) questions_40).
  { repeat constructor; discriminate. }
  assert (Hs : sum_of_weights questions_40 < 2 ^ 53) by reflexivity.
  pose proof (question_order_immaterial no_numeric_string [acme; bolt]
                questions_40 (rev questions_40) answers_23
                (Permutation_rev questions_40) Hw Hs) as [Hloop Hresults].
  split; [exact (Hloop (accountAnswers answers_23 acme)) | exact Hresults].
Defined.

(** Beyond 2^53, and on fractions, the order does matter: the weights 1,
    2^53, 1 sum to 2^53 and the weights 1, 1, 2^53 to 2^53 + 2; 0.1, 0.2, 0.3
    sum to 0.6000000000000001 and 0.3, 0.2, 0.1 to 0.6. *)
Lemma question_order_matters_beyond :
  Permutation questions_1_huge_1 questions_1_1_huge
  /\ snd (Binary64.scoreQuestions no_numeric_string [] questions_1_huge_1)
     = two_to_53
  /\ snd (Binary64.scoreQuestions no_numeric_string [] questions_1_1_huge)
     = JS.of_Z (2 ^ 53 + 2)
  /\ snd (Binary64.scoreQuestions no_numeric_string [] questions_fractions)
     = 0x1.3333333333334p-1%float
  /\ snd (Binary64.scoreQuestions no_numeric_string [] (rev questions_fractions))
     = 0x1.3333333333333p-1%float.
Proof.
  split; [| repeat split; vm_compute; reflexivity].
  unfold questions_1_huge_1, questions_1_1_huge.
  apply perm_skip, perm_swap.
Qed.

(** X26: On non-negative integer weights whose sum is below 2^53, as every
    list of slider weights is, no addition of the loop rounds: the binary64
    loop leaves in [totalScore] and [maxScore] the binary64 numbers of the
    integers that the integer loop computes, both below 2^53, and
    [Math.round] reads them back. *)
Theorem integer_loop_is_binary64_loop (StringToNumber : string -> float)
  (answersOfAccount : list AccountAnswer.t) (questions : list Question.t) :
  Forall (fun q => 0 <= Question.weight q) questions ->
  sum_of_weights questions < 2 ^ 53 ->
  let exact := scoreQuestions StringToNumber answersOfAccount questions in
  let rounded :=
    Binary64.scoreQuestions StringToNumber answersOfAccount (map toBinary64 questions) in
  rounded = (JS.of_Z (fst exact), JS.of_Z (snd exact))
  /\ 0 <= fst exact <= snd exact
  /\ snd exact < 2 ^ 53
  /\ JS.Math_round (fst rounded) = fst exact
  /\ JS.Math_round (snd rounded) = snd exact.
Proof.
  intros Hw Hs exact rounded.
  assert (E : rounded = (JS.of_Z (fst exact), JS.of_Z (snd exact))).
  { exact (scoreQuestions_binary64 StringToNumber answersOfAccount questions Hw Hs). }
  assert (B : 0 <= fst exact <= snd exact).
  { apply (fold_scoreQuestion_bounds StringToNumber answersOfAccount questions Hw (0, 0)).
    cbn [fst snd]. lia. }
  assert (M : snd exact = sum_of_weights questions).
  { unfold exact, scoreQuestions. now rewrite fold_scoreQuestion_maxScore. }
  split; [exact E |]. split; [exact B |]. split; [lia |].
  rewrite E. cbn [fst snd]. split; apply Math_round_of_Z; lia.
Qed.

(** On the sample data: Acme's 23 of 40. *)
Lemma integer_loop_is_binary64_loop_witness :
  Binary64.scoreQuestions no_numeric_string (accountAnswers answers_23 acme)
    (map toBinary64 questions_40)
  = (JS.of_Z 23, JS.of_Z 40)
  /\ JS.Math_round (JS.of_Z 23) = 23.
Proof.
  assert (Hw : Forall (fun q => 0 <= Question.weight q) questions_40).
  { repeat constructor; discriminate. }
  assert (Hs : sum_of_weights questions_40 < 2 ^ 53) by reflexivity.
  pose proof (integer_loop_is_binary64_loop no_numeric_string
                (accountAnswers answers_23 acme) questions_40 Hw Hs) as H.
  cbv zeta in H. destruct H as [E [_ [_ [R _]]]].
  split; [exact E |].
  rewrite E in R. exact R.
Defined.

(** ** The answers handed to the engine ([handleNext] of the account page) *)

Section HandleNextFacts.

Import AccountEvaluation.

Variable toISOString : nat -> nat -> string.
Variable table : Answers.

Lemma answersOfAccount_sound (i : nat) (account : Account.t)
  (questions : list Question.t) :
  forall j x,
    In x (answersOfAccount toISOString table i account j questions) ->
    AccountAnswer.accountId x = Account.id account
    /\ (exists question, In question questions
                         /\ AccountAnswer.questionId x = Question.id question)
    /\ lookup table (AccountAnswer.accountId x) (AccountAnswer.questionId x)
       = Some (AccountAnswer.answer x).
Proof.
  induction questions as [|q qs IH]; intros j x Hx; simpl in Hx; [contradiction|].
  destruct (lookup table (Account.id account) (Question.id q)) as [v|] eqn:E.
  - destruct Hx as [<-|Hx]; simpl.
    + split; [reflexivity|]. split; [|exact E]. exists q. split; [now left|reflexivity].
    + destruct (IH _ _ Hx) as [H1 [[q' [H2 H3]] H4]].
      split; [exact H1|]. split; [|exact H4]. exists q'. split; [now right|exact H3].
  - destruct (IH _ _ Hx) as [H1 [[q' [H2 H3]] H4]].
    split; [exact H1|]. split; [|exact H4]. exists q'. split; [now right|exact H3].
Qed.

Lemma answersOfAccount_complete (i : nat) (account : Account.t)
  (questions : list Question.t) (question : Question.t) (v : AnswerValue) :
  In question questions ->
  lookup table (Account.id account) (Question.id question) = Some v ->
  forall j, exists x,
    In x (answersOfAccount toISOString table i account j questions)
    /\ AccountAnswer.accountId x = Account.id account
    /\ AccountAnswer.questionId x = Question.id question.
Proof.
  intros Hq Hv. induction questions as [|q qs IH]; intros j; [contradiction|].
  simpl. destruct Hq as [->|Hq].
  - rewrite Hv. eexists. split; [now left|]. split; reflexivity.
  - destruct (IH Hq (S j)) as [x [H1 H2]].
    exists x. split; [|exact H2].
    destruct (lookup table (Account.id account) (Question.id q)); [now right|exact H1].
Qed.

Lemma answersFrom_sound (questions : list Question.t) (accounts : list Account.t) :
  forall i x,
    In x (answersFrom toISOString table questions i accounts) ->
    (exists account, In account accounts
                     /\ AccountAnswer.accountId x = Account.id account)
    /\ (exists question, In question questions
                         /\ AccountAnswer.questionId x = Question.id question)
    /\ lookup table (AccountAnswer.accountId x) (AccountAnswer.questionId x)
       = Some (AccountAnswer.answer x).
Proof.
  induction accounts as [|a l IH]; intros i x Hx; simpl in Hx; [contradiction|].
  apply in_app_or in Hx. destruct Hx as [Hx|Hx].
  - destruct (answersOfAccount_sound _ _ _ _ _ Hx) as [H1 [H2 H3]].
    split; [|split; assumption]. exists a. split; [now left|exact H1].
  - destruct (IH _ _ Hx) as [[a' [H0 H1]] [H2 H3]].
    split; [|split; assumption]. exists a'. split; [now right|exact H1].
Qed.

Lemma answersFrom_complete (questions : list Question.t) (accounts : list Account.t)
  (account : Account.t) (question : Question.t) (v : AnswerValue) :
  In account accounts -> In question questions ->
  lookup table (Account.id account) (Question.id question) = Some v ->
  forall i, exists x,
    In x (answersFrom toISOString table questions i accounts)
    /\ AccountAnswer.accountId x = Account.id account
    /\ AccountAnswer.questionId x = Question.id question.
Proof.
  intros Ha Hq Hv. induction accounts as [|a l IH]; intros i; [contradiction|].
  simpl. destruct Ha as [->|Ha].
  - destruct (answersOfAccount_complete i account questions question v Hq Hv 0)
      as [x [H1 H2]].
    exists x. split; [apply in_or_app; now left|exact H2].
  - destruct (IH Ha (S i)) as [x [H1 H2]].
    exists x. split; [apply in_or_app; now right|exact H2].
Qed.

(** What the engine finds for an account and a question among the answers of
    [handleNext] is the cell of the table, when both are on the page. *)
Lemma findAnswer_handleNext (accounts : list Account.t)
  (questions : list Question.t) (account : Account.t) (question : Question.t) :
  In account accounts -> In question questions ->
  option_map AccountAnswer.answer
    (findAnswer
       (accountAnswers (handleNext toISOString table accounts questions) account)
       question)
  = lookup table (Account.id account) (Question.id question).
Proof.
  intros Ha Hq. rewrite findAnswer_filter. unfold handleNext.
  destruct (find _ _) as [x|] eqn:E; simpl.
  - apply find_some in E. destruct E as [Hin Hpair].
    apply andb_prop in Hpair. destruct Hpair as [H1 H2].
    apply String.eqb_eq in H1. apply String.eqb_eq in H2.
    destruct (answersFrom_sound _ _ _ _ Hin) as [_ [_ H3]].
    now rewrite H1, H2 in H3.
  - destruct (lookup table (Account.id account) (Question.id question)) as [v|] eqn:Ev;
      [|reflexivity].
    destruct (answersFrom_complete questions accounts account question v Ha Hq Ev 0)
      as [x [Hin [H1 H2]]].
    pose proof (find_none _ _ E x Hin) as Hn.
    unfold answers_pair in Hn. rewrite H1, H2, !String.eqb_refl in Hn.
    discriminate Hn.
Qed.

End HandleNextFacts.

(** X13: Every answer handed on by [handleNext] belongs to an account and to a
    question of the page, and carries the value stored in the table for
    them: no answer of a removed account or of an old question gets
    through. *)
Theorem handleNext_sound (toISOString : nat -> nat -> string)
  (table : AccountEvaluation.Answers) (accounts : list Account.t)
  (questions : list Question.t) :
  Forall (fun x =>
            (exists account, In account accounts
                             /\ AccountAnswer.accountId x = Account.id account)
            /\ (exists question, In question questions
                                 /\ AccountAnswer.questionId x = Question.id question)
            /\ AccountEvaluation.lookup table (AccountAnswer.accountId x)
                 (AccountAnswer.questionId x)
               = Some (AccountAnswer.answer x))
         (AccountEvaluation.handleNext toISOString table accounts questions).
Proof.
  apply Forall_forall. intros x Hx.
  now apply (answersFrom_sound toISOString table questions accounts 0).
Qed.

(** X14: The engine scores an account on a question with the very value the
    table holds for them, and takes the question as unanswered exactly when
    the table holds none. *)
Theorem engine_reads_table (toISOString : nat -> nat -> string)
  (table : AccountEvaluation.Answers) (accounts : list Account.t)
  (questions : list Question.t) (account : Account.t) (question : Question.t) :
  In account accounts -> In question questions ->
  option_map AccountAnswer.answer
    (findAnswer
       (accountAnswers
          (AccountEvaluation.handleNext toISOString table accounts questions) account)
       question)
  = AccountEvaluation.lookup table (Account.id account) (Question.id question)
  /\ (findAnswer
        (accountAnswers
           (AccountEvaluation.handleNext toISOString table accounts questions) account)
        question = None
      <-> AccountEvaluation.lookup table (Account.id account) (Question.id question)
          = None).
Proof.
  intros Ha Hq.
  pose proof (findAnswer_handleNext toISOString table accounts questions
                account question Ha Hq) as H.
  split; [exact H|].
  destruct (findAnswer _ _) as [x|]; simpl in H; rewrite <- H; split;
    (reflexivity || discriminate).
Qed.

(** ** The completion badge ([getCompletionStatus], [isComplete]) *)

Section CompletionFacts.

Import AccountEvaluation.

Variable toISOString : nat -> nat -> string.
Variable table : Answers.

Let countQuestion (account : Account.t) (n : Z) (question : Question.t) : Z :=
  match lookup table (Account.id account) (Question.id question) with
  | Some _ => n + 1
  | None => n
  end.

Lemma count_answersOfAccount (i : nat) (account : Account.t)
  (questions : list Question.t) :
  forall j n,
    fold_left (countQuestion account) questions n
    = n + Z.of_nat (List.length
                      (answersOfAccount toISOString table i account j questions)).
Proof.
  induction questions as [|q qs IH]; intros j n; simpl; [lia|].
  rewrite (IH (S j)). unfold countQuestion.
  destruct (lookup table (Account.id account) (Question.id q));
    simpl List.length; lia.
Qed.

Lemma count_answersFrom (questions : list Question.t) (accounts : list Account.t) :
  forall i n,
    fold_left (fun n account => fold_left (countQuestion account) questions n)
              accounts n
    = n + Z.of_nat (List.length
                      (answersFrom toISOString table questions i accounts)).
Proof.
  induction accounts as [|a l IH]; intros i n; simpl; [lia|].
  rewrite (IH (S i)), (count_answersOfAccount i a questions 0).
  rewrite length_app. lia.
Qed.

Lemma length_answersOfAccount (i : nat) (account : Account.t)
  (questions : list Question.t) :
  forall j,
    (List.length (answersOfAccount toISOString table i account j questions)
     <= List.length questions)%nat.
Proof.
  induction questions as [|q qs IH]; intros j; simpl; [lia|].
  specialize (IH (S j)).
  destruct (lookup table (Account.id account) (Question.id q)); simpl; lia.
Qed.

(** With as many answers as questions, every question has one. *)
Lemma answersOfAccount_full (i : nat) (account : Account.t)
  (questions : list Question.t) :
  forall j,
    List.length (answersOfAccount toISOString table i account j questions)
    = List.length questions ->
    forall question, In question questions ->
      lookup table (Account.id account) (Question.id question) <> None.
Proof.
  induction questions as [|q qs IH]; intros j Hlen question Hq; [contradiction|].
  simpl in Hlen.
  pose proof (length_answersOfAccount i account qs (S j)) as Hle.
  destruct (lookup table (Account.id account) (Question.id q)) eqn:E;
    simpl in Hlen; [|lia].
  destruct Hq as [<-|Hq]; [congruence|].
  apply (IH (S j)); [lia|exact Hq].
Qed.

Lemma length_answersFrom (questions : list Question.t) (accounts : list Account.t) :
  forall i,
    (List.length (answersFrom toISOString table questions i accounts)
     <= List.length accounts * List.length questions)%nat.
Proof.
  induction accounts as [|a l IH]; intros i; simpl; [lia|].
  rewrite length_app.
  pose proof (length_answersOfAccount i a questions 0).
  specialize (IH (S i)). lia.
Qed.

Lemma answersFrom_full (questions : list Question.t) (accounts : list Account.t) :
  forall i,
    List.length (answersFrom toISOString table questions i accounts)
    = (List.length accounts * List.length questions)%nat ->
    forall account question, In account accounts -> In question questions ->
      lookup table (Account.id account) (Question.id question) <> None.
Proof.
  induction accounts as [|a l IH]; intros i Hlen account question Ha Hq;
    [contradiction|].
  simpl in Hlen. rewrite length_app in Hlen.
  pose proof (length_answersOfAccount i a questions 0).
  pose proof (length_answersFrom questions l (S i)).
  destruct Ha as [<-|Ha].
  - apply (answersOfAccount_full i a questions 0); [lia|exact Hq].
  - apply (IH (S i)); [lia|exact Ha|exact Hq].
Qed.

Lemma getCompletionStatus_answered (accounts : list Account.t)
  (questions : list Question.t) :
  snd (getCompletionStatus accounts questions table)
  = Z.of_nat (List.length (handleNext toISOString table accounts questions)).
Proof.
  unfold getCompletionStatus, handleNext. cbn [snd].
  etransitivity; [exact (count_answersFrom questions accounts 0 0)|apply Z.add_0_l].
Qed.

End CompletionFacts.

(** X15: The badge counts exactly the answers that [handleNext] hands on, and
    that is at most one for each account and question. *)
Theorem completion_counts_answers (toISOString : nat -> nat -> string)
  (table : AccountEvaluation.Answers) (accounts : list Account.t)
  (questions : list Question.t) :
  snd (AccountEvaluation.getCompletionStatus accounts questions table)
  = Z.of_nat (List.length
                (AccountEvaluation.handleNext toISOString table accounts questions))
  /\ fst (AccountEvaluation.getCompletionStatus accounts questions table)
     = Z.of_nat (List.length accounts) * Z.of_nat (List.length questions)
  /\ 0 <= snd (AccountEvaluation.getCompletionStatus accounts questions table)
       <= fst (AccountEvaluation.getCompletionStatus accounts questions table).
Proof.
  rewrite (getCompletionStatus_answered toISOString).
  split; [reflexivity|]. split; [reflexivity|].
  pose proof (length_answersFrom toISOString table questions accounts 0) as H.
  unfold AccountEvaluation.handleNext. simpl. nia.
Qed.

Lemma isComplete_full (toISOString : nat -> nat -> string)
  (table : AccountEvaluation.Answers) (accounts : list Account.t)
  (questions : list Question.t) :
  AccountEvaluation.isComplete accounts questions table = true ->
  accounts <> [] /\ questions <> []
  /\ forall account question,
       In account accounts -> In question questions ->
       AccountEvaluation.lookup table (Account.id account) (Question.id question)
       <> None.
Proof.
  unfold AccountEvaluation.isComplete.
  destruct (AccountEvaluation.getCompletionStatus accounts questions table)
    as [total answered] eqn:E.
  intros H. apply andb_prop in H. destruct H as [Heq Hpos].
  apply Z.eqb_eq in Heq. apply Z.ltb_lt in Hpos.
  pose proof (getCompletionStatus_answered toISOString table accounts questions) as Ha.
  rewrite E in Ha. simpl in Ha.
  assert (Ht : total = Z.of_nat (List.length accounts) * Z.of_nat (List.length questions)).
  { unfold AccountEvaluation.getCompletionStatus in E. now inversion E. }
  split; [intros ->; simpl in Ht; lia|].
  split; [intros ->; simpl in Ht; lia|].
  intros account question Hacc Hq.
  apply (answersFrom_full toISOString table questions accounts 0); try assumption.
  unfold AccountEvaluation.handleNext in Ha. lia.
Qed.

(** X16: When the page lets the user go on ([isComplete]), there is an account
    and a question, and the engine finds an answer of every account to
    every question: no question is scored as unanswered. *)
Theorem complete_means_all_answered (toISOString : nat -> nat -> string)
  (table : AccountEvaluation.Answers) (accounts : list Account.t)
  (questions : list Question.t) :
  AccountEvaluation.isComplete accounts questions table = true ->
  accounts <> [] /\ questions <> []
  /\ forall account question,
       In account accounts -> In question questions ->
       exists answer,
         findAnswer
           (accountAnswers
              (AccountEvaluation.handleNext toISOString table accounts questions)
              account)
           question = Some answer
         /\ AccountEvaluation.lookup table (Account.id account) (Question.id question)
            = Some (AccountAnswer.answer answer).
Proof.
  intros H.
  destruct (isComplete_full toISOString table accounts questions H) as [Ha [Hq Hfull]].
  split; [exact Ha|]. split; [exact Hq|].
  intros account question Hacc Hqu.
  pose proof (findAnswer_handleNext toISOString table accounts questions
                account question Hacc Hqu) as Hfind.
  destruct (findAnswer _ _) as [a|]; simpl in Hfind.
  - exists a. split; [reflexivity|now symmetry].
  - elim (Hfull account question Hacc Hqu). now symmetry.
Qed.

(** ** The table of answers ([updateAnswer], the initial [reduce]) *)

Lemma find_app {X : Type} (f : X -> bool) (l1 l2 : list X) :
  find f (l1 ++ l2) = match find f l1 with Some x => Some x | None => find f l2 end.
Proof.
  induction l1 as [|x l IH]; simpl; [reflexivity|].
  destruct (f x); [reflexivity|exact IH].
Qed.

(** X17: [updateAnswer] writes one cell of the table and leaves every other cell,
    of the same account or of another, as it was. *)
Theorem updateAnswer_lookup (prev : AccountEvaluation.Answers)
  (accountId questionId : string) (answer : AnswerValue) (a q : string) :
  AccountEvaluation.lookup
    (AccountEvaluation.updateAnswer prev accountId questionId answer) a q
  = if String.eqb a accountId && String.eqb q questionId
    then Some answer
    else AccountEvaluation.lookup prev a q.
Proof.
  unfold AccountEvaluation.lookup, AccountEvaluation.updateAnswer,
    AccountEvaluation.setCell.
  destruct (String.eqb_spec a accountId) as [->|Ha]; simpl; [|reflexivity].
  destruct (String.eqb q questionId); reflexivity.
Qed.

Lemma storeInitial_lookup (acc : AccountEvaluation.Answers) (x : AccountAnswer.t)
  (a q : string) :
  AccountEvaluation.lookup (AccountEvaluation.storeInitial acc x) a q
  = if String.eqb (AccountAnswer.accountId x) a
       && String.eqb (AccountAnswer.questionId x) q
    then Some (AccountAnswer.answer x)
    else AccountEvaluation.lookup acc a q.
Proof.
  unfold AccountEvaluation.lookup, AccountEvaluation.storeInitial,
    AccountEvaluation.setCell.
  rewrite (String.eqb_sym (AccountAnswer.accountId x) a),
          (String.eqb_sym (AccountAnswer.questionId x) q).
  destruct (String.eqb_spec a (AccountAnswer.accountId x)) as [->|Ha]; simpl.
  - destruct (String.eqb q (AccountAnswer.questionId x)); [reflexivity|].
    destruct (acc (AccountAnswer.accountId x)) eqn:E; [now rewrite E|].
    now rewrite String.eqb_refl.
  - destruct (acc (AccountAnswer.accountId x)); [reflexivity|].
    apply String.eqb_neq in Ha. now rewrite Ha.
Qed.

Lemma initialAnswers_fold (l : list AccountAnswer.t) (a q : string) :
  forall acc,
    AccountEvaluation.lookup (fold_left AccountEvaluation.storeInitial l acc) a q
    = match find (fun x => String.eqb (AccountAnswer.accountId x) a
                           && String.eqb (AccountAnswer.questionId x) q) (rev l) with
      | Some x => Some (AccountAnswer.answer x)
      | None => AccountEvaluation.lookup acc a q
      end.
Proof.
  induction l as [|x l IH]; intros acc; simpl; [reflexivity|].
  rewrite IH, find_app. simpl.
  destruct (find _ (rev l)); [reflexivity|].
  rewrite storeInitial_lookup.
  destruct (_ && _); reflexivity.
Qed.

(** X18: Of several initial answers of one account to one question, the table
    keeps the last (the engine, given the same list, scores the first). *)
Theorem initialAnswers_last_wins (initial : list AccountAnswer.t) (a q : string) :
  AccountEvaluation.lookup (AccountEvaluation.initialAnswers initial) a q
  = option_map AccountAnswer.answer
      (find (fun x => String.eqb (AccountAnswer.accountId x) a
                      && String.eqb (AccountAnswer.questionId x) q)
            (rev initial)).
Proof.
  unfold AccountEvaluation.initialAnswers. rewrite initialAnswers_fold.
  destruct (find _ _); reflexivity.
Qed.

(** X19: Handing the answers on and coming back to the page restores the table
    on the accounts and questions of the page, and restores nothing else. *)
Theorem answers_round_trip (toISOString : nat -> nat -> string)
  (table : AccountEvaluation.Answers) (accounts : list Account.t)
  (questions : list Question.t) :
  (forall account question,
      In account accounts -> In question questions ->
      AccountEvaluation.lookup
        (AccountEvaluation.initialAnswers
           (AccountEvaluation.handleNext toISOString table accounts questions))
        (Account.id account) (Question.id question)
      = AccountEvaluation.lookup table (Account.id account) (Question.id question))
  /\ (forall a q v,
         AccountEvaluation.lookup
           (AccountEvaluation.initialAnswers
              (AccountEvaluation.handleNext toISOString table accounts questions))
           a q = Some v ->
         AccountEvaluation.lookup table a q = Some v
         /\ (exists account, In account accounts /\ a = Account.id account)
         /\ (exists question, In question questions /\ q = Question.id question)).
Proof.
  assert (Hsome : forall a q x,
             find (fun x => String.eqb (AccountAnswer.accountId x) a
                            && String.eqb (AccountAnswer.questionId x) q)
                  (rev (AccountEvaluation.handleNext toISOString table accounts questions))
             = Some x ->
             AccountEvaluation.lookup table a q = Some (AccountAnswer.answer x)
             /\ (exists account, In account accounts /\ a = Account.id account)
             /\ (exists question, In question questions /\ q = Question.id question)).
  { intros a q x E. apply find_some in E. destruct E as [Hin Hp].
    apply in_rev in Hin. apply andb_prop in Hp. destruct Hp as [H1 H2].
    apply String.eqb_eq in H1. apply String.eqb_eq in H2.
    destruct (answersFrom_sound toISOString table questions accounts 0 x Hin)
      as [[acc [Ha1 Ha2]] [[qu [Hq1 Hq2]] Hv]].
    rewrite H1, H2 in Hv. split; [exact Hv|]. split.
    - exists acc. split; [exact Ha1|congruence].
    - exists qu. split; [exact Hq1|congruence]. }
  split.
  - intros account question Ha Hq.
    unfold AccountEvaluation.initialAnswers. rewrite initialAnswers_fold.
    destruct (find _ _) as [x|] eqn:E; simpl.
    + symmetry. apply (Hsome _ _ _ E).
    + destruct (AccountEvaluation.lookup table (Account.id account)
                  (Question.id question)) as [v|] eqn:Ev; [|reflexivity].
      destruct (answersFrom_complete toISOString table questions accounts
                  account question v Ha Hq Ev 0) as [x [Hin [H1 H2]]].
      apply in_rev in Hin.
      pose proof (find_none _ _ E x Hin) as Hn. simpl in Hn.
      rewrite H1, H2, !String.eqb_refl in Hn. discriminate Hn.
  - intros a q v.
    unfold AccountEvaluation.initialAnswers. rewrite initialAnswers_fold.
    destruct (find _ _) as [x|] eqn:E; simpl; [|discriminate].
    intros [= <-]. apply (Hsome _ _ _ E).
Qed.

(** ** The accounts on the page ([addAccount], [removeAccount]) *)

Lemma removeAt_length {X : Type} (index : nat) (l : list X) :
  (index < List.length l)%nat ->
  List.length (AccountEvaluation.removeAt index l) = (List.length l - 1)%nat.
Proof.
  intros H. unfold AccountEvaluation.removeAt.
  rewrite length_app, length_firstn, length_skipn. lia.
Qed.

Lemma index_valid_iff (s : AccountEvaluation.State) :
  AccountEvaluation.index_valid s
  <-> (AccountEvaluation.currentAccountIndex s = 0
       \/ AccountEvaluation.currentAccountIndex s
          < List.length (AccountEvaluation.accounts s))%nat.
Proof. unfold AccountEvaluation.index_valid. lia. Qed.

Lemma handle_keeps_index (trim : string -> string)
  (s s' : AccountEvaluation.State) (e : AccountEvaluation.Event) :
  AccountEvaluation.index_valid s ->
  AccountEvaluation.offered s e ->
  AccountEvaluation.handle trim e s = Some s' ->
  AccountEvaluation.index_valid s'.
Proof.
  rewrite !index_valid_iff.
  destruct s as [accounts table cur].
  cbn [AccountEvaluation.currentAccountIndex AccountEvaluation.accounts].
  destruct e as [now iso form|now iso p|index|index|question answer];
    cbn [AccountEvaluation.handle AccountEvaluation.offered
         AccountEvaluation.currentAccountIndex AccountEvaluation.accounts
         AccountEvaluation.answers];
    intros Hv Hoff Hh.
  - injection Hh as <-. unfold AccountEvaluation.addAccount.
    destruct (String.eqb _ _);
      cbn [AccountEvaluation.currentAccountIndex AccountEvaluation.accounts];
      [exact Hv|].
    rewrite length_app. lia.
  - injection Hh as <-. unfold AccountEvaluation.addRecommendedProspect.
    cbn [AccountEvaluation.currentAccountIndex AccountEvaluation.accounts].
    rewrite length_app. lia.
  - unfold AccountEvaluation.removeAccount in Hh.
    cbn [AccountEvaluation.currentAccountIndex AccountEvaluation.accounts
         AccountEvaluation.answers] in Hh.
    destruct (nth_error accounts index) as [a|]; [|discriminate].
    injection Hh as <-.
    cbn [AccountEvaluation.currentAccountIndex AccountEvaluation.accounts].
    rewrite removeAt_length by exact Hoff.
    destruct (Z.of_nat (List.length accounts) - 1 <=? Z.of_nat cur) eqn:E.
    + apply Z.leb_le in E. lia.
    + apply Z.leb_gt in E. lia.
  - injection Hh as <-.
    cbn [AccountEvaluation.currentAccountIndex AccountEvaluation.accounts]. lia.
  - destruct (nth_error accounts cur); [|discriminate].
    injection Hh as <-.
    cbn [AccountEvaluation.currentAccountIndex AccountEvaluation.accounts].
    exact Hv.
Qed.

(** X20: Whatever accounts are added, selected and removed, the current index
    names an account as long as there is one, and no handler that the page
    offers fails: [removeAccount] finds its account, and an answer is always
    stored under the id of an account. *)
Theorem account_page_safe (trim : string -> string)
  (initialAccounts : list Account.t) (initial : list AccountAnswer.t)
  (s : AccountEvaluation.State) :
  AccountEvaluation.reachable trim
    (AccountEvaluation.initialState initialAccounts initial) s ->
  AccountEvaluation.index_valid s
  /\ (forall e, AccountEvaluation.offered s e ->
                exists s', AccountEvaluation.handle trim e s = Some s').
Proof.
  intros Hr.
  assert (Hv : AccountEvaluation.index_valid s).
  { induction Hr as [|s e s' _ IH Hoff Hh].
    - apply index_valid_iff. now left.
    - exact (handle_keeps_index trim s s' e IH Hoff Hh). }
  split; [exact Hv|].
  apply index_valid_iff in Hv.
  intros [now iso form|now iso p|index|index|question answer] Hoff; simpl in *.
  - eexists. reflexivity.
  - eexists. reflexivity.
  - unfold AccountEvaluation.removeAccount.
    destruct (nth_error (AccountEvaluation.accounts s) index) eqn:E.
    + eexists. reflexivity.
    + apply nth_error_None in E. lia.
  - eexists. reflexivity.
  - destruct (nth_error (AccountEvaluation.accounts s)
                (AccountEvaluation.currentAccountIndex s)) eqn:E.
    + eexists. reflexivity.
    + apply nth_error_None in E.
      destruct (AccountEvaluation.accounts s); [now elim Hoff|simpl in *; lia].
Qed.

(** ** Numbers in strings ([Number_toString]) *)

Lemma occurrences_app (c : ascii) (s1 s2 : string) :
  occurrences c (s1 ++ s2) = (occurrences c s1 + occurrences c s2)%nat.
Proof.
  induction s1 as [|a s1 IH]; simpl; [reflexivity|]. rewrite IH. lia.
Qed.

Lemma occurrences_none (p : ascii -> bool) (c : ascii) (s : string) :
  string_forallb p s = true -> p c = false -> occurrences c s = O.
Proof.
  intros Hs Hc. induction s as [|a s IH]; simpl in *; [reflexivity|].
  apply andb_prop in Hs. destruct Hs as [Ha Hs].
  destruct (Ascii.eqb_spec a c) as [->|_]; [congruence|]. now apply IH.
Qed.

Lemma string_of_uint_digits (d : Decimal.uint) :
  string_forallb is_digit_or_minus (NilEmpty.string_of_uint d) = true.
Proof. induction d; simpl; auto. Qed.

Lemma Number_toString_digits (z : Z) :
  string_forallb is_digit_or_minus (JS.Number_toString z) = true.
Proof.
  unfold JS.Number_toString, NilZero.string_of_int, NilZero.string_of_uint.
  destruct (Z.to_int z) as [d|d]; destruct d; simpl;
    try reflexivity; apply string_of_uint_digits.
Qed.

Lemma Number_toString_inj (z1 z2 : Z) :
  JS.Number_toString z1 = JS.Number_toString z2 -> z1 = z2.
Proof.
  unfold JS.Number_toString. intros H.
  apply DecimalZ.to_int_inj.
  assert (Hn : forall z, Z.to_int z <> Decimal.Pos Decimal.Nil
                         /\ Z.to_int z <> Decimal.Neg Decimal.Nil).
  { intros [|p|p]; simpl; split; try discriminate;
      intros [= E]; now apply (DecimalPos.Unsigned.to_uint_nonnil p). }
  pose proof (NilZero.isi _ (proj1 (Hn z1)) (proj2 (Hn z1))) as E1.
  pose proof (NilZero.isi _ (proj1 (Hn z2)) (proj2 (Hn z2))) as E2.
  rewrite H in E1. congruence.
Qed.

(** ** Separators in the export ([exportResults], Results.tsx lines 118-129) *)

(** X12: A line of the export has five commas more than the name and the
    industry of its account contain: the fields are written as they are, so
    a comma in a company name moves the fields after it one column to the
    right. *)
Theorem export_line_commas (result : EvaluationResult.t) :
  occurrences comma (JS.Array_join "," (csvRow result))
  = (5 + occurrences comma (Account.name (EvaluationResult.account result))
     + occurrences comma (Account.industry (EvaluationResult.account result)))%nat.
Proof.
  assert (Hn : forall z, occurrences comma (JS.Number_toString z) = O).
  { intros z. apply (occurrences_none is_digit_or_minus);
      [apply Number_toString_digits|reflexivity]. }
  assert (Ht : forall t, occurrences comma (Tier.to_string t) = O).
  { intros []; reflexivity. }
  unfold JS.Array_join, csvRow. cbn [String.concat].
  rewrite !occurrences_app, !Hn, Ht.
  change (occurrences comma ",") with 1%nat.
  change (occurrences comma "/") with O.
  change (occurrences comma "%") with O.
  lia.
Qed.

Lemma export_line_commas_example :
  JS.Array_join ","
    (csvRow (EvaluationResult.mk
               (Account.mk "a" "Acme, Inc." "Software" "" "" "" None None "" "")
               (AccountScore.mk "a" 23 40 57 Tier.C 1) []))
  = "1,Acme, Inc.,Software,23/40,57%,C"%string.
Proof. reflexivity. Qed.

(** ** The ids of the questions ([handleCriteriaNext], App.tsx lines 83-94) *)

Lemma append_assoc (s1 s2 s3 : string) :
  ((s1 ++ s2) ++ s3 = s1 ++ (s2 ++ s3))%string.
Proof. induction s1 as [|a s1 IH]; simpl; [reflexivity|now rewrite IH]. Qed.

Lemma string_forallb_app_char (p : ascii -> bool) (s t : string) (c : ascii) :
  string_forallb p (s ++ String c t) = true -> p c = true.
Proof.
  induction s as [|a s IH]; simpl; intros H; apply andb_prop in H; destruct H as [H1 H2].
  - exact H1.
  - now apply IH.
Qed.

(** A string is cut in one way only at a separator that its last part does
    not contain. *)
Lemma last_part_unique (p : ascii -> bool) (c : ascii) (a a' b b' : string) :
  p c = false ->
  string_forallb p b = true -> string_forallb p b' = true ->
  (a ++ String c b = a' ++ String c b')%string -> b = b'.
Proof.
  intros Hc Hb Hb'. revert a'.
  induction a as [|x a IH]; intros [|x' a'] H; simpl in H.
  - now injection H.
  - injection H as _ H. rewrite H in Hb.
    apply string_forallb_app_char in Hb. congruence.
  - injection H as _ H. rewrite <- H in Hb'.
    apply string_forallb_app_char in Hb'. congruence.
  - injection H as _ H. now apply (IH a').
Qed.

Lemma newQuestions_ids (userId companyId : string) (now : nat -> Z)
  (iso : nat -> string) (questionsData : list CriteriaBuilder.Draft) :
  forall index id,
    In id (map Question.id
               (App.newQuestions userId companyId now iso index questionsData)) ->
    exists k, (index <= k)%nat
              /\ id = ("question_" ++ JS.Number_toString (now k) ++ "_"
                       ++ JS.Number_toString (Z.of_nat k))%string.
Proof.
  induction questionsData as [|q l IH]; intros index id H; simpl in H; [contradiction|].
  destruct H as [<-|H].
  - exists index. split; [lia|reflexivity].
  - destruct (IH _ _ H) as [k [Hk E]]. exists k. split; [lia|exact E].
Qed.

Lemma question_id_index (t1 t2 : Z) (k1 k2 : nat) :
  ("question_" ++ JS.Number_toString t1 ++ "_" ++ JS.Number_toString (Z.of_nat k1)
   = "question_" ++ JS.Number_toString t2 ++ "_" ++ JS.Number_toString (Z.of_nat k2))%string ->
  k1 = k2.
Proof.
  intros H.
  change ("_" ++ JS.Number_toString (Z.of_nat k1))%string
    with (String "_" (JS.Number_toString (Z.of_nat k1))) in H.
  change ("_" ++ JS.Number_toString (Z.of_nat k2))%string
    with (String "_" (JS.Number_toString (Z.of_nat k2))) in H.
  rewrite <- !append_assoc in H.
  apply (last_part_unique is_digit_or_minus) in H;
    try apply Number_toString_digits; [|reflexivity].
  apply Number_toString_inj in H. lia.
Qed.

(** X21: The questions get pairwise different ids, whatever the clock reads: the
    position of a question ends its id. *)
Theorem question_ids_distinct (userId companyId : string) (now : nat -> Z)
  (iso : nat -> string) (questionsData : list CriteriaBuilder.Draft) (index : nat) :
  NoDup (map Question.id
             (App.newQuestions userId companyId now iso index questionsData)).
Proof.
  revert index. induction questionsData as [|q l IH]; intros index; simpl.
  - constructor.
  - constructor; [|apply IH].
    intros Hin. apply newQuestions_ids in Hin. destruct Hin as [k [Hk E]].
    apply question_id_index in E. lia.
Qed.

Lemma newQuestions_strip (userId companyId : string) (now : nat -> Z)
  (iso : nat -> string) (questionsData : list CriteriaBuilder.Draft) :
  forall index,
    map CriteriaBuilder.strip
        (App.newQuestions userId companyId now iso index questionsData)
    = questionsData.
Proof.
  induction questionsData as [|[t k w o] l IH]; intros index; simpl; [reflexivity|].
  now rewrite IH.
Qed.

(** X22: Going back to the criteria page shows the questions that were handed on,
    in the same order, with their texts, types, weights and options. *)
Theorem criteria_round_trip (userId : string) (now : nat -> Z) (iso : nat -> string)
  (questionsData : list CriteriaBuilder.Draft) (s : App.State) :
  CriteriaBuilder.initialQuestions
    (Some (App.questions (App.handleCriteriaNext userId now iso questionsData s)))
  = questionsData.
Proof. simpl. apply newQuestions_strip. Qed.

(** ** The wizard ([App], App.tsx lines 72-115) *)

(** What holds of the state at each step. *)
Lemma wizard_invariant (userId : string) (s : App.State) :
  App.reachable userId s ->
  1 <= App.currentStep s <= 4
  /\ (3 <= App.currentStep s -> App.questions s <> [])
  /\ (App.currentStep s = 4 ->
      App.accounts s <> []
      /\ forall account question,
           In account (App.accounts s) -> In question (App.questions s) ->
           exists answer,
             findAnswer (accountAnswers (App.answers s) account) question
             = Some answer).
Proof.
  induction 1 as [|s e s' _ IH Hd].
  - simpl. split; [lia|]. split; intros; lia.
  - destruct IH as [Hstep [Hq Hfour]].
    destruct e as [now iso data|now iso drafts|clock accts table| |]; simpl in Hd.
    + destruct (App.currentStep s =? 1); [|discriminate].
      injection Hd as <-. simpl. split; [lia|]. split; intros; lia.
    + destruct (App.currentStep s =? 2); [|discriminate].
      destruct drafts as [|d l]; [discriminate|]. simpl in Hd.
      injection Hd as <-. simpl. split; [lia|]. split; [|intros; lia].
      intros _. discriminate.
    + destruct (App.currentStep s =? 3) eqn:E3; [|discriminate].
      destruct (AccountEvaluation.isComplete accts (App.questions s) table) eqn:Ec;
        [|discriminate].
      simpl in Hd. injection Hd as <-. simpl.
      destruct (isComplete_full clock table accts (App.questions s) Ec)
        as [Ha [Hq' Hall]].
      split; [lia|]. split; [intros _; exact Hq'|].
      intros _. split; [exact Ha|].
      intros account question Hacc Hqu.
      pose proof (findAnswer_handleNext clock table accts (App.questions s)
                    account question Hacc Hqu) as Hfind.
      destruct (findAnswer _ _) as [answer|]; simpl in Hfind.
      * now exists answer.
      * elim (Hall account question Hacc Hqu). now symmetry.
    + destruct ((2 <=? App.currentStep s) && (App.currentStep s <=? 4)) eqn:E;
        [|discriminate].
      apply andb_prop in E. destruct E as [E1 E2].
      apply Z.leb_le in E1. apply Z.leb_le in E2.
      injection Hd as <-. unfold App.handleBack.
      destruct (1 <? App.currentStep s) eqn:E; [|apply Z.ltb_ge in E; lia].
      simpl. split; [lia|]. split; [|intros; lia].
      intros H3. apply Hq. lia.
    + destruct (App.currentStep s =? 4); [|discriminate].
      injection Hd as <-. simpl. split; [lia|]. split; intros; lia.
Qed.

(** X23: The wizard stays on steps 1 to 4, and is on step 3 or 4 only with at
    least one question. *)
Theorem wizard_steps (userId : string) (s : App.State) :
  App.reachable userId s ->
  1 <= App.currentStep s <= 4
  /\ (App.questions s = [] -> App.currentStep s <= 2).
Proof.
  intros H. destruct (wizard_invariant userId s H) as [Hs [Hq _]].
  split; [exact Hs|]. intros E.
  destruct (Z_le_gt_dec (App.currentStep s) 2) as [Hle|Hgt]; [exact Hle|].
  elim Hq; [lia|exact E].
Qed.

(** X24: When the results page is shown there is at least one question and one
    account, and the engine finds an answer of every account to every
    question: on that page no score counts a question as unanswered. *)
Theorem results_page_complete (userId : string) (s : App.State) :
  App.reachable userId s ->
  App.currentStep s = 4 ->
  App.questions s <> [] /\ App.accounts s <> []
  /\ forall account question,
       In account (App.accounts s) -> In question (App.questions s) ->
       exists answer,
         findAnswer (accountAnswers (App.answers s) account) question = Some answer.
Proof.
  intros H H4. destruct (wizard_invariant userId s H) as [_ [Hq Hfour]].
  destruct (Hfour H4) as [Ha Hall].
  split; [apply Hq; lia|]. split; assumption.
Qed.

(** ** The criteria page (CriteriaBuilder.tsx lines 20-99) *)

Lemma removeAt_length_ge {X : Type} (index : nat) (l : list X) :
  (List.length l - 1 <= List.length (AccountEvaluation.removeAt index l))%nat.
Proof.
  unfold AccountEvaluation.removeAt.
  rewrite length_app, length_firstn, length_skipn. lia.
Qed.

Lemma removeAt_incl {X : Type} (index : nat) (l : list X) (x : X) :
  In x (AccountEvaluation.removeAt index l) -> In x l.
Proof.
  unfold AccountEvaluation.removeAt. intros H.
  apply in_app_or in H. destruct H as [H|H].
  - rewrite <- (firstn_skipn index l). apply in_or_app. now left.
  - rewrite <- (firstn_skipn (S index) l). apply in_or_app. now right.
Qed.

Lemma replaceAt_some (value : string) (l : list string) :
  forall index, (index < List.length l)%nat ->
    exists l', CriteriaBuilder.replaceAt index value l = Some l'
               /\ List.length l' = List.length l.
Proof.
  induction l as [|x l IH]; intros index H; simpl in H; [lia|].
  destruct index as [|i]; simpl.
  - eexists. split; reflexivity.
  - destruct (IH i) as [l' [E Hl]]; [lia|].
    rewrite E. simpl. eexists. split; [reflexivity|]. simpl. now rewrite Hl.
Qed.

Lemma replaceAt_length (value : string) (l : list string) :
  forall index l', CriteriaBuilder.replaceAt index value l = Some l' ->
    List.length l' = List.length l.
Proof.
  induction l as [|x l IH]; intros [|i] l' H; simpl in H; try discriminate.
  - injection H as <-. reflexivity.
  - destruct (CriteriaBuilder.replaceAt i value l) as [r|] eqn:E; [|discriminate].
    injection H as <-. simpl. now rewrite (IH i r E).
Qed.

Lemma setWeightFrom_ok (trim : string -> string) (index : nat) (weight : Z)
  (questions : list CriteriaBuilder.Draft) :
  forall i,
    Forall (CriteriaBuilder.question_ok trim) questions ->
    Forall (CriteriaBuilder.question_ok trim)
           (CriteriaBuilder.setWeightFrom i index weight questions).
Proof.
  induction questions as [|q l IH]; intros i H; simpl; [constructor|].
  inversion H as [|? ? Hq Hl]; subst.
  constructor; [|now apply IH].
  destruct (Nat.eqb i index); exact Hq.
Qed.

Lemma criteria_handle_keeps (trim : string -> string)
  (s s' : CriteriaBuilder.State) (e : CriteriaBuilder.Event) :
  CriteriaBuilder.handle trim e s = Some s' ->
  (CriteriaBuilder.form_ok s -> CriteriaBuilder.form_ok s')
  /\ (Forall (CriteriaBuilder.question_ok trim) (CriteriaBuilder.questions s) ->
      Forall (CriteriaBuilder.question_ok trim) (CriteriaBuilder.questions s')).
Proof.
  unfold CriteriaBuilder.form_ok.
  destruct s as [qs [t k w o]].
  destruct e as [v|v|v| |i v|i| |i|i v]; simpl; intros H.
  - injection H as <-. simpl. auto.
  - injection H as <-. simpl. split; [|auto].
    intros _ Hk. subst v. eexists. split; [reflexivity|discriminate].
  - injection H as <-. simpl. auto.
  - unfold CriteriaBuilder.addOption in H. simpl in H.
    destruct o as [opts|]; [|discriminate]. injection H as <-. simpl.
    split; [|auto]. intros _ _. eexists. split; [reflexivity|].
    destruct opts; discriminate.
  - unfold CriteriaBuilder.updateOption in H. simpl in H.
    destruct o as [opts|]; [|discriminate].
    destruct (CriteriaBuilder.replaceAt i v opts) as [l'|] eqn:E; [|discriminate].
    injection H as <-. simpl. split; [|auto].
    intros Hok Hk. destruct (Hok Hk) as [opts' [[= <-] Hne]].
    eexists. split; [reflexivity|].
    apply replaceAt_length in E. destruct l'; [|discriminate].
    destruct opts; [now elim Hne|discriminate].
  - unfold CriteriaBuilder.removeOption in H. simpl in H.
    destruct o as [opts|]; [|discriminate].
    destruct (1 <? List.length opts)%nat eqn:E.
    + injection H as <-. simpl. split; [|auto].
      intros _ _. eexists. split; [reflexivity|].
      apply Nat.ltb_lt in E.
      pose proof (removeAt_length_ge i opts) as Hl.
      destruct (AccountEvaluation.removeAt i opts); [simpl in Hl; lia|discriminate].
    + injection H as <-. simpl. auto.
  - unfold CriteriaBuilder.addQuestion in H. simpl in H.
    destruct (CriteriaBuilder.filled trim t); [|injection H as <-; simpl; auto].
    destruct k.
    + injection H as <-. simpl. split; [intros _ Hk; discriminate Hk|].
      intros Hqs. apply Forall_app. split; [exact Hqs|].
      constructor; [|constructor]. unfold CriteriaBuilder.question_ok. simpl.
      discriminate.
    + injection H as <-. simpl. split; [intros _ Hk; discriminate Hk|].
      intros Hqs. apply Forall_app. split; [exact Hqs|].
      constructor; [|constructor]. unfold CriteriaBuilder.question_ok. simpl.
      discriminate.
    + destruct o as [opts|]; [|discriminate].
      injection H as <-. simpl. split; [intros _ Hk; discriminate Hk|].
      intros Hqs. apply Forall_app. split; [exact Hqs|].
      constructor; [|constructor]. unfold CriteriaBuilder.question_ok. simpl.
      split; [reflexivity|].
      apply Forall_forall. intros x Hx. apply filter_In in Hx. apply Hx.
  - injection H as <-. simpl. split; [auto|].
    intros Hqs. apply Forall_forall. intros x Hx.
    unfold CriteriaBuilder.removeQuestion in Hx. apply removeAt_incl in Hx.
    rewrite Forall_forall in Hqs. now apply Hqs.
  - injection H as <-. simpl. split; [auto|].
    intros Hqs. now apply setWeightFrom_ok.
Qed.

(** X25: On the criteria page a multiple-choice form always has at least one
    option, no handler that the page offers fails (none spreads, filters or
    measures [undefined] options), and as long as the initial questions are
    well formed so is every listed question: it has options exactly when it
    is a multiple-choice question, none of them blank. *)
Theorem criteria_page_safe (trim : string -> string)
  (initialData : option (list Question.t)) (s : CriteriaBuilder.State) :
  CriteriaBuilder.reachable trim (CriteriaBuilder.initialState initialData) s ->
  CriteriaBuilder.form_ok s
  /\ (forall e, CriteriaBuilder.offered trim s e ->
                exists s', CriteriaBuilder.handle trim e s = Some s')
  /\ (Forall (CriteriaBuilder.question_ok trim)
             (CriteriaBuilder.initialQuestions initialData) ->
      Forall (CriteriaBuilder.question_ok trim) (CriteriaBuilder.questions s)).
Proof.
  intros Hr.
  assert (Hinv : CriteriaBuilder.form_ok s
                 /\ (Forall (CriteriaBuilder.question_ok trim)
                            (CriteriaBuilder.initialQuestions initialData) ->
                     Forall (CriteriaBuilder.question_ok trim)
                            (CriteriaBuilder.questions s))).
  { induction Hr as [|s e s' _ [IH1 IH2] _ Hh].
    - split; [|auto]. intros H. discriminate H.
    - destruct (criteria_handle_keeps trim s s' e Hh) as [K1 K2]. split; auto. }
  destruct Hinv as [Hform Hqs]. split; [exact Hform|]. split; [|exact Hqs].
  unfold CriteriaBuilder.form_ok in Hform.
  destruct s as [qs [t k w o]]. simpl in Hform.
  intros [v|v|v| |i v|i| |i|i v]; simpl; intros Hoff;
    try (eexists; reflexivity).
  - destruct (Hform Hoff) as [opts [-> _]].
    unfold CriteriaBuilder.addOption. simpl. eexists. reflexivity.
  - destruct Hoff as [_ [opts [-> Hi]]].
    unfold CriteriaBuilder.updateOption. simpl.
    destruct (replaceAt_some v opts i Hi) as [l' [-> _]]. eexists. reflexivity.
  - destruct Hoff as [_ [opts [-> _]]].
    unfold CriteriaBuilder.removeOption. simpl.
    destruct (1 <? List.length opts)%nat; eexists; reflexivity.
  - unfold CriteriaBuilder.addQuestion. simpl. rewrite Hoff.
    destruct k; try (eexists; reflexivity).
    destruct (Hform eq_refl) as [opts [-> _]]. eexists. reflexivity.
Qed.

(** ** The same on sample data *)

(** Acme's cell for the yes/no question, read by the engine. *)
Lemma engine_reads_table_witness :
  option_map AccountAnswer.answer
    (findAnswer
       (accountAnswers
          (AccountEvaluation.handleNext sample_clock sample_table [acme; bolt]
             [question_yes_no; question_count])
          acme)
       question_yes_no)
  = AccountEvaluation.lookup sample_table "a" "q0".
Proof.
  refine (proj1 (engine_reads_table sample_clock sample_table [acme; bolt]
                   [question_yes_no; question_count] acme question_yes_no _ _)).
  - now left.
  - now left.
Defined.

(** Acme alone with the two questions it has answered is complete. *)
Lemma complete_means_all_answered_witness :
  [acme] <> [] /\ [question_yes_no; question_count] <> []
  /\ forall account question,
       In account [acme] -> In question [question_yes_no; question_count] ->
       exists answer,
         findAnswer
           (accountAnswers
              (AccountEvaluation.handleNext sample_clock sample_table [acme]
                 [question_yes_no; question_count])
              account)
           question = Some answer
         /\ AccountEvaluation.lookup sample_table (Account.id account)
              (Question.id question)
            = Some (AccountAnswer.answer answer).
Proof.
  apply (complete_means_all_answered sample_clock sample_table [acme]
           [question_yes_no; question_count]).
  reflexivity.
Defined.

Lemma sample_page_reachable :
  AccountEvaluation.reachable no_trim sample_page sample_page_after.
Proof.
  apply (AccountEvaluation.reachable_step no_trim sample_page sample_page
           (AccountEvaluation.RemoveAccount 1) sample_page_after).
  - apply AccountEvaluation.reachable_start.
  - simpl. lia.
  - reflexivity.
Defined.

(** After Bolt is removed from the page of Acme and Bolt. *)
Lemma account_page_safe_witness :
  AccountEvaluation.index_valid sample_page_after
  /\ (forall e, AccountEvaluation.offered sample_page_after e ->
                exists s', AccountEvaluation.handle no_trim e sample_page_after
                           = Some s').
Proof.
  exact (account_page_safe no_trim [acme; bolt] [] sample_page_after
           sample_page_reachable).
Defined.

Lemma sample_criteria_reachable :
  CriteriaBuilder.reachable no_trim sample_criteria sample_criteria_after.
Proof.
  apply (CriteriaBuilder.reachable_step no_trim sample_criteria sample_criteria
           (CriteriaBuilder.SelectType Question.multiple_choice)
           sample_criteria_after).
  - apply CriteriaBuilder.reachable_start.
  - exact I.
  - reflexivity.
Defined.

(** After multiple choice is selected on the fresh criteria page. *)
Lemma criteria_page_safe_witness :
  CriteriaBuilder.form_ok sample_criteria_after
  /\ (forall e, CriteriaBuilder.offered no_trim sample_criteria_after e ->
                exists s', CriteriaBuilder.handle no_trim e sample_criteria_after
                           = Some s')
  /\ (Forall (CriteriaBuilder.question_ok no_trim)
             (CriteriaBuilder.initialQuestions None) ->
      Forall (CriteriaBuilder.question_ok no_trim)
             (CriteriaBuilder.questions sample_criteria_after)).
Proof.
  exact (criteria_page_safe no_trim None sample_criteria_after
           sample_criteria_reachable).
Defined.

Lemma wizard_results_reachable : App.reachable "user_1" wizard_results.
Proof.
  apply (App.reachable_dispatch "user_1" wizard_criteria
           (App.EvaluationNext sample_clock [acme] wizard_table)).
  - apply (App.reachable_dispatch "user_1" wizard_company
             (App.CriteriaNext (fun _ => 0)
                (fun _ => "2025-01-01T00:00:00.000Z"%string)
                [CriteriaBuilder.mkDraft "Is it large?" Question.boolean 10 None])).
    + apply (App.reachable_dispatch "user_1" App.initial
               (App.CompanyNext 0 "2025-01-01T00:00:00.000Z"
                  (App.mkCompanyData "Seller" "" "Software" ""))).
      * apply App.reachable_initial.
      * reflexivity.
    + reflexivity.
  - reflexivity.
Defined.

(** The sample run is on step 4, with its one question. *)
Lemma wizard_steps_witness :
  1 <= App.currentStep wizard_results <= 4
  /\ (App.questions wizard_results = [] -> App.currentStep wizard_results <= 2).
Proof.
  exact (wizard_steps "user_1" wizard_results wizard_results_reachable).
Defined.

(** On the results page of the sample run Acme has its answer. *)
Lemma results_page_complete_witness :
  App.questions wizard_results <> [] /\ App.accounts wizard_results <> []
  /\ forall account question,
       In account (App.accounts wizard_results) ->
       In question (App.questions wizard_results) ->
       exists answer,
         findAnswer (accountAnswers (App.answers wizard_results) account) question
         = Some answer.
Proof.
  exact (results_page_complete "user_1" wizard_results wizard_results_reachable
           eq_refl).
Defined.

(** ** Weights as the slider gives them *)

Lemma sum_of_weights_ge (questions : list Question.t) :
  Forall (fun q => 1 <= Question.weight q) questions ->
  Z.of_nat (List.length questions) <= sum_of_weights questions.
Proof.
  unfold sum_of_weights.
  induction 1 as [|q l Hq _ IH]; cbn [List.length map fold_right]; [lia|].
  rewrite Nat2Z.inj_succ. lia.
Qed.

(** X11: With weights of at least 1, as the slider gives them, and at least one
    question, every [maxScore] is at least the number of questions: the
    percentage is then the rounded quotient, never the 0 that stands in for
    a [maxScore] that is not positive. *)
Theorem positive_weights_positive_maxScore (StringToNumber : string -> float)
  (accounts : list Account.t) (questions : list Question.t)
  (answers : list AccountAnswer.t) :
  Forall (fun q => 1 <= Question.weight q) questions ->
  questions <> [] ->
  Forall (fun r =>
            Z.of_nat (List.length questions) <= EvaluationResult.maxScore r
            /\ 0 < EvaluationResult.maxScore r
            /\ EvaluationResult.percentage r
               = JS.Math_round
                   (PrimFloat.mul
                      (PrimFloat.div (JS.of_Z (EvaluationResult.totalScore r))
                                     (JS.of_Z (EvaluationResult.maxScore r)))
                      100%float))
         (calculateScores StringToNumber accounts questions answers).
Proof.
  intros Hw Hne. apply calculateScores_Forall.
  - intros result r H. exact H.
  - intros account _.
    pose proof (evaluateAccount_scores StringToNumber questions answers account) as E.
    pose proof (fold_scoreQuestion_maxScore StringToNumber
                  (accountAnswers answers account) questions (0, 0)) as M.
    fold (scoreQuestions StringToNumber (accountAnswers answers account) questions) in M.
    rewrite <- E in M. simpl in M.
    pose proof (sum_of_weights_ge questions Hw) as Hs.
    assert (Hpos : 0 < EvaluationResult.maxScore
                         (evaluateAccount StringToNumber questions answers account)).
    { destruct questions; [now elim Hne|].
      cbn [List.length] in Hs. rewrite Nat2Z.inj_succ in Hs. lia. }
    split; [lia|]. split; [exact Hpos|].
    rewrite evaluateAccount_percentage. unfold percentageOf.
    apply Z.ltb_lt in Hpos. now rewrite Hpos.
Qed.

Lemma positive_weights_positive_maxScore_witness :
  Forall (fun r =>
            Z.of_nat (List.length questions_40) <= EvaluationResult.maxScore r
            /\ 0 < EvaluationResult.maxScore r
            /\ EvaluationResult.percentage r
               = JS.Math_round
                   (PrimFloat.mul
                      (PrimFloat.div (JS.of_Z (EvaluationResult.totalScore r))
                                     (JS.of_Z (EvaluationResult.maxScore r)))
                      100%float))
         (calculateScores no_numeric_string [acme; bolt] questions_40 answers_23).
Proof.
  apply (positive_weights_positive_maxScore no_numeric_string [acme; bolt]
           questions_40 answers_23).
  - repeat constructor; discriminate.
  - discriminate.
Defined.
